(** * budgetbot: the budget aggregation and conversation-state engine

    A shallow embedding of [src/budgetbot/src/index.ts] (and of the later
    revision of the same worker that factors the summaries into
    [getDailySummaryData] and [getMonthlySummaryData]).

    Conventions of the model.
    - Text is a [string] of 8-bit code units.
    - A JavaScript number is an IEEE 754 binary64 value ([number]): a signed
      zero, a signed infinity, [NaN], or a finite value given by its sign,
      mantissa and binary exponent.  [Number(text)] rounds the decimal
      literal to the nearest double, ties to even, and [+], [-] and [*] are
      the correctly rounded operations.  Amounts and budgets are such
      numbers, as in the column [amount REAL] of the table.
    - The loop counters, the years, the months and the Telegram identifiers
      are integers ([Z]).
    - A plain JavaScript object is an association list in insertion order
      ([JsObject]); the D1 tables are a list of rows ([expenses], append
      only) and a finite map keyed by the primary key ([user_state]).
      SQL leaves open the order of the groups of a [GROUP BY] and the way
      [SUM] adds: here the groups come in the order in which the
      categories first occur, and [SUM(amount)] adds the amounts of a
      group to [0.0] in row order, each addition rounded.
    - The clock is an input: the record that [nowSgLocal] returns, read once
      for a request.  The local time zone of the runtime is UTC, so
      [new Date(y, m, d)] and [Date.UTC(y, m, d)] denote the same instant.
    - The query parameters of the monthly endpoint are taken after their
      conversion to numbers, as integers. *)

From Stdlib Require Import ZArith QArith Lia String Ascii List Permutation.
From Stdlib Require Import SpecFloat.
From stdpp Require Import base gmap list strings pretty.

Open Scope Z_scope.

(** ** Text helpers: the built-in string operations the worker uses *)

Module JsString.

(** [WhiteSpace] and [LineTerminator] code units below 256: TAB, LF, VT,
    FF, CR, SP and NBSP.  This is the set [trim] and [\s] use. *)
Definition is_whitespace (c : ascii) : bool :=
  let n := N_of_ascii c in
  ((n =? 9) || (n =? 10) || (n =? 11) || (n =? 12) || (n =? 13)
   || (n =? 32) || (n =? 160))%N.

Fixpoint drop_whitespace (s : list ascii) : list ascii :=
  match s with
  | c :: s' => if is_whitespace c then drop_whitespace s' else s
  | [] => []
  end.

Definition trim_chars (s : list ascii) : list ascii :=
  rev (drop_whitespace (rev (drop_whitespace s))).

(** [s.trim()] *)
Definition trim (s : string) : string :=
  string_of_list_ascii (trim_chars (list_ascii_of_string s)).

(** [s.startsWith(p)] *)
Fixpoint startsWith (p s : string) : bool :=
  match p, s with
  | EmptyString, _ => true
  | String a p', String b s' => if Ascii.eqb a b then startsWith p' s' else false
  | String _ _, EmptyString => false
  end.

(** [s.split(/\s+/)[0]]: the characters before the first white space. *)
Fixpoint first_word (s : string) : string :=
  match s with
  | EmptyString => EmptyString
  | String c s' => if is_whitespace c then EmptyString else String c (first_word s')
  end.

(** [s.split(sep)] for a one-character separator. *)
Fixpoint split_on (sep : ascii) (s : string) : list string :=
  match s with
  | EmptyString => [EmptyString]
  | String c s' =>
      if Ascii.eqb c sep then EmptyString :: split_on sep s'
      else match split_on sep s' with
           | w :: ws => String c w :: ws
           | [] => [String c EmptyString]
           end
  end.

Definition is_digit (c : ascii) : bool :=
  let n := N_of_ascii c in ((48 <=? n) && (n <=? 57))%N.

End JsString.

(** ** Numbers: binary64 values, [Number(text)] and [Number.isFinite] *)

Definition number : Type := spec_float.

Module JsNumber.
Import JsString.

(** The precision and the exponent bound of binary64. *)
Definition prec : Z := 53.
Definition emax : Z := 1024.

Definition NaN : number := S754_nan.
Definition Infinity (negative : bool) : number := S754_infinity negative.

(** The literal [0]. *)
Definition zero : number := S754_zero false.

(** [x + y], [x - y] and [x * y] *)
Definition add (x y : number) : number := SFadd prec emax x y.
Definition sub (x y : number) : number := SFsub prec emax x y.
Definition mul (x y : number) : number := SFmul prec emax x y.

Definition strict_equal (x y : number) : bool := SFeqb x y.

(** The number for the integer [z]: the nearest double, ties to even. *)
Definition of_Z (z : Z) : number := binary_normalize prec emax z 0 false.

Definition decimal_digit (c : ascii) : option Z :=
  let n := N_of_ascii c in
  if ((48 <=? n) && (n <=? 57))%N then Some (Z.of_N n - 48) else None.

Definition hex_digit (c : ascii) : option Z :=
  let n := N_of_ascii c in
  if ((48 <=? n) && (n <=? 57))%N then Some (Z.of_N n - 48)
  else if ((65 <=? n) && (n <=? 70))%N then Some (Z.of_N n - 55)
  else if ((97 <=? n) && (n <=? 102))%N then Some (Z.of_N n - 87)
  else None.

Definition octal_digit (c : ascii) : option Z :=
  let n := N_of_ascii c in
  if ((48 <=? n) && (n <=? 55))%N then Some (Z.of_N n - 48) else None.

Definition binary_digit (c : ascii) : option Z :=
  let n := N_of_ascii c in
  if ((48 <=? n) && (n <=? 49))%N then Some (Z.of_N n - 48) else None.

(** The longest prefix of digits, and what follows it. *)
Fixpoint read_digits (dig : ascii -> option Z) (s : list ascii)
  : list Z * list ascii :=
  match s with
  | c :: s' =>
      match dig c with
      | Some d => let '(ds, r) := read_digits dig s' in (d :: ds, r)
      | None => ([], s)
      end
  | [] => ([], [])
  end.

Definition digits_value (radix : Z) (ds : list Z) : Z :=
  fold_left (fun acc d => acc * radix + d) ds 0.

Definition is_nil {A} (l : list A) : bool :=
  match l with [] => true | _ => false end.

(** [StrUnsignedDecimalLiteral] without [Infinity]: the mantissa [m] and
    the decimal exponent [e] of the mathematical value [m * 10^e]. *)
Definition parse_unsigned_decimal (s : list ascii) : option (Z * Z) :=
  let '(ip, r1) := read_digits decimal_digit s in
  let '(fp, r2) :=
    match r1 with
    | "."%char :: r => read_digits decimal_digit r
    | _ => ([], r1)
    end in
  if is_nil ip && is_nil fp then None
  else
    let m := digits_value 10 (ip ++ fp) in
    let e := - Z.of_nat (length fp) in
    match r2 with
    | [] => Some (m, e)
    | c :: r3 =>
        if Ascii.eqb c "e" || Ascii.eqb c "E" then
          let '(neg, r4) :=
            match r3 with
            | "+"%char :: r => (false, r)
            | "-"%char :: r => (true, r)
            | _ => (false, r3)
            end in
          let '(ed, r5) := read_digits decimal_digit r4 in
          if is_nil ed || negb (is_nil r5) then None
          else
            let x := digits_value 10 ed in
            Some (m, e + (if neg then - x else x))
        else None
    end.

(** [NonDecimalIntegerLiteral]: [0x], [0o], [0b] and at least one digit. *)
Definition parse_non_decimal (s : list ascii) : option Z :=
  match s with
  | "0"%char :: p :: r =>
      let with_radix dig radix :=
        let '(ds, rest) := read_digits dig r in
        if is_nil ds || negb (is_nil rest) then None
        else Some (digits_value radix ds) in
      if Ascii.eqb p "x" || Ascii.eqb p "X" then with_radix hex_digit 16
      else if Ascii.eqb p "o" || Ascii.eqb p "O" then with_radix octal_digit 8
      else if Ascii.eqb p "b" || Ascii.eqb p "B" then with_radix binary_digit 2
      else None
  | _ => None
  end.

(** The number for the mathematical value [(-1)^neg * m * 10^e], [0 <= m]:
    the integer [m * 10^e], or the quotient of [m] by [10^(-e)], is rounded
    once, to the nearest double, ties to even; a value too large becomes an
    infinity and a zero keeps the sign. *)
Definition of_decimal (neg : bool) (m e : Z) : number :=
  match m with
  | Zpos p =>
      if 0 <=? e then binary_round prec emax neg (p * Z.to_pos (10 ^ e)) 0
      else
        let '(q, e', l) :=
          SFdiv_core_binary prec emax (Zpos p) 0 (10 ^ (- e)) 0 in
        binary_round_aux prec emax neg q e' l
  | _ => S754_zero neg
  end.

Definition infinity_chars : list ascii := list_ascii_of_string "Infinity".

Definition parse_signed (neg : bool) (s : list ascii) : number :=
  if bool_decide (s = infinity_chars) then Infinity neg
  else match parse_unsigned_decimal s with
       | Some (m, e) => of_decimal neg m e
       | None => NaN
       end.

(** [StringToNumber]: white space is trimmed, the empty string is [+0],
    a string outside the [StringNumericLiteral] grammar is [NaN]. *)
Definition of_chars (s : list ascii) : number :=
  match trim_chars s with
  | [] => zero
  | "+"%char :: r => parse_signed false r
  | "-"%char :: r => parse_signed true r
  | t =>
      match parse_non_decimal t with
      | Some n => of_decimal false n 0
      | None => parse_signed false t
      end
  end.

(** [Number(s)] for a string [s]. *)
Definition Number (s : string) : number := of_chars (list_ascii_of_string s).

(** [Number.isFinite(x)] *)
Definition isFinite (x : number) : bool :=
  match x with
  | S754_zero _ | S754_finite _ _ _ => true
  | _ => false
  end.

(** [ToIntegerOrInfinity] followed by the test that the result is finite:
    truncation towards zero; [None] for [NaN] and the infinities (every
    caller below turns both into an invalid date). *)
Definition to_integer (x : number) : option Z :=
  match x with
  | S754_zero _ => Some 0
  | S754_finite s m e =>
      let magnitude :=
        if 0 <=? e then Z.shiftl (Zpos m) e else Z.shiftr (Zpos m) (- e) in
      Some (if s then - magnitude else magnitude)
  | _ => None
  end.

(** The mathematical value of a finite number, as a fraction in lowest
    terms. *)
Definition to_Q (x : number) : option Q :=
  match x with
  | S754_zero _ => Some 0%Q
  | S754_finite s m e =>
      Some (Qred (inject_Z (if s then Zneg m else Zpos m) * 2 ^ e))%Q
  | _ => None
  end.

End JsNumber.

(** ** Dates: the time-value arithmetic behind [Date.UTC], [new Date(y, m, d)],
       [getDate] and [getUTCDay]

    A time value is a number of milliseconds since 1970-01-01T00:00Z; an
    invalid date ([NaN]) is [None].  The worker runs with UTC as its local
    time zone, so [new Date(y, m, d)] and [Date.UTC(y, m, d)] build the same
    time value and [getDate] reads the UTC day of the month. *)

Module JsDate.

Definition msPerDay : Z := 86400000.

Definition Day (t : Z) : Z := t / msPerDay.

Definition DaysInYear (y : Z) : Z :=
  if negb (y mod 4 =? 0) then 365
  else if negb (y mod 100 =? 0) then 366
  else if negb (y mod 400 =? 0) then 365
  else 366.

Definition DayFromYear (y : Z) : Z :=
  365 * (y - 1970) + (y - 1969) / 4 - (y - 1901) / 100 + (y - 1601) / 400.

(** The largest year whose first day is not after day [d]: an estimate
    from the mean year length, corrected by one year at most. *)
Definition YearFromDay (d : Z) : Z :=
  let y := 1970 + (400 * d) / 146097 in
  if d <? DayFromYear y then y - 1
  else if DayFromYear (y + 1) <=? d then y + 1
  else y.

Definition YearFromTime (t : Z) : Z := YearFromDay (Day t).

Definition InLeapYear (t : Z) : Z :=
  if DaysInYear (YearFromTime t) =? 366 then 1 else 0.

Definition DayWithinYear (t : Z) : Z := Day t - DayFromYear (YearFromTime t).

Definition MonthFromTime (t : Z) : Z :=
  let d := DayWithinYear t in
  let l := InLeapYear t in
  if d <? 31 then 0
  else if d <? 59 + l then 1
  else if d <? 90 + l then 2
  else if d <? 120 + l then 3
  else if d <? 151 + l then 4
  else if d <? 181 + l then 5
  else if d <? 212 + l then 6
  else if d <? 243 + l then 7
  else if d <? 273 + l then 8
  else if d <? 304 + l then 9
  else if d <? 334 + l then 10
  else 11.

Definition DateFromTime (t : Z) : Z :=
  let d := DayWithinYear t in
  let l := InLeapYear t in
  match MonthFromTime t with
  | 0 => d + 1
  | 1 => d - 30
  | 2 => d - 58 - l
  | 3 => d - 89 - l
  | 4 => d - 119 - l
  | 5 => d - 150 - l
  | 6 => d - 180 - l
  | 7 => d - 211 - l
  | 8 => d - 242 - l
  | 9 => d - 272 - l
  | 10 => d - 303 - l
  | _ => d - 333 - l
  end.

(** 0 is Sunday, 6 is Saturday. *)
Definition WeekDay (t : Z) : Z := (Day t + 4) mod 7.

(** Day within the year of the first day of month [mn] (0-based). *)
Definition month_start (leap : Z) (mn : Z) : Z :=
  match mn with
  | 0 => 0
  | 1 => 31
  | 2 => 59 + leap
  | 3 => 90 + leap
  | 4 => 120 + leap
  | 5 => 151 + leap
  | 6 => 181 + leap
  | 7 => 212 + leap
  | 8 => 243 + leap
  | 9 => 273 + leap
  | 10 => 304 + leap
  | _ => 334 + leap
  end.

Definition MakeDay (year month date : Z) : Z :=
  let ym := year + month / 12 in
  let mn := month mod 12 in
  let leap := if DaysInYear ym =? 366 then 1 else 0 in
  DayFromYear ym + month_start leap mn + date - 1.

Definition MakeDate (day time : Z) : Z := day * msPerDay + time.

Definition TimeClip (t : Z) : option Z :=
  if 8640000000000000 <? Z.abs t then None else Some t.

(** Years 0 to 99 stand for 1900 to 1999. *)
Definition MakeFullYear (year : Z) : Z :=
  if (0 <=? year) && (year <=? 99) then 1900 + year else year.

(** [Date.UTC(year, month, date)], and also [new Date(year, month, date)]
    under the UTC local time zone. *)
Definition UTC (year month date : Z) : option Z :=
  TimeClip (MakeDate (MakeDay (MakeFullYear year) month date) 0).

(** [d.getDate()] *)
Definition getDate (d : option Z) : option Z := DateFromTime <$> d.

(** [d.getUTCDay()] *)
Definition getUTCDay (d : option Z) : option Z := WeekDay <$> d.

End JsDate.

(** ** Plain objects: [Record<string, V>]

    An object is the list of its own properties in creation order.
    [Object.keys], [Object.values] and [Object.entries] enumerate the
    array-index keys first, in ascending numeric order, and then the other
    keys in creation order.  The [in] operator also finds the properties
    inherited from [Object.prototype], and an assignment to the inherited
    accessor [__proto__] creates no property. *)

Module JsObject.

Definition t (V : Type) : Type := list (string * V).

Section Operations.
Context {V : Type}.

Definition empty : t V := [].

(** The own property [k] of [o], if there is one.  This is [o[k]] for
    every key that [Object.prototype] does not have (the worker reads
    configured category names only); [None] is [undefined]. *)
Fixpoint get (o : t V) (k : string) : option V :=
  match o with
  | [] => None
  | (k', v) :: o' => if String.eqb k' k then Some v else get o' k
  end.

(** The definition of an own property: an existing property keeps its
    place, a new one comes last. *)
Fixpoint define (o : t V) (k : string) (v : V) : t V :=
  match o with
  | [] => [(k, v)]
  | (k', v') :: o' =>
      if String.eqb k' k then (k', v) :: o' else (k', v') :: define o' k v
  end.

(** [o[k] = v] for a value [v] that is not an object (the worker assigns
    numbers).  The key [__proto__] names the accessor that a plain object
    inherits: its setter ignores such a value, and the object is left as
    it was. *)
Definition set (o : t V) (k : string) (v : V) : t V :=
  if String.eqb k "__proto__" then o else define o k v.

(** An object literal [{ k1: v1, ..., kn: vn }] without the key
    [__proto__]. *)
Definition literal (props : list (string * V)) : t V :=
  fold_left (fun o p => set o (fst p) (snd p)) props empty.

Definition hasOwn (o : t V) (k : string) : bool :=
  match get o k with Some _ => true | None => false end.

(** The array index a key denotes: the canonical decimal form of an
    integer below [2^32 - 1]. *)
Definition array_index (k : string) : option Z :=
  let cs := list_ascii_of_string k in
  match cs with
  | [] => None
  | c :: r =>
      if forallb JsString.is_digit cs
         && (negb (Ascii.eqb c "0") || JsNumber.is_nil r)
      then
        let n := JsNumber.digits_value 10
                   (omap JsNumber.decimal_digit cs) in
        if n <? 4294967295 then Some n else None
      else None
  end.

Definition is_array_index (k : string) : bool :=
  match array_index k with Some _ => true | None => false end.

Fixpoint insert_by_index (x : Z * (string * V)) (l : list (Z * (string * V)))
  : list (Z * (string * V)) :=
  match l with
  | [] => [x]
  | y :: l' => if fst x <=? fst y then x :: l else y :: insert_by_index x l'
  end.

Definition indexed (o : t V) : list (Z * (string * V)) :=
  omap (fun p => (fun i => (i, p)) <$> array_index (fst p)) o.

(** [Object.entries(o)] *)
Definition entries (o : t V) : list (string * V) :=
  map snd (foldr insert_by_index [] (indexed o))
  ++ List.filter (fun p => negb (is_array_index (fst p))) o.

(** [Object.keys(o)] *)
Definition keys (o : t V) : list string := map fst (entries o).

(** [Object.values(o)] *)
Definition values (o : t V) : list V := map snd (entries o).

End Operations.

(** The property names of [Object.prototype]. *)
Definition prototype_names : list string :=
  ["constructor"; "__defineGetter__"; "__defineSetter__"; "hasOwnProperty";
   "__lookupGetter__"; "__lookupSetter__"; "isPrototypeOf";
   "propertyIsEnumerable"; "toString"; "valueOf"; "__proto__";
   "toLocaleString"]%string.

(** [k in o] for an object created by a literal. *)
Definition has_property {V} (o : t V) (k : string) : bool :=
  hasOwn o k || bool_decide (k ∈ prototype_names).

End JsObject.

(** ** Category and budget configuration *)

Inductive CategoryType : Type := daily | monthly | other.

Definition CategoryType_eqb (a b : CategoryType) : bool :=
  match a, b with
  | daily, daily | monthly, monthly | other, other => true
  | _, _ => false
  end.

Definition CATEGORIES : JsObject.t CategoryType :=
  JsObject.literal
    [("Meals", daily); ("Drinks", daily);
     ("Groceries", monthly); ("Utilities", monthly); ("Transport", monthly);
     ("Declan", monthly); ("Myat", monthly);
     ("Other", other)]%string.

Definition WEEKDAY_DAILY_BUDGET : number := JsNumber.of_Z 50.
Definition WEEKEND_DAILY_BUDGET : number := JsNumber.of_Z 80.

Definition MONTHLY_CATEGORY_BUDGETS : JsObject.t number :=
  JsObject.literal
    [("Groceries", JsNumber.of_Z 300); ("Utilities", JsNumber.of_Z 150);
     ("Transport", JsNumber.of_Z 218); ("Declan", JsNumber.of_Z 100);
     ("Myat", JsNumber.of_Z 200)]%string.

Definition categories_of_type (ty : CategoryType) : list string :=
  map fst (filter (fun e => CategoryType_eqb (snd e) ty = true)
                  (JsObject.entries CATEGORIES)).

Definition DAILY_CATEGORIES : list string := categories_of_type daily.
Definition MONTHLY_CATEGORIES : list string := categories_of_type monthly.
Definition OTHER_CATEGORIES : list string := categories_of_type other.

Definition SG_TIMEZONE : string := "Asia/Singapore".

(** ** Time and calendar helpers of the worker *)

(** What [nowSgLocal()] returns. *)
Record SgNow : Type := mkSgNow {
  tsUtc : string;
  tsSgDate : string;
  tsSgMonth : string;
  year : Z;
  month : Z
}.

(** The test [/^\d{4}-\d{2}-\d{2}$/]. *)
Definition matches_date_pattern (s : string) : bool :=
  match list_ascii_of_string s with
  | [y1; y2; y3; y4; h1; m1; m2; h2; d1; d2] =>
      forallb JsString.is_digit [y1; y2; y3; y4; m1; m2; d1; d2]
      && Ascii.eqb h1 "-" && Ascii.eqb h2 "-"
  | _ => false
  end.

Definition normalizeSgDateString (dateStr : string) : option string :=
  if negb (matches_date_pattern dateStr) then None else Some dateStr.

(** The test of the loop body of [countWeekdaysWeekends]:
    [weekday === 0 || weekday === 6] for the day [day] of the month. *)
Definition weekend_day (year month day : Z) : bool :=
  let d := JsDate.UTC year (month - 1) day in
  let weekday := JsDate.getUTCDay d in
  bool_decide (weekday = Some 0) || bool_decide (weekday = Some 6).

(** The loop [for (day = 1; day <= daysInMonth; day++)], with [n] iterations
    left. *)
Fixpoint countWeekdaysWeekends_loop (year month day : Z) (n : nat)
  (weekdays weekends : Z) : Z * Z :=
  match n with
  | O => (weekdays, weekends)
  | S n' =>
      if weekend_day year month day
      then countWeekdaysWeekends_loop year month (day + 1) n' weekdays (weekends + 1)
      else countWeekdaysWeekends_loop year month (day + 1) n' (weekdays + 1) weekends
  end.

(** The local [daysInMonth] of [countWeekdaysWeekends]: the day of the month
    of day 0 of the following month; [None] is [NaN]. *)
Definition daysInMonth (year month : Z) : option Z :=
  JsDate.getDate (JsDate.UTC year month 0).

(** The result is the pair [(weekdays, weekends)].  With [daysInMonth] not a
    number the loop test fails at once. *)
Definition countWeekdaysWeekends (year month : Z) : Z * Z :=
  let iterations :=
    match daysInMonth year month with
    | Some n => Z.to_nat n
    | None => O
    end in
  countWeekdaysWeekends_loop year month 1 iterations 0 0.

Definition dailyBudgetForSgDateString (dateStr : string) : number :=
  let parts := map JsNumber.Number (JsString.split_on "-" dateStr) in
  let year := nth 0 parts JsNumber.NaN in
  let month := nth 1 parts JsNumber.NaN in
  let day := nth 2 parts JsNumber.NaN in
  let d :=
    match JsNumber.to_integer year,
          JsNumber.to_integer (JsNumber.sub month (JsNumber.of_Z 1)),
          JsNumber.to_integer day with
    | Some y, Some m, Some dd => JsDate.UTC y m dd
    | _, _, _ => None
    end in
  let weekday := JsDate.getUTCDay d in
  if bool_decide (weekday = Some 0) || bool_decide (weekday = Some 6)
  then WEEKEND_DAILY_BUDGET
  else WEEKDAY_DAILY_BUDGET.

Definition monthlyDailyBucketBudget (year month : Z) : number :=
  let '(weekdays, weekends) := countWeekdaysWeekends year month in
  JsNumber.add
    (JsNumber.mul (JsNumber.of_Z weekdays) WEEKDAY_DAILY_BUDGET)
    (JsNumber.mul (JsNumber.of_Z weekends) WEEKEND_DAILY_BUDGET).

(** ** Storage: the two D1 tables and the calls made on them *)

Record Expense : Type := mkExpense {
  ts_utc : string;
  ts_sg_date : string;
  ts_sg_month : string;
  user_id : Z;
  category : string;
  amount : number
}.

Record UserStateRow : Type := mkUserStateRow {
  step : string;
  pending_category : option string
}.

Record DB : Type := mkDB {
  expenses : list Expense;
  user_state : gmap Z UserStateRow
}.

Definition empty_db : DB := {| expenses := []; user_state := ∅ |}.

Inductive StorageCall : Type :=
| InsertExpense (e : Expense)
| SelectUserState (userId : Z)
| UpsertUserState (userId : Z) (row : UserStateRow)
| DeleteUserState (userId : Z)
| SelectSumByDate (sgDate : string) (categories : list string)
| SelectSumByMonth (sgMonth : string) (categories : list string).

(** [GROUP BY category] with [SUM(amount)]: one row per category, in the
    order in which the categories first occur; the sum of a group starts
    from [0.0] and the amounts are added to it in row order. *)
Fixpoint add_to_group (groups : list (string * number)) (cat : string)
  (amt : number) : list (string * number) :=
  match groups with
  | [] => [(cat, JsNumber.add JsNumber.zero amt)]
  | (c, total) :: groups' =>
      if String.eqb c cat then (c, JsNumber.add total amt) :: groups'
      else (c, total) :: add_to_group groups' cat amt
  end.

Definition group_step (groups : list (string * number)) (e : Expense)
  : list (string * number) :=
  add_to_group groups (category e) (amount e).

Definition group_sum (rows : list Expense) : list (string * number) :=
  fold_left group_step rows [].

Definition category_in (categories : list string) (e : Expense) : bool :=
  existsb (String.eqb (category e)) categories.

(** [SELECT category, SUM(amount) AS total FROM expenses
     WHERE ts_sg_date = ? AND category IN (...) GROUP BY category] *)
Definition select_sum_by_date (d : DB) (sgDate : string)
  (categories : list string) : list (string * number) :=
  group_sum (List.filter
               (fun e => String.eqb (ts_sg_date e) sgDate && category_in categories e)
               (expenses d)).

(** The same query on [ts_sg_month]. *)
Definition select_sum_by_month (d : DB) (sgMonth : string)
  (categories : list string) : list (string * number) :=
  group_sum (List.filter
               (fun e => String.eqb (ts_sg_month e) sgMonth && category_in categories e)
               (expenses d)).

(** ** Outgoing messages and HTTP responses *)

Record DailySummaryData : Type := mkDailySummaryData {
  ds_date : string;
  ds_timezone : string;
  budget_daily : number;
  spent_daily : number;
  remaining_daily : number;
  by_category : JsObject.t number
}.

Record MonthlySummaryData : Type := mkMonthlySummaryData {
  ms_year : Z;
  ms_month : Z;
  ms_timezone : string;
  ms_weekdays : Z;
  ms_weekends : Z;
  weekday_daily_budget : number;
  weekend_daily_budget : number;
  monthly_daily_budget : number;
  fixed_monthly_budgets : JsObject.t number;
  ms_spent_daily : number;
  spent_daily_by_category : JsObject.t number;
  spent_monthly : number;
  spent_monthly_by_category : JsObject.t number;
  spent_other : number;
  spent_other_by_category : JsObject.t number;
  total_budget_tracked : number;
  total_spent_tracked : number;
  remaining_tracked : number
}.

(** The texts the bot sends, by template; the fields are the values that the
    template interpolates. *)
Inductive Reply : Type :=
| UnknownCommand
| YouChose (category : string)
| TapACategory
| EnterValidNumber
| Recorded (amount : number) (category : string)
| UsageHint
| Welcome
| ChooseACategory
| TodaysBudget (sgDate : string) (budget spent remaining : number)
    (breakdown : list (string * number))
| MonthlyReport (summary : MonthlySummaryData)
    (lines : list (string * number * number)).

Record SentMessage : Type := mkSentMessage {
  sm_chat_id : Z;
  sm_text : Reply;
  reply_markup : option (list (list string))
}.

Inductive ResponseBody : Type :=
| ErrorBody (error : string)
| DailyBody (data : DailySummaryData)
| MonthlyBody (data : MonthlySummaryData).

Record Response : Type := mkResponse {
  status : Z;
  body : ResponseBody
}.

Definition jsonResponse (b : ResponseBody) (st : Z) : Response :=
  {| status := st; body := b |}.

(** ** The world a request runs in, and the state monad over it *)

Record World : Type := mkWorld {
  db : DB;
  calls : list StorageCall;
  outbox : list SentMessage
}.

Definition M (A : Type) : Type := World -> A * World.

#[global] Instance M_ret : MRet M := fun A x w => (x, w).
#[global] Instance M_bind : MBind M :=
  fun A B f m w => let '(a, w') := m w in f a w'.

Definition exec {A} (m : M A) (w : World) : World := snd (m w).
Definition eval {A} (m : M A) (w : World) : A := fst (m w).

(** A call on the database: it is logged, and [run] gives its result and
    the new contents. *)
Definition storage {A} (c : StorageCall) (run : DB -> A * DB) : M A :=
  fun w =>
    let '(a, d) := run (db w) in
    (a, {| db := d; calls := calls w ++ [c]; outbox := outbox w |}).

Definition sendMessage (chatId : Z) (text : Reply)
  (replyMarkup : option (list (list string))) : M unit :=
  fun w =>
    (tt, {| db := db w; calls := calls w;
            outbox := outbox w ++ [mkSentMessage chatId text replyMarkup] |}).

(** ** D1 helpers *)

Definition insertExpense (now : SgNow) (userId : Z) (cat : string)
  (amt : number) : M unit :=
  let e := {| ts_utc := tsUtc now; ts_sg_date := tsSgDate now;
              ts_sg_month := tsSgMonth now; user_id := userId;
              category := cat; amount := amt |} in
  storage (InsertExpense e)
    (fun d => (tt, {| expenses := expenses d ++ [e];
                      user_state := user_state d |})).

Definition getUserState (userId : Z) : M (option UserStateRow) :=
  storage (SelectUserState userId) (fun d => (user_state d !! userId, d)).

Definition setUserState (userId : Z) (stp : string) (cat : option string)
  : M unit :=
  let row := {| step := stp; pending_category := cat |} in
  storage (UpsertUserState userId row)
    (fun d => (tt, {| expenses := expenses d;
                      user_state := <[userId := row]> (user_state d) |})).

Definition clearUserState (userId : Z) : M unit :=
  storage (DeleteUserState userId)
    (fun d => (tt, {| expenses := expenses d;
                      user_state := delete userId (user_state d) |})).

(** ** Aggregation *)

Section Totals.
(** The two loops are written for any number type: they use the addition
    and the zero only. *)
Context {N : Type} (add : N -> N -> N) (zero : N).

(** The loop of [sumForDate]: the total is accumulated with the map. *)
Definition sumForDate_rows (results : list (string * N)) : N * JsObject.t N :=
  fold_left
    (fun acc row =>
       let cat := fst row in
       let amt := snd row in
       (add (fst acc) amt, JsObject.set (snd acc) cat amt))
    results (zero, JsObject.empty).

(** The loop of [sumForMonth], then the reduction over the map's values. *)
Definition sumForMonth_rows (results : list (string * N)) : N * JsObject.t N :=
  let byCategory :=
    fold_left (fun o row => JsObject.set o (fst row) (snd row))
              results JsObject.empty in
  let grandTotal := fold_left add (JsObject.values byCategory) zero in
  (grandTotal, byCategory).
End Totals.

Definition sumForDate (sgDate : string) (categories : list string)
  : M (number * JsObject.t number) :=
  if JsNumber.is_nil categories then mret (JsNumber.zero, JsObject.empty)
  else
    results ← storage (SelectSumByDate sgDate categories)
                (fun d => (select_sum_by_date d sgDate categories, d));
    mret (sumForDate_rows JsNumber.add JsNumber.zero results).

Definition sumForMonth (sgMonth : string) (categories : list string)
  : M (number * JsObject.t number) :=
  if JsNumber.is_nil categories then mret (JsNumber.zero, JsObject.empty)
  else
    results ← storage (SelectSumByMonth sgMonth categories)
                (fun d => (select_sum_by_month d sgMonth categories, d));
    mret (sumForMonth_rows JsNumber.add JsNumber.zero results).

(** ** Summaries *)

(** What follows the resolution of the date in [getDailySummaryData],
    [apiDailySummary] and [handleToday]. *)
Definition dailySummaryFor (sgDate : string) : M DailySummaryData :=
  let budget := dailyBudgetForSgDateString sgDate in
  '(spent, byCategory) ← sumForDate sgDate DAILY_CATEGORIES;
  let remaining := JsNumber.sub budget spent in
  mret {| ds_date := sgDate; ds_timezone := SG_TIMEZONE;
          budget_daily := budget; spent_daily := spent;
          remaining_daily := remaining; by_category := byCategory |}.

(** The resolution of the date argument, common to [getDailySummaryData]
    and [apiDailySummary]: [None] is [null]; the empty string is falsy as
    well; [inl tt] is the rejection. *)
Definition resolve_date (now : SgNow) (dateStr : option string) : unit + string :=
  match dateStr with
  | Some s =>
      if bool_decide (s = ""%string) then inr (tsSgDate now)
      else match normalizeSgDateString s with
           | None => inl tt
           | Some norm => inr norm
           end
  | None => inr (tsSgDate now)
  end.

(** [inl] is the thrown error. *)
Definition getDailySummaryData (now : SgNow) (dateStr : option string)
  : M (string + DailySummaryData) :=
  match resolve_date now dateStr with
  | inl _ => mret (inl "Invalid date format, use YYYY-MM-DD"%string)
  | inr sgDate => d ← dailySummaryFor sgDate; mret (inr d)
  end.

(** [GET /api/summary/daily?date=YYYY-MM-DD]; [dateStr] is
    [url.searchParams.get("date")]. *)
Definition apiDailySummary (now : SgNow) (dateStr : option string) : M Response :=
  match resolve_date now dateStr with
  | inl _ =>
      mret (jsonResponse (ErrorBody "Invalid date format, use YYYY-MM-DD") 400)
  | inr sgDate =>
      d ← dailySummaryFor sgDate; mret (jsonResponse (DailyBody d) 200)
  end.

(** [String(month).padStart(2, "0")] *)
Definition padStart2 (s : string) : string :=
  match String.length s with
  | O => "00"
  | S O => "0" +:+ s
  | _ => s
  end.

Definition sgMonthKey (y m : Z) : string :=
  pretty y +:+ "-" +:+ padStart2 (pretty m).

(** [Object.values(MONTHLY_CATEGORY_BUDGETS).reduce((a, b) => a + b, 0)] *)
Definition fixedBudgetTotal : number :=
  fold_left JsNumber.add (JsObject.values MONTHLY_CATEGORY_BUDGETS)
            JsNumber.zero.

(** The body shared by [getMonthlySummaryData], [apiMonthlySummary] and
    [sendMonthSummary], for a resolved year and month. *)
Definition monthlySummaryFor (y m : Z) : M MonthlySummaryData :=
  let sgMonth := sgMonthKey y m in
  let monthlyDaily := monthlyDailyBucketBudget y m in
  '(spentDaily, byCatDaily) ← sumForMonth sgMonth DAILY_CATEGORIES;
  '(spentMonthly, byCatMonthly) ← sumForMonth sgMonth MONTHLY_CATEGORIES;
  '(spentOther, byCatOther) ← sumForMonth sgMonth OTHER_CATEGORIES;
  let totalBudgetTracked := JsNumber.add monthlyDaily fixedBudgetTotal in
  let totalSpentTracked := JsNumber.add spentDaily spentMonthly in
  let remainingTracked :=
    JsNumber.sub totalBudgetTracked totalSpentTracked in
  let '(weekdays, weekends) := countWeekdaysWeekends y m in
  mret {| ms_year := y; ms_month := m; ms_timezone := SG_TIMEZONE;
          ms_weekdays := weekdays; ms_weekends := weekends;
          weekday_daily_budget := WEEKDAY_DAILY_BUDGET;
          weekend_daily_budget := WEEKEND_DAILY_BUDGET;
          monthly_daily_budget := monthlyDaily;
          fixed_monthly_budgets := MONTHLY_CATEGORY_BUDGETS;
          ms_spent_daily := spentDaily;
          spent_daily_by_category := byCatDaily;
          spent_monthly := spentMonthly;
          spent_monthly_by_category := byCatMonthly;
          spent_other := spentOther;
          spent_other_by_category := byCatOther;
          total_budget_tracked := totalBudgetTracked;
          total_spent_tracked := totalSpentTracked;
          remaining_tracked := remainingTracked |}.

Definition invalid_month (m : Z) : bool := (m <? 1) || (m >? 12).

(** [yr] and [mo] are [None] for [null]; the year and the month are
    integers in this model, so the two [Number.isFinite] tests hold. *)
Definition getMonthlySummaryData (now : SgNow) (yr mo : option Z)
  : M (string + MonthlySummaryData) :=
  let y := default (year now) yr in
  let m := default (month now) mo in
  if invalid_month m then mret (inl "Invalid year or month"%string)
  else d ← monthlySummaryFor y m; mret (inr d).

(** [GET /api/summary/monthly?year=YYYY&month=MM], after the two query
    parameters were converted to numbers. *)
Definition apiMonthlySummary (now : SgNow) (yr mo : option Z) : M Response :=
  let y := default (year now) yr in
  let m := default (month now) mo in
  if invalid_month m
  then mret (jsonResponse (ErrorBody "Invalid year or month") 400)
  else d ← monthlySummaryFor y m; mret (jsonResponse (MonthlyBody d) 200).

(** ** Telegram: updates, the allow-list and the command handlers *)

Record Env : Type := mkEnv {
  ALLOWED_USER_IDS : string  (* comma-separated numeric IDs *)
}.

Record TgMessage : Type := mkTgMessage {
  from_id : option Z;   (* message.from.id *)
  chat_id : option Z;   (* message.chat.id *)
  text : option string  (* message.text *)
}.

Record Update : Type := mkUpdate {
  message : option TgMessage;
  edited_message : option TgMessage
}.

(** The members of the set that [parseAllowedUserIds] builds. *)
Definition parseAllowedUserIds (env : Env) : list number :=
  let raw := ALLOWED_USER_IDS env in
  let ids :=
    List.filter JsNumber.isFinite
      (map JsNumber.Number
         (List.filter (fun s => negb (bool_decide (s = ""%string)))
            (map JsString.trim (JsString.split_on "," raw)))) in
  ids.

(** [allowed.has(userId)]: the members are finite, and a finite member
    is the same value as [userId] when the two are equal as numbers. *)
Definition allowed_has (allowed : list number) (userId : Z) : bool :=
  existsb (fun n => JsNumber.strict_equal n (JsNumber.of_Z userId)) allowed.

(** Rows of three names. *)
Fixpoint keyboard_rows (names : list string) (row : list string)
  : list (list string) :=
  match names with
  | [] => if JsNumber.is_nil row then [] else [row]
  | name :: names' =>
      let row' := row ++ [name] in
      if (length row' =? 3)%nat then row' :: keyboard_rows names' []
      else keyboard_rows names' row'
  end.

Definition buildCategoryKeyboard : list (list string) :=
  keyboard_rows (JsObject.keys CATEGORIES) [].

Definition handleStart (chatId : Z) : M unit :=
  sendMessage chatId Welcome (Some buildCategoryKeyboard).

Definition handleAdd (chatId userId : Z) : M unit :=
  setUserState userId "choose_category" None;;
  sendMessage chatId ChooseACategory (Some buildCategoryKeyboard).

Definition handleToday (now : SgNow) (chatId : Z) : M unit :=
  let sgDate := tsSgDate now in
  let budget := dailyBudgetForSgDateString sgDate in
  '(spent, byCategory) ← sumForDate sgDate DAILY_CATEGORIES;
  let remaining := JsNumber.sub budget spent in
  let breakdownLines :=
    omap (fun cat => (fun a => (cat, a)) <$> JsObject.get byCategory cat)
         DAILY_CATEGORIES in
  sendMessage chatId (TodaysBudget sgDate budget spent remaining breakdownLines)
              None.

Definition sendMonthSummary (chatId : Z) (y m : Z) : M unit :=
  summary ← monthlySummaryFor y m;
  let linesMonthly :=
    map (fun cat =>
           (cat,
            default JsNumber.zero
              (JsObject.get (spent_monthly_by_category summary) cat),
            default JsNumber.zero (JsObject.get MONTHLY_CATEGORY_BUDGETS cat)))
        MONTHLY_CATEGORIES in
  sendMessage chatId (MonthlyReport summary linesMonthly) None.

Definition handleMonth (now : SgNow) (chatId : Z) : M unit :=
  sendMonthSummary chatId (year now) (month now).

(** The guards at the head of [handleTelegramUpdate]: the message, the two
    identifiers and the allow-list.  [Some (userId, chatId, text)] when the
    update is to be handled, with [text] trimmed. *)
Definition accepted (env : Env) (update : Update) : option (Z * Z * string) :=
  match (match message update with
         | Some m => Some m
         | None => edited_message update
         end) with
  | None => None
  | Some msg =>
      let textRaw := default ""%string (text msg) in
      match from_id msg, chat_id msg with
      | Some userId, Some chatId =>
          if (userId =? 0) || (chatId =? 0) then None
          else if negb (allowed_has (parseAllowedUserIds env) userId) then None
          else Some (userId, chatId, JsString.trim textRaw)
      | _, _ => None
      end
  end.

(** The branch for a text that starts with a slash, after the state was
    cleared. *)
Definition dispatchCommand (now : SgNow) (chatId userId : Z) (txt : string)
  : M unit :=
  let cmd := JsString.first_word txt in
  if bool_decide (cmd = "/start"%string) then handleStart chatId
  else if bool_decide (cmd = "/add"%string) then handleAdd chatId userId
  else if bool_decide (cmd = "/today"%string) then handleToday now chatId
  else if bool_decide (cmd = "/month"%string) then handleMonth now chatId
  else sendMessage chatId UnknownCommand None.

(** The branch for any other text: the conversation. *)
Definition converse (now : SgNow) (chatId userId : Z) (txt : string) : M unit :=
  state ← getUserState userId;
  if bool_decide (step <$> state = Some "choose_category"%string) then
    if JsObject.has_property CATEGORIES txt then
      setUserState userId "await_amount" (Some txt);;
      sendMessage chatId (YouChose txt) None
    else
      sendMessage chatId TapACategory (Some buildCategoryKeyboard)
  else
    match state with
    | Some {| step := stp; pending_category := Some cat |} =>
        if bool_decide (stp = "await_amount"%string)
           && negb (bool_decide (cat = ""%string)) then
          let amt := JsNumber.Number txt in
          if negb (JsNumber.isFinite amt)
          then sendMessage chatId EnterValidNumber None
          else
            (* negative numbers allowed *)
            insertExpense now userId cat amt;;
            clearUserState userId;;
            sendMessage chatId (Recorded amt cat) None
        else sendMessage chatId UsageHint None
    | _ => sendMessage chatId UsageHint None
    end.

Definition handleTelegramUpdate (env : Env) (now : SgNow) (update : Update)
  : M unit :=
  match accepted env update with
  | None => mret tt
  | Some (userId, chatId, txt) =>
      if JsString.startsWith "/" txt then
        clearUserState userId;;
        dispatchCommand now chatId userId txt
      else converse now chatId userId txt
  end.

(** ** The calendar, as the specification words it

    These definitions do not come from the worker: they say what a leap
    year, the length of a month and the day of the week of a date are in the
    proleptic Gregorian calendar, and the worker's date arithmetic is
    compared with them below. *)

Module CalendarSpec.

Definition is_leap_year (y : Z) : bool :=
  (y mod 4 =? 0) && (negb (y mod 100 =? 0) || (y mod 400 =? 0)).

(** Months are numbered from 1. *)
Definition days_in_month (y m : Z) : Z :=
  match m with
  | 1 | 3 | 5 | 7 | 8 | 10 | 12 => 31
  | 4 | 6 | 9 | 11 => 30
  | 2 => if is_leap_year y then 29 else 28
  | _ => 0
  end.

Definition valid_date (y m d : Z) : Prop :=
  1 <= m <= 12 /\ 1 <= d <= days_in_month y m.

(** Days in the years 1 to [y - 1]. *)
Definition days_before_year (y : Z) : Z :=
  365 * (y - 1) + (y - 1) / 4 - (y - 1) / 100 + (y - 1) / 400.

(** Days in the months 1 to [m - 1] of year [y]. *)
Definition days_before_month (y m : Z) : Z :=
  fold_right Z.add 0
    (map (fun k => days_in_month y (Z.of_nat k)) (seq 1 (Z.to_nat (m - 1)))).

(** The number of the day, counted from 0001-01-01, which is day 1 and a
    Monday. *)
Definition day_number (y m d : Z) : Z :=
  days_before_year y + days_before_month y m + d.

(** 0 is Sunday, 1 is Monday, ..., 6 is Saturday. *)
Definition day_of_week (y m d : Z) : Z := day_number y m d mod 7.

Definition is_weekend (y m d : Z) : bool :=
  (day_of_week y m d =? 0) || (day_of_week y m d =? 6).

End CalendarSpec.

(** The user conversation states of the specification, read off a row of
    [user_state] the way [handleTelegramUpdate] reads it. *)
Inductive ConversationState : Type :=
| Idle
| ChoosingCategory
| AwaitingAmount (pendingCategory : string).

Definition conversation_state (row : option UserStateRow) : ConversationState :=
  match row with
  | Some {| step := stp; pending_category := cat |} =>
      if bool_decide (stp = "choose_category"%string) then ChoosingCategory
      else match cat with
           | Some c =>
               if bool_decide (stp = "await_amount"%string)
                  && negb (bool_decide (c = ""%string))
               then AwaitingAmount c
               else Idle
           | None => Idle
           end
  | None => Idle
  end.

(** The invariant of the specification on one row. *)
Definition row_invariant (row : UserStateRow) : Prop :=
  is_Some (pending_category row) <-> step row = "await_amount"%string.

(** The worlds the worker can produce, from empty tables, by serving
    requests: Telegram updates and the two summary endpoints. *)
Inductive reachable : World -> Prop :=
| reachable_initial :
    reachable {| db := empty_db; calls := []; outbox := [] |}
| reachable_update env now update w :
    reachable w -> reachable (exec (handleTelegramUpdate env now update) w)
| reachable_daily now dateStr w :
    reachable w -> reachable (exec (apiDailySummary now dateStr) w)
| reachable_monthly now yr mo w :
    reachable w -> reachable (exec (apiMonthlySummary now yr mo) w).

(** ** Notions used in the statements *)

(** The sum of a list of numbers taken in order from [0]:
    [((0 + a1) + a2) + ...], each addition rounded to a double. *)
Definition sum_in_order (l : list number) : number :=
  fold_left JsNumber.add l JsNumber.zero.

(** The names of a list, each once, in the order of first occurrence. *)
Fixpoint first_occurrences (l : list string) : list string :=
  match l with
  | [] => []
  | c :: l' =>
      c :: List.filter (fun c' => negb (String.eqb c c')) (first_occurrences l')
  end.

(** The rows of one category in a list of expense rows. *)
Definition of_category (c : string) (l : list Expense) : list Expense :=
  List.filter (fun e => String.eqb (category e) c) l.

(** The total of one category: the sum of its amounts in row order. *)
Definition category_total (c : string) (l : list Expense) : number :=
  sum_in_order (map amount (of_category c l)).

(** The total of a list of expense rows, category by category: the sum,
    in the order in which the categories first occur, of the totals of the
    categories. *)
Definition total_amount (l : list Expense) : number :=
  sum_in_order
    (map (fun c => category_total c l) (first_occurrences (map category l))).

(** The test that a name is in a list of names. *)
Definition known (names : list string) (c : string) : bool :=
  existsb (String.eqb c) names.

(** A key that an assignment stores as a property enumerated in creation
    order: neither [__proto__] nor an array index. *)
Definition ordinary_key (k : string) : bool :=
  negb (String.eqb k "__proto__") && negb (JsObject.is_array_index k).

(** The rows of a local date, or of a local month, in one of the given
    categories. *)
Definition on_date (sgDate : string) (categories : list string) (d : DB)
  : list Expense :=
  List.filter
    (fun e => String.eqb (ts_sg_date e) sgDate && category_in categories e)
    (expenses d).


(** The world after a logged call that leaves the tables as they are. *)
Definition logged (c : StorageCall) (w : World) : World :=
  {| db := db w; calls := calls w ++ [c]; outbox := outbox w |}.


(** The world in which the user has the given row in [user_state]. *)
Definition with_user_state (userId : Z) (row : UserStateRow) (w : World) : World :=
  {| db := {| expenses := expenses (db w);
              user_state := <[userId := row]> (user_state (db w)) |};
     calls := calls w; outbox := outbox w |}.

(** Operations that only read the tables or send messages. *)
Definition read_only {A} (m : M A) : Prop := forall w, db (exec m w) = db w.

(** The invariant of the specification on the whole table. *)
Definition db_invariant (d : DB) : Prop :=
  forall userId row, user_state d !! userId = Some row -> row_invariant row.

(** A date string in the strict form of the specification: four digits,
    two digits and two digits, separated by hyphens. *)
Definition date_shaped (s : string) : Prop :=
  exists y1 y2 y3 y4 m1 m2 d1 d2 : ascii,
    forallb JsString.is_digit [y1; y2; y3; y4; m1; m2; d1; d2] = true
    /\ s = string_of_list_ascii [y1; y2; y3; y4; "-"; m1; m2; "-"; d1; d2]%char.

Definition digit_value (c : ascii) : Z := Z.of_N (N_of_ascii c) - 48.

(** A date string that denotes a real calendar date, in the words of the
    specification: of the strict form, with a month from 1 to 12 and a day
    that the month has. *)
Definition denotes_calendar_date (s : string) : bool :=
  match list_ascii_of_string s with
  | [y1; y2; y3; y4; h1; m1; m2; h2; d1; d2] =>
      let y := 1000 * digit_value y1 + 100 * digit_value y2
               + 10 * digit_value y3 + digit_value y4 in
      let m := 10 * digit_value m1 + digit_value m2 in
      let d := 10 * digit_value d1 + digit_value d2 in
      forallb JsString.is_digit [y1; y2; y3; y4; m1; m2; d1; d2]
      && Ascii.eqb h1 "-" && Ascii.eqb h2 "-"
      && (1 <=? m) && (m <=? 12)
      && (1 <=? d) && (d <=? CalendarSpec.days_in_month y m)
  | _ => false
  end.

(** The decimal digit for the last digit of [n]. *)
Definition digit_char (n : Z) : ascii := ascii_of_N (Z.to_N (48 + n mod 10)).

Definition four_digits (y : Z) : string :=
  string_of_list_ascii
    [digit_char (y / 1000); digit_char (y / 100); digit_char (y / 10);
     digit_char y].

Definition two_digits (n : Z) : string :=
  string_of_list_ascii [digit_char (n / 10); digit_char n].

(** The date string [YYYY-MM-DD] of a date. *)
Definition format_date (y m d : Z) : string :=
  string_of_list_ascii
    [digit_char (y / 1000); digit_char (y / 100); digit_char (y / 10);
     digit_char y; "-"%char;
     digit_char (m / 10); digit_char m; "-"%char;
     digit_char (d / 10); digit_char d].

(** Day within the year of the first day after month [mn] (0-based). *)
Definition month_end (leap mn : Z) : Z :=
  match mn with
  | 0 => 31
  | 1 => 59 + leap
  | 2 => 90 + leap
  | 3 => 120 + leap
  | 4 => 151 + leap
  | 5 => 181 + leap
  | 6 => 212 + leap
  | 7 => 243 + leap
  | 8 => 273 + leap
  | 9 => 304 + leap
  | 10 => 334 + leap
  | _ => 365 + leap
  end.

(** ** The worker entry point

    [fetch] of [index.ts].  Of a request the router reads the method, the
    path, the secret-token header and, for the webhook, the JSON body, taken
    here as an already decoded update; the query parameters follow the
    conventions of [apiDailySummary] and [apiMonthlySummary] above. *)

Record Secrets : Type := mkSecrets {
  TELEGRAM_WEBHOOK_SECRET : string;
  TELEGRAM_HEADER_SECRET : string
}.

Record Request : Type := mkRequest {
  req_method : string;
  req_pathname : string;
  req_secret_token : option string; (* X-Telegram-Bot-Api-Secret-Token *)
  req_json : Update;
  req_date : option string;
  req_year : option Z;
  req_month : option Z
}.

(** What the worker answers: a JSON response of one of the two summary
    endpoints, [{ ok: true }], [{ status: "ok" }], or a plain text. *)
Inductive Served : Type :=
| ServedJson (r : Response)
| ServedOk
| ServedHealth
| ServedText (content : string) (code : Z).

Definition fetch (env : Env) (secrets : Secrets) (now : SgNow)
  (request : Request) : M Served :=
  if bool_decide (req_method request = "POST"%string)
     && bool_decide (req_pathname request
                     = "/telegram-webhook/" +:+ TELEGRAM_WEBHOOK_SECRET secrets)
  then
    if negb (bool_decide (req_secret_token request
                          = Some (TELEGRAM_HEADER_SECRET secrets)))
    then mret (ServedText "Unauthorized" 401)
    else handleTelegramUpdate env now (req_json request);; mret ServedOk
  else if bool_decide (req_method request = "GET"%string)
          && bool_decide (req_pathname request = "/api/summary/daily"%string)
  then r ← apiDailySummary now (req_date request); mret (ServedJson r)
  else if bool_decide (req_method request = "GET"%string)
          && bool_decide (req_pathname request = "/api/summary/monthly"%string)
  then r ← apiMonthlySummary now (req_year request) (req_month request);
       mret (ServedJson r)
  else if bool_decide (req_method request = "GET"%string)
          && bool_decide (req_pathname request = "/healthz"%string)
  then mret ServedHealth
  else mret (ServedText "Not found" 404).

(** ** Notions used in the further properties *)

(** [update.message ?? update.edited_message] *)
Definition effective_message (update : Update) : option TgMessage :=
  match message update with
  | Some m => Some m
  | None => edited_message update
  end.

(** The updates that the guards at the head of [handleTelegramUpdate] turn
    away: no message, no sender or chat identifier (or 0), or a sender who
    is not on the allow-list. *)
Definition dropped (env : Env) (update : Update) : Prop :=
  match effective_message update with
  | None => True
  | Some m =>
      from_id m = None \/ from_id m = Some 0
      \/ chat_id m = None \/ chat_id m = Some 0
      \/ exists u, from_id m = Some u
                   /\ allowed_has (parseAllowedUserIds env) u = false
  end.

(** Operations that send nothing, and operations that send exactly one
    message, to the given chat. *)
Definition silent {A} (m : M A) : Prop :=
  forall w, outbox (exec m w) = outbox w.

Definition sends_one {A} (chatId : Z) (m : M A) : Prop :=
  forall w, exists reply markup,
    outbox (exec m w) = outbox w ++ [mkSentMessage chatId reply markup].


(** A state row of a conversation in progress: the category is being
    chosen, or an amount is awaited for a category that passed the test
    [text in CATEGORIES]. *)
Definition row_in_progress (row : UserStateRow) : Prop :=
  row = {| step := "choose_category"; pending_category := None |}
  \/ exists c, row = {| step := "await_amount"; pending_category := Some c |}
              /\ JsObject.has_property CATEGORIES c = true.

(** Tables in which every state row is of a conversation in progress and
    every expense has a category that passed the test, a sender and a
    finite amount. *)
Definition db_wellformed (d : DB) : Prop :=
  (forall userId row, user_state d !! userId = Some row -> row_in_progress row)
  /\ Forall (fun e => JsObject.has_property CATEGORIES (category e) = true
                      /\ user_id e <> 0
                      /\ JsNumber.isFinite (amount e) = true)
            (expenses d).

(** The expense row that [insertExpense] writes. *)
Definition expense_row (now : SgNow) (userId : Z) (cat : string)
  (amt : number) : Expense :=
  {| ts_utc := tsUtc now; ts_sg_date := tsSgDate now;
     ts_sg_month := tsSgMonth now; user_id := userId;
     category := cat; amount := amt |}.

(** * Properties *)

(** ** Numbers *)

Example Number_12_50 :
  JsNumber.Number "12.50" = S754_finite false 7036874417766400 (-49)
  /\ JsNumber.to_Q (JsNumber.Number "12.50") = Some (25 # 2)%Q.
Proof. split; reflexivity. Qed.

Example Number_minus_5 : JsNumber.Number "-5" = JsNumber.of_Z (-5).
Proof. reflexivity. Qed.

Example Number_abc : JsNumber.Number "abc" = JsNumber.NaN.
Proof. reflexivity. Qed.

Example Number_Infinity : JsNumber.Number "Infinity" = JsNumber.Infinity false.
Proof. reflexivity. Qed.

Example Number_1e999 : JsNumber.Number "1e999" = JsNumber.Infinity false.
Proof. vm_compute. reflexivity. Qed.

Example Number_empty : JsNumber.Number "" = JsNumber.zero.
Proof. reflexivity. Qed.

(** The literal [0.1] is not the rational 1/10 but the nearest double, and
    the sum of the doubles for [0.1] and [0.2] is not the double for
    [0.3]. *)
Example Number_0_1 :
  JsNumber.Number "0.1" = S754_finite false 7205759403792794 (-56)
  /\ JsNumber.add (JsNumber.Number "0.1") (JsNumber.Number "0.2")
     = JsNumber.Number "0.30000000000000004"
  /\ JsNumber.Number "0.30000000000000004" <> JsNumber.Number "0.3".
Proof.
  split; [vm_compute; reflexivity|]. split; [vm_compute; reflexivity|].
  vm_compute. discriminate.
Qed.

(** An integer literal above [2^53] is rounded. *)
Example Number_9007199254740993 :
  JsNumber.Number "9007199254740993" = JsNumber.Number "9007199254740992".
Proof. vm_compute. reflexivity. Qed.

Module NumberFacts.
Import JsNumber.

Lemma digits2_pos_iter m k :
  digits2_pos (Pos.iter xO m k) = (digits2_pos m + k)%positive.
Proof.
  induction k as [|k IH] using Pos.peano_ind.
  - cbn. rewrite Pos.add_1_r. reflexivity.
  - rewrite (Pos.iter_succ k positive xO m). cbn [digits2_pos].
    rewrite IH, Pos.add_succ_r. reflexivity.
Qed.

Lemma shiftr_iter m k : Z.shiftr (Zpos (Pos.iter xO m k)) (Zpos k) = Zpos m.
Proof.
  change (Z.shiftr (Zpos (Pos.iter xO m k)) (Zpos k))
    with (Pos.iter Z.div2 (Zpos (Pos.iter xO m k)) k).
  induction k as [|k IH] using Pos.peano_ind.
  - reflexivity.
  - rewrite (Pos.iter_succ k positive xO m), Pos.iter_succ_r. exact IH.
Qed.

Lemma digits2_pos_lower m : 2 ^ (Zpos (digits2_pos m) - 1) <= Zpos m.
Proof.
  induction m as [m IH | m IH |]; cbn [digits2_pos].
  - rewrite Pos2Z.inj_succ.
    replace (Z.succ (Zpos (digits2_pos m)) - 1)
      with (Z.succ (Zpos (digits2_pos m) - 1)) by lia.
    rewrite Z.pow_succ_r by lia. lia.
  - rewrite Pos2Z.inj_succ.
    replace (Z.succ (Zpos (digits2_pos m)) - 1)
      with (Z.succ (Zpos (digits2_pos m) - 1)) by lia.
    rewrite Z.pow_succ_r by lia. lia.
  - cbn. lia.
Qed.

Lemma digits2_pos_le_53 m : Zpos m < 2 ^ 53 -> Zpos (digits2_pos m) <= 53.
Proof.
  intros H. destruct (Z.le_gt_cases (Zpos (digits2_pos m)) 53) as [|Hgt]; [assumption|].
  pose proof (digits2_pos_lower m) as Hl.
  assert (2 ^ 53 <= 2 ^ (Zpos (digits2_pos m) - 1))
    by (apply Z.pow_le_mono_r; lia).
  lia.
Qed.

(** A mantissa of 53 bits with an exponent in range is a double as it
    stands: nothing is rounded. *)
Lemma binary_round_aux_exact sx mz ez :
  Zpos (digits2_pos mz) = 53 -> -1074 <= ez <= 971 ->
  binary_round_aux prec emax sx (Zpos mz) ez loc_Exact = S754_finite sx mz ez.
Proof.
  intros Hd He.
  assert (E : shr_fexp prec emax (Zpos mz) ez loc_Exact
              = ({| shr_m := Zpos mz; shr_r := false; shr_s := false |}, ez)).
  { unfold shr_fexp, fexp, emin, prec, emax. cbn [Zdigits2]. rewrite Hd.
    replace (Z.max (53 + ez - 53) (3 - 1024 - 53) - ez) with 0 by lia.
    reflexivity. }
  unfold binary_round_aux. rewrite E.
  cbn [shr_m loc_of_shr_record round_nearest_even]. rewrite E. cbn [shr_m].
  unfold prec, emax.
  destruct (Z.leb_spec ez (1024 - 53)); [reflexivity | lia].
Qed.

(** The double for an integer below [2^53] in size is that integer. *)
Lemma binary_round_integer sx m :
  Zpos m < 2 ^ 53 ->
  exists mz ez,
    binary_round prec emax sx m 0 = S754_finite sx mz ez
    /\ -52 <= ez <= 0
    /\ (if 0 <=? ez then Z.shiftl (Zpos mz) ez else Z.shiftr (Zpos mz) (- ez))
       = Zpos m.
Proof.
  intros Hm. pose proof (digits2_pos_le_53 m Hm) as Hd.
  unfold binary_round.
  assert (Ef : fexp prec emax (Zpos (digits2_pos m) + 0)
               = Zpos (digits2_pos m) - 53)
    by (unfold fexp, emin, prec, emax; lia).
  rewrite Ef. unfold shl_align.
  destruct (Zpos (digits2_pos m) - 53 - 0) as [|k|k] eqn:Ek; [|lia|].
  - exists m, 0. rewrite binary_round_aux_exact by lia.
    repeat split; try lia; reflexivity.
  - exists (Pos.iter xO m k), (Zpos (digits2_pos m) - 53).
    rewrite binary_round_aux_exact.
    + repeat split; try lia.
      destruct (Z.leb_spec 0 (Zpos (digits2_pos m) - 53)); [lia|].
      replace (- (Zpos (digits2_pos m) - 53)) with (Zpos k) by lia.
      apply shiftr_iter.
    + rewrite digits2_pos_iter, Pos2Z.inj_add. lia.
    + lia.
Qed.

Lemma to_integer_of_Z z : Z.abs z < 2 ^ 53 -> to_integer (of_Z z) = Some z.
Proof.
  intros Hz. destruct z as [|m|m]; [reflexivity | |].
  - destruct (binary_round_integer false m) as (mz & ez & E & _ & Hv); [exact Hz|].
    unfold of_Z, binary_normalize. rewrite E. cbn [to_integer]. rewrite Hv.
    reflexivity.
  - destruct (binary_round_integer true m) as (mz & ez & E & _ & Hv); [exact Hz|].
    unfold of_Z, binary_normalize. rewrite E. cbn [to_integer]. rewrite Hv.
    reflexivity.
Qed.

Lemma isFinite_of_Z z : Z.abs z < 2 ^ 53 -> isFinite (of_Z z) = true.
Proof.
  intros Hz. destruct z as [|m|m]; [reflexivity | |].
  - destruct (binary_round_integer false m) as (mz & ez & E & _); [exact Hz|].
    unfold of_Z, binary_normalize. rewrite E. reflexivity.
  - destruct (binary_round_integer true m) as (mz & ez & E & _); [exact Hz|].
    unfold of_Z, binary_normalize. rewrite E. reflexivity.
Qed.

(** A decimal literal without fraction and exponent. *)
Lemma of_decimal_integer m : 0 <= m -> of_decimal false m 0 = of_Z m.
Proof.
  intros Hm. destruct m as [|p|p]; [reflexivity | | lia].
  unfold of_decimal, of_Z, binary_normalize.
  change (0 <=? 0) with true. cbv iota.
  change (Z.to_pos (10 ^ 0)) with 1%positive. rewrite Pos.mul_1_r. reflexivity.
Qed.

(** Adding to zero: a finite amount other than zero is kept as it is. *)
Lemma add_zero_finite s m e :
  add zero (S754_finite s m e) = S754_finite s m e.
Proof. reflexivity. Qed.

End NumberFacts.
(** ** Date arithmetic against the calendar *)

Module DateFacts.
Import JsDate CalendarSpec.

Lemma DaysInYear_leap y : DaysInYear y = if is_leap_year y then 366 else 365.
Proof.
  unfold DaysInYear, is_leap_year.
  destruct (y mod 4 =? 0), (y mod 100 =? 0), (y mod 400 =? 0); reflexivity.
Qed.

Lemma DaysInYear_range y : 365 <= DaysInYear y <= 366.
Proof. rewrite DaysInYear_leap. destruct (is_leap_year y); lia. Qed.

Lemma DayFromYear_succ y : DayFromYear (y + 1) = DayFromYear y + DaysInYear y.
Proof.
  unfold DayFromYear, DaysInYear.
  destruct (Z.eqb_spec (y mod 4) 0), (Z.eqb_spec (y mod 100) 0),
    (Z.eqb_spec (y mod 400) 0);
    simpl; Z.div_mod_to_equations; lia.
Qed.

(** [YearFromDay] finds the year a day falls in. *)
Lemma YearFromDay_spec y d :
  DayFromYear y <= d < DayFromYear (y + 1) -> YearFromDay d = y.
Proof.
  intros H. unfold YearFromDay.
  set (y0 := 1970 + 400 * d / 146097).
  assert (Hy0 : y - 1 <= y0 <= y + 1).
  { subst y0. unfold DayFromYear in H. Z.div_mod_to_equations. lia. }
  assert (y0 = y - 1 \/ y0 = y \/ y0 = y + 1) as [E | [E | E]] by lia; rewrite E.
  - pose proof (DayFromYear_succ (y - 1)). pose proof (DaysInYear_range (y - 1)).
    replace (y - 1 + 1) with y in * by lia.
    destruct (Z.ltb_spec d (DayFromYear (y - 1))); [lia|].
    destruct (Z.leb_spec (DayFromYear y) d); lia.
  - destruct (Z.ltb_spec d (DayFromYear y)); [lia|].
    destruct (Z.leb_spec (DayFromYear (y + 1)) d); lia.
  - destruct (Z.ltb_spec d (DayFromYear (y + 1))); lia.
Qed.

Lemma Day_MakeDate d : Day (MakeDate d 0) = d.
Proof. unfold Day, MakeDate, msPerDay. Z.div_mod_to_equations. lia. Qed.

Lemma day_in_year y k :
  0 <= k < DaysInYear y ->
  YearFromTime (MakeDate (DayFromYear y + k) 0) = y
  /\ DayWithinYear (MakeDate (DayFromYear y + k) 0) = k.
Proof.
  intros Hk. unfold DayWithinYear, YearFromTime. rewrite Day_MakeDate.
  rewrite (YearFromDay_spec y); [lia|].
  rewrite DayFromYear_succ. lia.
Qed.

Ltac decide_ltb :=
  repeat match goal with
    | |- context [?a <? ?b] =>
        first [ rewrite (proj2 (Z.ltb_lt a b)) by lia
              | rewrite (proj2 (Z.ltb_ge a b)) by lia ]
    end.

Ltac each_of_12 Hc :=
  repeat (destruct Hc as [Hc | Hc]); subst.

Lemma DateFromTime_in_month y mn k :
  0 <= mn <= 11 ->
  let l := if is_leap_year y then 1 else 0 in
  month_start l mn <= k < month_end l mn ->
  DateFromTime (MakeDate (DayFromYear y + k) 0) = k - month_start l mn + 1.
Proof.
  intros Hmn l Hk.
  assert (mn = 0 \/ mn = 1 \/ mn = 2 \/ mn = 3 \/ mn = 4 \/ mn = 5 \/ mn = 6
          \/ mn = 7 \/ mn = 8 \/ mn = 9 \/ mn = 10 \/ mn = 11) as Hc by lia.
  assert (Hr : 0 <= k < DaysInYear y).
  { rewrite DaysInYear_leap. subst l. clear Hmn.
    each_of_12 Hc; destruct (is_leap_year y);
      cbn [JsDate.month_start month_end] in Hk; lia. }
  destruct (day_in_year y k Hr) as [Hy Hd].
  unfold DateFromTime, MonthFromTime, InLeapYear. rewrite Hy, Hd.
  rewrite DaysInYear_leap. subst l. clear Hmn Hr Hy Hd.
  each_of_12 Hc; destruct (is_leap_year y);
    cbn [JsDate.month_start month_end Z.eqb Pos.eqb] in Hk |- *; decide_ltb; lia.
Qed.

Lemma MakeDay_in_year y mn date :
  0 <= mn <= 11 ->
  MakeDay y mn date =
  DayFromYear y + month_start (if DaysInYear y =? 366 then 1 else 0) mn + date - 1.
Proof.
  intros H. unfold MakeDay.
  rewrite Z.div_small, Z.mod_small by lia. rewrite Z.add_0_r. reflexivity.
Qed.

Lemma MakeDay_next_year y date :
  MakeDay y 12 date = DayFromYear (y + 1) + date - 1.
Proof.
  unfold MakeDay. change (12 / 12) with 1. change (12 mod 12) with 0.
  cbn [month_start]. lia.
Qed.

(** Day 0 of the month after month [m] is the last day of month [m]. *)
Lemma DateFromTime_last_day y m :
  1 <= m <= 12 ->
  DateFromTime (MakeDate (MakeDay y m 0) 0) = days_in_month y m.
Proof.
  intros Hm.
  pose proof (DaysInYear_leap y) as Hl.
  destruct (Z.eq_dec m 12) as [-> | Hne].
  - rewrite MakeDay_next_year, DayFromYear_succ.
    replace (DayFromYear y + DaysInYear y + 0 - 1)
      with (DayFromYear y + (DaysInYear y - 1)) by lia.
    rewrite (DateFromTime_in_month y 11) by
      (rewrite ?Hl; destruct (is_leap_year y); cbn [JsDate.month_start month_end]; lia).
    rewrite Hl. destruct (is_leap_year y); reflexivity.
  - rewrite MakeDay_in_year by lia. rewrite Hl.
    assert (m = 1 \/ m = 2 \/ m = 3 \/ m = 4 \/ m = 5 \/ m = 6 \/ m = 7
            \/ m = 8 \/ m = 9 \/ m = 10 \/ m = 11) as Hc by lia.
    clear Hm Hne.
    each_of_12 Hc;
      match goal with
      | |- DateFromTime (MakeDate (_ + month_start _ ?mn + 0 - 1) 0) = _ =>
          let p := eval cbv in (mn - 1) in
          replace (DayFromYear y
                   + month_start (if (if is_leap_year y then 366 else 365) =? 366
                                  then 1 else 0) mn + 0 - 1)
            with (DayFromYear y
                  + (month_start (if is_leap_year y then 1 else 0) mn - 1))
            by (destruct (is_leap_year y); cbn [month_start Z.eqb Pos.eqb]; lia);
          rewrite (DateFromTime_in_month y p) by
            (try lia; destruct (is_leap_year y); cbn [JsDate.month_start month_end]; lia)
      end;
      unfold days_in_month; destruct (is_leap_year y); cbn [month_start]; lia.
Qed.

(** The epoch of the time values is day 719163 of the calendar. *)
Lemma DayFromYear_days_before_year y :
  DayFromYear y = days_before_year y - 719162.
Proof. unfold DayFromYear, days_before_year. Z.div_mod_to_equations. lia. Qed.

Lemma month_start_days_before_month y m :
  1 <= m <= 12 ->
  month_start (if DaysInYear y =? 366 then 1 else 0) (m - 1)
  = days_before_month y m.
Proof.
  intros Hm. rewrite DaysInYear_leap.
  assert (m = 1 \/ m = 2 \/ m = 3 \/ m = 4 \/ m = 5 \/ m = 6 \/ m = 7
          \/ m = 8 \/ m = 9 \/ m = 10 \/ m = 11 \/ m = 12) as Hc by lia.
  clear Hm.
  each_of_12 Hc; unfold days_before_month; cbn; unfold days_in_month;
    destruct (is_leap_year y); reflexivity.
Qed.

(** The week day of the time value of a date is the day of the week of
    that date, for the year as [MakeDay] receives it. *)
Lemma WeekDay_day_of_week y m d :
  1 <= m <= 12 ->
  WeekDay (MakeDate (MakeDay y (m - 1) d) 0) = day_of_week y m d.
Proof.
  intros Hm. unfold WeekDay, day_of_week, day_number.
  rewrite Day_MakeDate, MakeDay_in_year by lia.
  rewrite month_start_days_before_month by lia.
  rewrite DayFromYear_days_before_year.
  generalize (days_before_year y) (days_before_month y m). intros a b.
  Z.div_mod_to_equations. lia.
Qed.

Lemma DayFromYear_bounds y :
  -271820 <= y <= 275759 ->
  -99999744 <= DayFromYear y <= 99999379
  /\ -99999744 <= DayFromYear (y + 1) <= 99999744.
Proof. intros H. unfold DayFromYear. Z.div_mod_to_equations. lia. Qed.

Lemma month_start_bounds l mn : 0 <= l <= 1 -> 0 <= month_start l mn <= 335.
Proof.
  intros H. unfold month_start.
  repeat match goal with
         | |- context [match ?x with _ => _ end] => destruct x
         end; lia.
Qed.

Lemma MakeFullYear_range y :
  -271820 <= y <= 275759 -> -271820 <= MakeFullYear y <= 275759.
Proof.
  intros H. unfold MakeFullYear.
  destruct (Z.leb_spec 0 y), (Z.leb_spec y 99); cbn [andb]; lia.
Qed.

Lemma MakeFullYear_id y : ~ 0 <= y <= 99 -> MakeFullYear y = y.
Proof.
  intros H. unfold MakeFullYear.
  destruct (Z.leb_spec 0 y), (Z.leb_spec y 99); cbn [andb]; lia.
Qed.

Lemma MakeFullYear_two_digits y : 0 <= y <= 99 -> MakeFullYear y = 1900 + y.
Proof.
  intros H. unfold MakeFullYear.
  destruct (Z.leb_spec 0 y), (Z.leb_spec y 99); cbn [andb]; lia.
Qed.

(** The time values reach 100,000,000 days to either side of the epoch:
    from 20 April -271821 to 13 September 275760.  The dates of the
    years -271820 to 275759 are inside. *)
Lemma UTC_in_range y mn date :
  -271820 <= y <= 275759 -> 0 <= mn <= 12 -> 0 <= date <= 31 ->
  UTC y mn date = Some (MakeDate (MakeDay (MakeFullYear y) mn date) 0).
Proof.
  intros Hy Hmn Hd. unfold UTC, TimeClip.
  pose proof (MakeFullYear_range y Hy) as Hf.
  generalize dependent (MakeFullYear y). intros y' Hy'.
  assert (Hb : -99999745 <= MakeDay y' mn date <= 100000000).
  { destruct (Z.eq_dec mn 12) as [-> | Hne].
    - rewrite MakeDay_next_year.
      pose proof (DayFromYear_bounds y'). lia.
    - rewrite MakeDay_in_year by lia.
      pose proof (DayFromYear_bounds y').
      pose proof (month_start_bounds (if DaysInYear y' =? 366 then 1 else 0) mn).
      destruct (DaysInYear y' =? 366); lia. }
  unfold MakeDate, msPerDay.
  destruct (Z.ltb_spec 8640000000000000 (Z.abs (MakeDay y' mn date * 86400000 + 0)));
    [lia | reflexivity].
Qed.

(** For the years 1 to 99, which the constructors read as 1901 to 1999, the
    months are as long as in the year meant. *)
Lemma days_in_month_two_digit_year y m :
  1 <= y <= 99 -> days_in_month (1900 + y) m = days_in_month y m.
Proof.
  intros Hy. unfold days_in_month, is_leap_year.
  replace ((1900 + y) mod 4 =? 0) with (y mod 4 =? 0)
    by (f_equal; Z.div_mod_to_equations; lia).
  replace ((1900 + y) mod 100 =? 0) with false
    by (symmetry; apply Z.eqb_neq; Z.div_mod_to_equations; lia).
  replace (y mod 100 =? 0) with false
    by (symmetry; apply Z.eqb_neq; Z.div_mod_to_equations; lia).
  reflexivity.
Qed.

(** The year 0 is read as 1900, which is not a leap year, while the year 0
    is one: the two differ in February, and in February only. *)
Lemma days_in_month_year_0 m : m <> 2 -> days_in_month 1900 m = days_in_month 0 m.
Proof.
  intros Hm. unfold days_in_month.
  destruct m as [|[[[|[]|]|[[]|[]|]|]|[[|[]|]|[[]|[]|]|]|]|]; try reflexivity; lia.
Qed.

(** The length of the month for the year as the constructors read it. *)
Lemma days_in_month_MakeFullYear y m :
  y <> 0 \/ m <> 2 -> days_in_month (MakeFullYear y) m = days_in_month y m.
Proof.
  intros H. destruct (Z.eq_dec y 0) as [-> | Hy].
  - apply days_in_month_year_0. lia.
  - destruct (Z.le_gt_cases 0 y), (Z.le_gt_cases y 99).
    + rewrite MakeFullYear_two_digits by lia.
      apply days_in_month_two_digit_year. lia.
    + rewrite MakeFullYear_id by lia. reflexivity.
    + rewrite MakeFullYear_id by lia. reflexivity.
    + rewrite MakeFullYear_id by lia. reflexivity.
Qed.

End DateFacts.

(** ** Calendar engine *)

Section CalendarEngine.
Import JsDate CalendarSpec DateFacts.

(** The local [daysInMonth] is the length of the month, for every year of
    the range of [Date] and every month, February of the year 0 apart. *)
Lemma daysInMonth_correct y m :
  -271820 <= y <= 275759 -> 1 <= m <= 12 -> y <> 0 \/ m <> 2 ->
  daysInMonth y m = Some (days_in_month y m).
Proof.
  intros Hy Hm Hne. unfold daysInMonth.
  rewrite UTC_in_range by lia. cbn [getDate fmap option_fmap option_map].
  rewrite DateFromTime_last_day by lia. f_equal.
  apply days_in_month_MakeFullYear, Hne.
Qed.

(** Each iteration of the loop adds one to exactly one of the counters,
    according to the class of the day it looks at. *)
Lemma countWeekdaysWeekends_loop_counts y m n : forall day weekdays weekends,
  countWeekdaysWeekends_loop y m day n weekdays weekends =
  (weekdays
   + Z.of_nat (length (List.filter (fun d => negb (weekend_day y m d))
                                   (seqZ day (Z.of_nat n)))),
   weekends
   + Z.of_nat (length (List.filter (weekend_day y m) (seqZ day (Z.of_nat n))))).
Proof.
  induction n as [|n IH]; intros day weekdays weekends.
  - rewrite seqZ_nil by lia. cbn. f_equal; lia.
  - cbn [countWeekdaysWeekends_loop].
    rewrite Nat2Z.inj_succ, seqZ_cons by lia.
    replace (Z.pred (Z.succ (Z.of_nat n))) with (Z.of_nat n) by lia.
    replace (Z.succ day) with (day + 1) by lia.
    cbn [List.filter]. fold (weekend_day y m day).
    destruct (weekend_day y m day); cbn [negb]; rewrite IH; cbn [length];
      f_equal; lia.
Qed.

Lemma filter_partition_length {A} (f : A -> bool) (l : list A) :
  (length (List.filter (fun x => negb (f x)) l) + length (List.filter f l))%nat
  = length l.
Proof.
  induction l as [|a l IH]; [reflexivity|].
  cbn. destruct (f a); cbn; lia.
Qed.

Lemma days_in_month_nonneg y m : 0 <= days_in_month y m.
Proof.
  unfold days_in_month.
  repeat match goal with
         | |- context [match ?x with _ => _ end] => destruct x
         end; lia.
Qed.

(** For every year of the range of [Date] and every month, February of
    the year 0 apart, [countWeekdaysWeekends] runs over the days 1 to
    [daysInMonth], the local [daysInMonth] is the number of days of that
    month in the calendar, and the two counts add up to it. *)
Lemma countWeekdaysWeekends_sum y m :
  -271820 <= y <= 275759 -> 1 <= m <= 12 -> y <> 0 \/ m <> 2 ->
  daysInMonth y m = Some (days_in_month y m)
  /\ fst (countWeekdaysWeekends y m)
     = Z.of_nat (length (List.filter (fun d => negb (weekend_day y m d))
                                     (seqZ 1 (days_in_month y m))))
  /\ snd (countWeekdaysWeekends y m)
     = Z.of_nat (length (List.filter (weekend_day y m)
                                     (seqZ 1 (days_in_month y m))))
  /\ fst (countWeekdaysWeekends y m) + snd (countWeekdaysWeekends y m)
     = days_in_month y m.
Proof.
  intros Hy Hm Hne. pose proof (daysInMonth_correct y m Hy Hm Hne) as Hd.
  pose proof (days_in_month_nonneg y m) as Hpos.
  unfold countWeekdaysWeekends. rewrite Hd.
  rewrite countWeekdaysWeekends_loop_counts. cbn [fst snd].
  rewrite Z2Nat.id by lia.
  repeat split; try lia.
  pose proof (filter_partition_length (weekend_day y m)
                (seqZ 1 (days_in_month y m))) as Hp.
  rewrite length_seqZ in Hp. lia.
Qed.

(** C6, at February of the year 0, which the monthly endpoint accepts
    ([year=0&month=2]): the year 0 is a leap year and its February has 29
    days, but the local [daysInMonth] is 28 and the two counts are 20 and
    8, which add up to 28.  [new Date(0, 2, 0)] and [Date.UTC(0, 1, day)]
    read the year 0 as 1900, which is not a leap year. *)
Theorem countWeekdaysWeekends_february_of_year_0 :
  invalid_month 2 = false
  /\ is_leap_year 0 = true
  /\ days_in_month 0 2 = 29
  /\ daysInMonth 0 2 = Some 28
  /\ countWeekdaysWeekends 0 2 = (20, 8)
  /\ fst (countWeekdaysWeekends 0 2) + snd (countWeekdaysWeekends 0 2)
     <> days_in_month 0 2
  /\ JsDate.UTC 0 2 0 = JsDate.UTC 1900 2 0
  /\ countWeekdaysWeekends 0 2 = countWeekdaysWeekends 1900 2.
Proof. repeat split; try reflexivity. vm_compute. discriminate. Qed.

(** Beyond the range of [Date] the local [daysInMonth] is [NaN], the loop
    does not run and both counts are 0: the first month of the year 275761
    and the last month of the year -271822 are the nearest such months
    whose days are all outside the range. *)
Example countWeekdaysWeekends_outside_Date_range :
  daysInMonth 275761 1 = None
  /\ countWeekdaysWeekends 275761 1 = (0, 0)
  /\ days_in_month 275761 1 = 31
  /\ daysInMonth (-271822) 12 = None
  /\ countWeekdaysWeekends (-271822) 12 = (0, 0).
Proof. repeat split; reflexivity. Qed.

Example countWeekdaysWeekends_2025_03 : countWeekdaysWeekends 2025 3 = (21, 10).
Proof. reflexivity. Qed.

Example countWeekdaysWeekends_2024_02 : countWeekdaysWeekends 2024 2 = (21, 8).
Proof. reflexivity. Qed.

(** [monthlyDailyBucketBudget] is the two counts weighted by the two
    budgets. *)
Lemma monthlyDailyBucketBudget_eq y m :
  monthlyDailyBucketBudget y m
  = JsNumber.add
      (JsNumber.mul (JsNumber.of_Z (fst (countWeekdaysWeekends y m)))
                    WEEKDAY_DAILY_BUDGET)
      (JsNumber.mul (JsNumber.of_Z (snd (countWeekdaysWeekends y m)))
                    WEEKEND_DAILY_BUDGET).
Proof.
  unfold monthlyDailyBucketBudget. destruct (countWeekdaysWeekends y m). reflexivity.
Qed.

Example monthlyDailyBucketBudget_2025_03 :
  monthlyDailyBucketBudget 2025 3 = JsNumber.of_Z 1850.
Proof. vm_compute. reflexivity. Qed.

(** Outside the years 0 to 99, the week day that [getUTCDay] gives for a
    date is the day of the week of that date. *)
Lemma getUTCDay_day_of_week y m d :
  -271820 <= y <= 275759 -> ~ 0 <= y <= 99 -> 1 <= m <= 12 -> 1 <= d <= 31 ->
  getUTCDay (UTC y (m - 1) d) = Some (day_of_week y m d).
Proof.
  intros Hy Hy' Hm Hd. rewrite UTC_in_range by lia.
  rewrite MakeFullYear_id by lia.
  cbn [getUTCDay fmap option_fmap option_map].
  rewrite WeekDay_day_of_week by lia. reflexivity.
Qed.

Lemma weekend_day_is_weekend y m d :
  -271820 <= y <= 275759 -> ~ 0 <= y <= 99 -> 1 <= m <= 12 -> 1 <= d <= 31 ->
  weekend_day y m d = is_weekend y m d.
Proof.
  intros Hy Hy' Hm Hd. unfold weekend_day, is_weekend.
  rewrite getUTCDay_day_of_week by lia.
  generalize (day_of_week y m d). intros k.
  destruct (Z.eqb_spec k 0), (Z.eqb_spec k 6);
    repeat case_bool_decide; try reflexivity; congruence.
Qed.

End CalendarEngine.

(** ** Objects and aggregation *)

Module ObjectFacts.
Import JsObject.
Section Facts.
Context {V : Type}.
Implicit Types (o : JsObject.t V) (k : string) (v : V).

Lemma get_app_None o o' k :
  get o k = None -> get (o ++ o') k = get o' k.
Proof.
  induction o as [|[k' v'] o IH]; [reflexivity|].
  cbn. destruct (String.eqb k' k); [discriminate | exact IH].
Qed.

Lemma get_app_Some o o' k v :
  get o k = Some v -> get (o ++ o') k = Some v.
Proof.
  induction o as [|[k' v'] o IH]; [discriminate|].
  cbn. destruct (String.eqb k' k); [trivial | exact IH].
Qed.

Lemma get_None_not_in o k : get o k = None <-> k ∉ map fst o.
Proof.
  induction o as [|[k' v'] o IH]; cbn.
  - split; [intros _; apply not_elem_of_nil | reflexivity].
  - rewrite not_elem_of_cons.
    destruct (String.eqb_spec k' k) as [-> | Hne].
    + split; [discriminate | intros [H _]; congruence].
    + rewrite IH. split; [intros H; split; [congruence | exact H] | tauto].
Qed.

Lemma define_fresh o k v : get o k = None -> define o k v = o ++ [(k, v)].
Proof.
  induction o as [|[k' v'] o IH]; [reflexivity|].
  cbn. destruct (String.eqb k' k); [discriminate|].
  intros H. rewrite IH by exact H. reflexivity.
Qed.

Lemma ordinary_key_spec k :
  ordinary_key k = true
  <-> String.eqb k "__proto__" = false /\ is_array_index k = false.
Proof.
  unfold ordinary_key. rewrite andb_true_iff, !negb_true_iff. reflexivity.
Qed.

(** An assignment to an ordinary key defines the property. *)
Lemma set_ordinary o k v : ordinary_key k = true -> set o k v = define o k v.
Proof.
  intros H. apply ordinary_key_spec in H as [H _]. unfold set. rewrite H.
  reflexivity.
Qed.

(** An assignment to [__proto__] leaves the object as it was. *)
Lemma set_proto o v : set o "__proto__" v = o.
Proof. reflexivity. Qed.

(** Rows with distinct ordinary keys, none of them in the object yet, are
    appended in their order. *)
Lemma fold_set_distinct (rows : list (string * V)) : forall o,
  NoDup (map fst rows) ->
  (forall row, row ∈ rows -> ordinary_key (fst row) = true) ->
  (forall k, k ∈ map fst rows -> get o k = None) ->
  fold_left (fun o row => set o (fst row) (snd row)) rows o = o ++ rows.
Proof.
  induction rows as [|[k v] rows IH]; intros o Hnd Hord Hfresh.
  - cbn. rewrite app_nil_r. reflexivity.
  - cbn [fold_left fst snd map] in *.
    apply NoDup_cons in Hnd as [Hnotin Hnd].
    rewrite set_ordinary by (apply (Hord (k, v)); left).
    rewrite define_fresh by (apply Hfresh; left).
    rewrite IH; [rewrite <- app_assoc; reflexivity | exact Hnd | |].
    + intros row Hrow. apply Hord. right. exact Hrow.
    + intros k' Hin. rewrite get_app_None by (apply Hfresh; right; exact Hin).
      cbn. destruct (String.eqb_spec k k') as [-> | Hne]; [contradiction | reflexivity].
Qed.

Lemma insert_by_index_perm (x : Z * (string * V)) l :
  Permutation (insert_by_index x l) (x :: l).
Proof.
  induction l as [|y l IH]; [reflexivity|].
  cbn. destruct (fst x <=? fst y); [reflexivity|].
  rewrite IH. apply perm_swap.
Qed.

Lemma sort_by_index_perm (l : list (Z * (string * V))) :
  Permutation (foldr insert_by_index [] l) l.
Proof.
  induction l as [|x l IH]; [reflexivity|].
  cbn. rewrite insert_by_index_perm. constructor. exact IH.
Qed.

Lemma indexed_entries o :
  map snd (indexed o) = List.filter (fun p => is_array_index (fst p)) o.
Proof.
  unfold indexed, is_array_index.
  induction o as [|p o IH]; [reflexivity|].
  cbn. destruct (array_index (fst p)); cbn; rewrite IH; reflexivity.
Qed.

Lemma filter_split_perm {A} (f : A -> bool) (l : list A) :
  Permutation (List.filter f l ++ List.filter (fun x => negb (f x)) l) l.
Proof.
  induction l as [|a l IH]; [reflexivity|].
  cbn. destruct (f a); cbn.
  - constructor. exact IH.
  - rewrite <- Permutation_middle. constructor. exact IH.
Qed.

(** The enumeration only reorders the properties. *)
Lemma entries_perm o : Permutation (entries o) o.
Proof.
  unfold entries.
  rewrite (Permutation_map snd (sort_by_index_perm (indexed o))).
  rewrite indexed_entries. apply filter_split_perm.
Qed.

(** Without array-index keys it is the creation order. *)
Lemma entries_no_index o :
  (forall p, p ∈ o -> is_array_index (fst p) = false) -> entries o = o.
Proof.
  intros H. unfold entries.
  assert (Hi : indexed o = []).
  { unfold indexed. induction o as [|p o IH]; [reflexivity|].
    cbn. pose proof (H p ltac:(left)) as Hp.
    unfold is_array_index in Hp. destruct (array_index (fst p)); [discriminate|].
    cbn. apply IH. intros q Hq. apply H. right. exact Hq. }
  rewrite Hi. cbn.
  induction o as [|p o IH]; [reflexivity|].
  cbn [List.filter]. rewrite (H p) by left. cbn [negb].
  f_equal. apply IH.
  - intros q Hq. apply H. right. exact Hq.
  - unfold indexed in *. cbn in Hi.
    destruct (array_index (fst p)); [discriminate | exact Hi].
Qed.

Lemma values_ordinary o :
  (forall p, p ∈ o -> ordinary_key (fst p) = true) -> values o = map snd o.
Proof.
  intros H. unfold values. rewrite entries_no_index; [reflexivity|].
  intros p Hp. apply (ordinary_key_spec (fst p)), H, Hp.
Qed.
End Facts.
End ObjectFacts.

Module AggregationFacts.
Import JsObject ObjectFacts.

Section AnyNumber.
Context {N : Type} (add : N -> N -> N) (zero : N).

Lemma sumForDate_rows_fold (rows : list (string * N)) : forall total o,
  fold_left
    (fun acc row =>
       (add (fst acc) (snd row), set (snd acc) (fst row) (snd row)))
    rows (total, o)
  = (fold_left add (map snd rows) total,
     fold_left (fun o row => set o (fst row) (snd row)) rows o).
Proof.
  induction rows as [|row rows IH]; intros total o; [reflexivity|].
  cbn. apply IH.
Qed.

Lemma sumForDate_rows_eq rows :
  sumForDate_rows add zero rows
  = (fold_left add (map snd rows) zero,
     fold_left (fun o row => set o (fst row) (snd row)) rows empty).
Proof. apply sumForDate_rows_fold. Qed.

Lemma byCategory_distinct (rows : list (string * N)) :
  NoDup (map fst rows) ->
  (forall row, row ∈ rows -> ordinary_key (fst row) = true) ->
  fold_left (fun o row => set o (fst row) (snd row)) rows empty = rows.
Proof.
  intros Hnd Hord. rewrite fold_set_distinct; [reflexivity | exact Hnd | exact Hord |].
  intros k _. reflexivity.
Qed.

(** Whatever the addition is (it need not be associative or
    commutative), the two loops agree on rows with distinct ordinary
    categories: the map then has one property for each row, and its values
    are enumerated in the order of the rows. *)
Lemma rows_agree_any_addition rows :
  NoDup (map fst rows) ->
  (forall row, row ∈ rows -> ordinary_key (fst row) = true) ->
  sumForDate_rows add zero rows = sumForMonth_rows add zero rows
  /\ sumForDate_rows add zero rows = (fold_left add (map snd rows) zero, rows)
  /\ values rows = map snd rows.
Proof.
  intros Hnd Hord. rewrite sumForDate_rows_eq. unfold sumForMonth_rows.
  rewrite byCategory_distinct by assumption.
  rewrite values_ordinary by exact Hord. repeat split; reflexivity.
Qed.
End AnyNumber.

(** *** The storage: [GROUP BY category] with [SUM(amount)] *)

Lemma group_sum_fold l : group_sum l = fold_left group_step l [].
Proof. reflexivity. Qed.

Lemma add_to_group_notin groups c a :
  c ∉ map fst groups ->
  add_to_group groups c a = groups ++ [(c, JsNumber.add JsNumber.zero a)].
Proof.
  induction groups as [|[k t] groups IH]; intros Hc; [reflexivity|].
  cbn in *. apply not_elem_of_cons in Hc as [Hne Hc].
  destruct (String.eqb_spec k c) as [-> | _]; [congruence|].
  rewrite IH by exact Hc. reflexivity.
Qed.

Lemma add_to_group_in groups c a :
  c ∈ map fst groups -> NoDup (map fst groups) ->
  add_to_group groups c a
  = map (fun p => if String.eqb (fst p) c
                  then (fst p, JsNumber.add (snd p) a) else p) groups.
Proof.
  induction groups as [|[k t] groups IH]; intros Hc Hnd.
  - apply elem_of_nil in Hc. contradiction.
  - cbn in *. apply NoDup_cons in Hnd as [Hk Hnd].
    destruct (String.eqb_spec k c) as [-> | Hne].
    + f_equal. symmetry. rewrite <- (map_id groups) at 2.
      apply map_ext_in. intros [k' t'] Hin. cbn.
      destruct (String.eqb_spec k' c) as [-> | _]; [|reflexivity].
      exfalso. apply Hk. apply list_elem_of_In in Hin.
      apply (list_elem_of_fmap_2 fst) in Hin. exact Hin.
    + f_equal. apply IH; [|exact Hnd].
      apply elem_of_cons in Hc as [Hc | Hc]; [congruence | exact Hc].
Qed.

Lemma add_to_group_keys groups c a :
  map fst (add_to_group groups c a)
  = map fst groups ++ (if bool_decide (c ∈ map fst groups) then [] else [c]).
Proof.
  induction groups as [|[k t] groups IH]; [reflexivity|].
  cbn. destruct (String.eqb_spec k c) as [-> | Hne].
  - rewrite bool_decide_eq_true_2 by left. cbn. rewrite app_nil_r. reflexivity.
  - cbn. rewrite IH. f_equal.
    rewrite (bool_decide_ext (c ∈ k :: map fst groups) (c ∈ map fst groups));
      [reflexivity|].
    rewrite elem_of_cons. intuition congruence.
Qed.

Lemma add_to_group_NoDup groups c a :
  NoDup (map fst groups) -> NoDup (map fst (add_to_group groups c a)).
Proof.
  intros Hnd. rewrite add_to_group_keys. case_bool_decide as Hc.
  - rewrite app_nil_r. exact Hnd.
  - apply NoDup_app. repeat split; [exact Hnd | | apply NoDup_singleton].
    intros k Hk Hk'. apply list_elem_of_singleton in Hk'. subst k. contradiction.
Qed.



Lemma known_spec keys c : known keys c = true <-> c ∈ keys.
Proof.
  unfold known. rewrite existsb_exists. split.
  - intros [k [Hin Heq]]. apply String.eqb_eq in Heq. subst k.
    apply list_elem_of_In. exact Hin.
  - intros Hin. exists c. split; [apply list_elem_of_In, Hin | apply String.eqb_refl].
Qed.

Lemma filter_filter {A} (f g : A -> bool) (l : list A) :
  List.filter f (List.filter g l) = List.filter (fun x => g x && f x) l.
Proof.
  induction l as [|a l IH]; [reflexivity|].
  cbn. destruct (g a); cbn; [destruct (f a)|]; rewrite ?IH; reflexivity.
Qed.

Lemma of_category_cons_same e l :
  of_category (category e) (e :: l) = e :: of_category (category e) l.
Proof. unfold of_category. cbn. rewrite String.eqb_refl. reflexivity. Qed.

Lemma of_category_cons_other c e l :
  c <> category e -> of_category c (e :: l) = of_category c l.
Proof.
  intros H. unfold of_category. cbn.
  rewrite (proj2 (String.eqb_neq (category e) c)) by congruence. reflexivity.
Qed.

Lemma category_total_cons_other c e l :
  c <> category e -> category_total c (e :: l) = category_total c l.
Proof. intros H. unfold category_total. rewrite of_category_cons_other by exact H. reflexivity. Qed.

(** The groups after the rows [l], from groups with distinct categories:
    each group has its rows of [l] added, in order, and the categories
    that are new come after, in the order of their first occurrence. *)
Lemma fold_group_step l : forall groups,
  NoDup (map fst groups) ->
  fold_left group_step l groups
  = map (fun p => (fst p,
                   fold_left JsNumber.add (map amount (of_category (fst p) l))
                             (snd p)))
        groups
    ++ map (fun c => (c, category_total c l))
           (List.filter (fun c => negb (known (map fst groups) c))
                        (first_occurrences (map category l))).
Proof.
  induction l as [|e l IH]; intros groups Hnd.
  - cbn. rewrite app_nil_r. rewrite <- (map_id groups) at 1.
    apply map_ext. intros [k t]. reflexivity.
  - cbn [fold_left]. unfold group_step at 2.
    rewrite IH by (apply add_to_group_NoDup, Hnd).
    cbn [map first_occurrences List.filter].
    destruct (known (map fst groups) (category e)) eqn:Hk; cbn [negb].
    + apply known_spec in Hk.
      rewrite add_to_group_keys, bool_decide_eq_true_2, app_nil_r by exact Hk.
      rewrite add_to_group_in by assumption. rewrite map_map. f_equal.
      * apply map_ext. intros [k t]. cbn [fst snd].
        destruct (String.eqb_spec k (category e)) as [-> | Hne]; cbn [fst snd].
        -- rewrite of_category_cons_same. reflexivity.
        -- rewrite of_category_cons_other by exact Hne. reflexivity.
      * rewrite filter_filter.
        rewrite (List.filter_ext_in
                   (fun x => negb (String.eqb (category e) x)
                             && negb (known (map fst groups) x))
                   (fun c => negb (known (map fst groups) c))).
        -- apply map_ext_in. intros c Hc. apply filter_In in Hc as [_ Hc].
           apply negb_true_iff in Hc.
           rewrite category_total_cons_other; [reflexivity|].
           intros ->. apply known_spec in Hk. congruence.
        -- intros c _. destruct (String.eqb_spec (category e) c) as [<- | _];
             [|reflexivity].
           apply known_spec in Hk. rewrite Hk. reflexivity.
    + assert (Hn : category e ∉ map fst groups).
      { intros Hin. apply known_spec in Hin. congruence. }
      rewrite add_to_group_keys, bool_decide_eq_false_2 by exact Hn.
      rewrite add_to_group_notin by exact Hn.
      rewrite map_app. cbn [map fst snd]. rewrite <- app_assoc. cbn [app].
      f_equal; [|f_equal].
      * apply map_ext_in. intros [k t] Hin. cbn [fst snd].
        rewrite of_category_cons_other; [reflexivity|].
        intros ->. apply Hn. apply list_elem_of_In in Hin.
        apply (list_elem_of_fmap_2 fst) in Hin. exact Hin.
      * unfold category_total, sum_in_order.
        rewrite of_category_cons_same. reflexivity.
      * rewrite filter_filter.
        rewrite (List.filter_ext
                   (fun c => negb (known (map fst groups ++ [category e]) c))
                   (fun x => negb (String.eqb (category e) x)
                             && negb (known (map fst groups) x))).
        -- apply map_ext_in. intros c Hc. apply filter_In in Hc as [_ Hc].
           apply andb_true_iff in Hc as [Hc _]. apply negb_true_iff in Hc.
           rewrite category_total_cons_other; [reflexivity|].
           intros ->. rewrite String.eqb_refl in Hc. discriminate.
        -- intros c. unfold known. rewrite existsb_app. cbn [existsb].
           rewrite orb_false_r, negb_orb, andb_comm. f_equal. f_equal.
           apply String.eqb_sym.
Qed.

(** What the storage returns for a list of matching rows: one row for
    each category, in the order of first occurrence, with the sum of the
    amounts of the category taken in row order. *)
Lemma group_sum_spec l :
  group_sum l
  = map (fun c => (c, category_total c l)) (first_occurrences (map category l)).
Proof.
  rewrite group_sum_fold, fold_group_step by constructor.
  cbn [map app]. f_equal.
  rewrite <- (filter_true (first_occurrences (map category l))) at 2.
  apply List.filter_ext. reflexivity.
Qed.


Lemma group_sum_NoDup l : NoDup (map fst (group_sum l)).
Proof.
  rewrite group_sum_fold.
  assert (H : forall groups, NoDup (map fst groups) ->
                             NoDup (map fst (fold_left group_step l groups))).
  { induction l as [|e l IH]; intros groups Hg; [exact Hg|].
    cbn. apply IH, add_to_group_NoDup, Hg. }
  apply H. constructor.
Qed.

Lemma first_occurrences_subset l c : c ∈ first_occurrences l -> c ∈ l.
Proof.
  induction l as [|a l IH]; [trivial|]. cbn. intros H.
  apply elem_of_cons in H as [-> | H]; [left|].
  right. apply IH. apply list_elem_of_In in H. apply filter_In in H as [H _].
  apply list_elem_of_In. exact H.
Qed.

(** Every category that the storage returns is a category of a row. *)
Lemma group_sum_categories l row :
  row ∈ group_sum l -> exists e, e ∈ l /\ category e = fst row.
Proof.
  rewrite group_sum_spec. intros H.
  apply list_elem_of_fmap in H as (c & -> & Hc).
  apply first_occurrences_subset in Hc.
  apply list_elem_of_fmap in Hc as (e & -> & He). exists e. split; [exact He | reflexivity].
Qed.

Lemma total_amount_group_sum l :
  sum_in_order (map snd (group_sum l)) = total_amount l.
Proof. rewrite group_sum_spec, map_map. reflexivity. Qed.

End AggregationFacts.
(** ** Aggregation engine *)

Section AggregationEngine.
Import JsObject ObjectFacts AggregationFacts.

(** C10, as the two loops have it.  On grouped rows with distinct
    categories, none of which is [__proto__] or an array index, the daily
    aggregation, which accumulates the total inside its row loop, and the
    monthly aggregation, which reduces over the values of the
    per-category map after the loop, give the same total and the same map,
    and in each the total is the sum, in the order of the enumeration, of
    the values of its per-category map. *)
Theorem daily_and_monthly_aggregation_agree (rows : list (string * number)) :
  NoDup (map fst rows) ->
  (forall row, row ∈ rows -> ordinary_key (fst row) = true) ->
  sumForDate_rows JsNumber.add JsNumber.zero rows
  = sumForMonth_rows JsNumber.add JsNumber.zero rows
  /\ fst (sumForDate_rows JsNumber.add JsNumber.zero rows)
     = sum_in_order
         (values (snd (sumForDate_rows JsNumber.add JsNumber.zero rows)))
  /\ fst (sumForMonth_rows JsNumber.add JsNumber.zero rows)
     = sum_in_order
         (values (snd (sumForMonth_rows JsNumber.add JsNumber.zero rows))).
Proof.
  intros Hnd Hord.
  destruct (rows_agree_any_addition JsNumber.add JsNumber.zero rows Hnd Hord)
    as (E & E1 & Ev).
  split; [exact E|]. rewrite <- E, E1. cbn [fst snd]. rewrite Ev.
  split; reflexivity.
Qed.

Lemma daily_and_monthly_aggregation_agree_witness :
  let rows := [("Meals"%string, JsNumber.Number "12.50");
               ("Drinks"%string, JsNumber.Number "3")] in
  NoDup (map fst rows)
  /\ (forall row, row ∈ rows -> ordinary_key (fst row) = true)
  /\ sumForDate_rows JsNumber.add JsNumber.zero rows
     = sumForMonth_rows JsNumber.add JsNumber.zero rows.
Proof.
  intros rows.
  assert (H : NoDup (map fst rows)).
  { cbn. apply NoDup_cons. split.
    - intros Hin. apply list_elem_of_singleton in Hin. discriminate.
    - apply NoDup_singleton. }
  assert (H' : forall row, row ∈ rows -> ordinary_key (fst row) = true).
  { intros row Hrow. subst rows.
    apply elem_of_cons in Hrow as [-> | Hrow]; [reflexivity|].
    apply list_elem_of_singleton in Hrow. subst row. reflexivity. }
  split; [exact H|]. split; [exact H'|].
  apply (daily_and_monthly_aggregation_agree rows H H').
Defined.

(** C10, as stated, fails on a row whose category is [__proto__]: the
    categories are distinct, the assignment [byCategory["__proto__"] = 5]
    creates no property, and so the daily aggregation returns the total 5
    with an empty map, which is not the sum of the values of the map,
    while the monthly aggregation returns the total 0. *)
Lemma aggregations_differ_on_proto_key :
  let rows := [("__proto__"%string, JsNumber.of_Z 5)] in
  NoDup (map fst rows)
  /\ sumForDate_rows JsNumber.add JsNumber.zero rows = (JsNumber.of_Z 5, [])
  /\ sumForMonth_rows JsNumber.add JsNumber.zero rows = (JsNumber.zero, [])
  /\ sumForDate_rows JsNumber.add JsNumber.zero rows
     <> sumForMonth_rows JsNumber.add JsNumber.zero rows
  /\ fst (sumForDate_rows JsNumber.add JsNumber.zero rows)
     <> sum_in_order
          (values (snd (sumForDate_rows JsNumber.add JsNumber.zero rows))).
Proof.
  intros rows. split; [apply NoDup_singleton|].
  split; [reflexivity|]. split; [reflexivity|].
  split; vm_compute; discriminate.
Qed.

(** It fails as well on categories that are array indices, through the
    rounding of the additions: the values of the map are enumerated in
    the order 8, 9, 10, and [(5 + 5) + 1e17] is not [(1e17 + 5) + 5]. *)
Example aggregations_differ_on_index_keys :
  let rows := [("10"%string, JsNumber.Number "1e17");
               ("8"%string, JsNumber.Number "5");
               ("9"%string, JsNumber.Number "5")] in
  NoDup (map fst rows)
  /\ snd (sumForDate_rows JsNumber.add JsNumber.zero rows)
     = snd (sumForMonth_rows JsNumber.add JsNumber.zero rows)
  /\ keys (snd (sumForMonth_rows JsNumber.add JsNumber.zero rows))
     = ["8"; "9"; "10"]%string
  /\ fst (sumForDate_rows JsNumber.add JsNumber.zero rows)
     = JsNumber.Number "1e17"
  /\ fst (sumForMonth_rows JsNumber.add JsNumber.zero rows)
     = JsNumber.Number "100000000000000016".
Proof.
  intros rows. split.
  - cbn. repeat (apply NoDup_cons; split;
                 [rewrite ?elem_of_cons, elem_of_nil; intuition discriminate|]).
    apply NoDup_nil_2.
  - repeat split; vm_compute; reflexivity.
Qed.

(** With duplicated categories the two loops differ: the first counts
    both rows, the second the last one only. *)
Example aggregations_differ_on_duplicates :
  let rows := [("Meals"%string, JsNumber.of_Z 1);
               ("Meals"%string, JsNumber.of_Z 2)] in
  fst (sumForDate_rows JsNumber.add JsNumber.zero rows) = JsNumber.of_Z 3
  /\ fst (sumForMonth_rows JsNumber.add JsNumber.zero rows) = JsNumber.of_Z 2.
Proof. split; vm_compute; reflexivity. Qed.

Lemma DAILY_CATEGORIES_eq : DAILY_CATEGORIES = ["Meals"; "Drinks"]%string.
Proof. reflexivity. Qed.

Lemma MONTHLY_CATEGORIES_eq :
  MONTHLY_CATEGORIES
  = ["Groceries"; "Utilities"; "Transport"; "Declan"; "Myat"]%string.
Proof. reflexivity. Qed.

Lemma OTHER_CATEGORIES_eq : OTHER_CATEGORIES = ["Other"]%string.
Proof. reflexivity. Qed.

(** The configured categories are ordinary keys. *)
Lemma configured_categories_ordinary categories c :
  categories = DAILY_CATEGORIES \/ categories = MONTHLY_CATEGORIES
  \/ categories = OTHER_CATEGORIES ->
  c ∈ categories -> ordinary_key c = true.
Proof.
  intros [-> | [-> | ->]] Hc;
    rewrite ?DAILY_CATEGORIES_eq, ?MONTHLY_CATEGORIES_eq, ?OTHER_CATEGORIES_eq in Hc;
    repeat (apply elem_of_cons in Hc as [-> | Hc]; [reflexivity|]);
    apply elem_of_nil in Hc; contradiction.
Qed.

Lemma category_in_spec categories e :
  category_in categories e = true <-> category e ∈ categories.
Proof.
  unfold category_in. rewrite existsb_exists. split.
  - intros [c [Hin Heq]]. apply String.eqb_eq in Heq. rewrite Heq.
    apply list_elem_of_In. exact Hin.
  - intros Hin. exists (category e). split.
    + apply list_elem_of_In. exact Hin.
    + apply String.eqb_refl.
Qed.

(** The rows that the storage returns have categories of the list that
    the query names. *)
Lemma select_categories (f : Expense -> bool) categories l row :
  row ∈ group_sum (List.filter (fun e => f e && category_in categories e) l) ->
  fst row ∈ categories.
Proof.
  intros H. apply group_sum_categories in H as (e & He & <-).
  apply list_elem_of_In, filter_In in He as [_ He].
  apply andb_true_iff in He as [_ He]. apply category_in_spec, He.
Qed.

(** The rows that the storage returns for either query have distinct
    categories, so the two loops agree on them when the categories asked
    for are ordinary keys, as the configured ones are. *)
Corollary aggregations_agree_on_storage d key categories :
  (forall c, c ∈ categories -> ordinary_key c = true) ->
  sumForDate_rows JsNumber.add JsNumber.zero (select_sum_by_date d key categories)
  = sumForMonth_rows JsNumber.add JsNumber.zero (select_sum_by_date d key categories)
  /\ sumForDate_rows JsNumber.add JsNumber.zero
       (select_sum_by_month d key categories)
     = sumForMonth_rows JsNumber.add JsNumber.zero
         (select_sum_by_month d key categories).
Proof.
  intros Hord.
  split; apply rows_agree_any_addition;
    try apply group_sum_NoDup;
    intros row Hrow; apply Hord; exact (select_categories _ _ _ _ Hrow).
Qed.

Lemma filter_no_category (f : Expense -> bool) (l : list Expense) :
  List.filter (fun e => f e && category_in [] e) l = [].
Proof.
  induction l as [|e l IH]; [reflexivity|].
  cbn. rewrite andb_false_r. exact IH.
Qed.

(** What [sumForDate] returns: the total of the matching rows and their
    totals by category, after one query when there is a category to ask
    for. *)
Lemma sumForDate_run sgDate categories w :
  (forall c, c ∈ categories -> ordinary_key c = true) ->
  sumForDate sgDate categories w
  = ((total_amount (on_date sgDate categories (db w)),
      group_sum (on_date sgDate categories (db w))),
     if JsNumber.is_nil categories then w
     else logged (SelectSumByDate sgDate categories) w).
Proof.
  intros Hord. destruct categories as [|c cs].
  - unfold on_date. rewrite filter_no_category. reflexivity.
  - unfold sumForDate, mbind, M_bind, storage. cbn [JsNumber.is_nil mret M_ret].
    change (select_sum_by_date (db w) sgDate (c :: cs))
      with (group_sum (on_date sgDate (c :: cs) (db w))).
    destruct (rows_agree_any_addition JsNumber.add JsNumber.zero
                (group_sum (on_date sgDate (c :: cs) (db w))))
      as (_ & E & _).
    + apply group_sum_NoDup.
    + intros row Hrow. apply Hord. exact (select_categories _ _ _ _ Hrow).
    + rewrite E. fold (sum_in_order (map snd (group_sum (on_date sgDate (c :: cs) (db w))))).
      rewrite total_amount_group_sum. reflexivity.
Qed.


Lemma DAILY_CATEGORIES_ordinary c : c ∈ DAILY_CATEGORIES -> ordinary_key c = true.
Proof. apply configured_categories_ordinary. tauto. Qed.




Lemma dailySummaryFor_run sgDate w :
  dailySummaryFor sgDate w
  = ({| ds_date := sgDate; ds_timezone := SG_TIMEZONE;
        budget_daily := dailyBudgetForSgDateString sgDate;
        spent_daily := total_amount (on_date sgDate DAILY_CATEGORIES (db w));
        remaining_daily :=
          JsNumber.sub (dailyBudgetForSgDateString sgDate)
                       (total_amount (on_date sgDate DAILY_CATEGORIES (db w)));
        by_category := group_sum (on_date sgDate DAILY_CATEGORIES (db w)) |},
     logged (SelectSumByDate sgDate DAILY_CATEGORIES) w).
Proof.
  unfold dailySummaryFor, mbind, M_bind.
  rewrite sumForDate_run by apply DAILY_CATEGORIES_ordinary. reflexivity.
Qed.


Lemma on_date_insert now userId C A sgDate categories w :
  on_date sgDate categories (db (exec (insertExpense now userId C A) w))
  = on_date sgDate categories (db w)
    ++ (if String.eqb (tsSgDate now) sgDate && bool_decide (C ∈ categories)
        then [expense_row now userId C A]
        else []).
Proof.
  unfold on_date, exec, insertExpense, storage. cbn [snd db expenses].
  rewrite List.filter_app. f_equal. cbn [List.filter ts_sg_date].
  destruct (String.eqb (tsSgDate now) sgDate); cbn [andb]; [|reflexivity].
  destruct (category_in categories _) eqn:E.
  - apply category_in_spec in E. cbn [category] in E.
    rewrite bool_decide_eq_true_2 by exact E. reflexivity.
  - case_bool_decide as Hin; [|reflexivity].
    exfalso. apply Bool.not_true_iff_false in E. apply E.
    apply category_in_spec. exact Hin.
Qed.




(** The same with small amounts: after 0.1, an expense of 0.2 raises
    [spent] to 0.30000000000000004, which is more than 0.1 + 0.2. *)
Example spent_after_0_1_and_0_2 :
  let now := {| tsUtc := "2025-03-15T04:00:00.000Z"; tsSgDate := "2025-03-15";
                tsSgMonth := "2025-03"; year := 2025; month := 3 |} in
  let w0 := {| db := empty_db; calls := []; outbox := [] |} in
  let w := exec (insertExpense now 7 "Meals" (JsNumber.Number "0.1")) w0 in
  let w' := exec (insertExpense now 7 "Meals" (JsNumber.Number "0.2")) w in
  let s := eval (dailySummaryFor "2025-03-15") w in
  let s' := eval (dailySummaryFor "2025-03-15") w' in
  spent_daily s = JsNumber.Number "0.1"
  /\ spent_daily s' = JsNumber.Number "0.30000000000000004"
  /\ (exists q a q',
        JsNumber.to_Q (spent_daily s) = Some q
        /\ JsNumber.to_Q (JsNumber.Number "0.2") = Some a
        /\ JsNumber.to_Q (spent_daily s') = Some q'
        /\ (q + a < q')%Q)
  /\ remaining_daily s = JsNumber.Number "79.9"
  /\ remaining_daily s' = JsNumber.Number "79.7".
Proof.
  intros now w0 w w' s s'.
  split; [vm_compute; reflexivity|]. split; [vm_compute; reflexivity|].
  split; [|split; vm_compute; reflexivity].
  eexists _, _, _. split; [vm_compute; reflexivity|].
  split; [vm_compute; reflexivity|]. split; [vm_compute; reflexivity|].
  vm_compute. reflexivity.
Qed.

(** The first expense of a date in a daily category: [spent] is 0 before
    and the amount itself after, when the amount is not a zero. *)
Lemma first_expense_of_the_date now userId C sign m e w :
  C ∈ DAILY_CATEGORIES ->
  on_date (tsSgDate now) DAILY_CATEGORIES (db w) = [] ->
  let A := S754_finite sign m e in
  spent_daily (eval (dailySummaryFor (tsSgDate now)) w) = JsNumber.zero
  /\ spent_daily (eval (dailySummaryFor (tsSgDate now))
                       (exec (insertExpense now userId C A) w)) = A.
Proof.
  intros HC Hnone A. unfold eval. rewrite !dailySummaryFor_run.
  cbn [fst spent_daily].
  rewrite on_date_insert, String.eqb_refl, (bool_decide_eq_true_2 _ HC), Hnone.
  split; [reflexivity|]. cbn [andb app].
  unfold total_amount, category_total, of_category.
  cbn [map first_occurrences List.filter category expense_row amount].
  rewrite String.eqb_refl. reflexivity.
Qed.







(** The end-to-end example of the specification: March 2025 has 21 week
    days and 10 weekend days, so the daily bucket is 1850 and, with the
    fixed budgets of the worker (968 in total), the tracked budget is
    2818. *)
Example monthly_budget_2025_03 :
  JsNumber.add (monthlyDailyBucketBudget 2025 3) fixedBudgetTotal
  = JsNumber.of_Z 2818.
Proof. vm_compute. reflexivity. Qed.

End AggregationEngine.
(** ** Conversation state machine *)

Section Conversation.

Lemma read_only_ret {A} (x : A) : read_only (mret x).
Proof. intros w. reflexivity. Qed.

Lemma read_only_bind {A B} (m : M A) (f : A -> M B) :
  read_only m -> (forall a, read_only (f a)) -> read_only (m ≫= f).
Proof.
  intros Hm Hf w. pose proof (Hm w) as H1.
  unfold exec in H1 |- *. unfold mbind, M_bind.
  destruct (m w) as [a w1]. cbn [snd] in H1. rewrite <- H1.
  apply (Hf a w1).
Qed.

Lemma read_only_sendMessage chatId text markup :
  read_only (sendMessage chatId text markup).
Proof. intros w. reflexivity. Qed.

Lemma read_only_sumForDate sgDate categories :
  read_only (sumForDate sgDate categories).
Proof. intros w. destruct categories; reflexivity. Qed.

Lemma read_only_sumForMonth sgMonth categories :
  read_only (sumForMonth sgMonth categories).
Proof. intros w. destruct categories; reflexivity. Qed.

Lemma read_only_monthlySummaryFor y m : read_only (monthlySummaryFor y m).
Proof.
  unfold monthlySummaryFor.
  apply read_only_bind; [apply read_only_sumForMonth | intros [a1 b1]].
  apply read_only_bind; [apply read_only_sumForMonth | intros [a2 b2]].
  apply read_only_bind; [apply read_only_sumForMonth | intros [a3 b3]].
  destruct (countWeekdaysWeekends y m). apply read_only_ret.
Qed.

Lemma read_only_dailySummaryFor sgDate : read_only (dailySummaryFor sgDate).
Proof.
  unfold dailySummaryFor.
  apply read_only_bind; [apply read_only_sumForDate | intros [a b]].
  apply read_only_ret.
Qed.

Lemma read_only_handleStart chatId : read_only (handleStart chatId).
Proof. apply read_only_sendMessage. Qed.

Lemma read_only_handleToday now chatId : read_only (handleToday now chatId).
Proof.
  unfold handleToday.
  apply read_only_bind; [apply read_only_sumForDate | intros [a b]].
  apply read_only_sendMessage.
Qed.

Lemma read_only_handleMonth now chatId : read_only (handleMonth now chatId).
Proof.
  unfold handleMonth, sendMonthSummary.
  apply read_only_bind; [apply read_only_monthlySummaryFor | intros s].
  apply read_only_sendMessage.
Qed.

(** The HTTP endpoints only read. *)
Lemma read_only_apiDailySummary now dateStr :
  read_only (apiDailySummary now dateStr).
Proof.
  unfold apiDailySummary. destruct (resolve_date now dateStr).
  - apply read_only_ret.
  - apply read_only_bind; [apply read_only_dailySummaryFor | intros d].
    apply read_only_ret.
Qed.

Lemma read_only_apiMonthlySummary now yr mo :
  read_only (apiMonthlySummary now yr mo).
Proof.
  unfold apiMonthlySummary. destruct (invalid_month _).
  - apply read_only_ret.
  - apply read_only_bind; [apply read_only_monthlySummaryFor | intros d].
    apply read_only_ret.
Qed.

(** The tables after a command, from the tables after the reset. *)
Lemma dispatchCommand_db now chatId userId txt w :
  db (exec (dispatchCommand now chatId userId txt) w)
  = if bool_decide (JsString.first_word txt = "/add"%string)
    then {| expenses := expenses (db w);
            user_state :=
              <[userId := {| step := "choose_category";
                             pending_category := None |}]> (user_state (db w)) |}
    else db w.
Proof.
  unfold dispatchCommand.
  destruct (bool_decide (JsString.first_word txt = "/start"%string)) eqn:E1.
  - apply bool_decide_eq_true_1 in E1. rewrite E1.
    rewrite bool_decide_eq_false_2 by discriminate.
    apply read_only_handleStart.
  - destruct (bool_decide (JsString.first_word txt = "/add"%string)) eqn:E2.
    + reflexivity.
    + destruct (bool_decide (JsString.first_word txt = "/today"%string)).
      * apply read_only_handleToday.
      * destruct (bool_decide (JsString.first_word txt = "/month"%string)).
        -- apply read_only_handleMonth.
        -- reflexivity.
Qed.

(** The tables after a free text, by the row of the user. *)
Lemma converse_db now chatId userId txt w :
  db (exec (converse now chatId userId txt) w)
  = match conversation_state (user_state (db w) !! userId) with
    | Idle => db w
    | ChoosingCategory =>
        if JsObject.has_property CATEGORIES txt
        then {| expenses := expenses (db w);
                user_state :=
                  <[userId := {| step := "await_amount";
                                 pending_category := Some txt |}]>
                    (user_state (db w)) |}
        else db w
    | AwaitingAmount cat =>
        if JsNumber.isFinite (JsNumber.Number txt)
        then {| expenses :=
                  expenses (db w)
                  ++ [expense_row now userId cat (JsNumber.Number txt)];
                user_state := delete userId (user_state (db w)) |}
        else db w
    end.
Proof.
  unfold converse, exec, mbind, M_bind, getUserState, storage.
  destruct (user_state (db w) !! userId) as [[stp cat]|] eqn:Hrow;
    cbn [conversation_state fmap option_fmap option_map step].
  - destruct (bool_decide (stp = "choose_category"%string)) eqn:Es.
    + apply bool_decide_eq_true_1 in Es. subst stp.
      rewrite bool_decide_eq_true_2 by reflexivity.
      destruct (JsObject.has_property CATEGORIES txt); [|destruct w as [[]]; reflexivity].
      reflexivity.
    + rewrite bool_decide_eq_false_2
        by (intros [= ->]; apply bool_decide_eq_false_1 in Es; congruence).
      destruct cat as [c|]; [|destruct w as [[]]; reflexivity].
      destruct (bool_decide (stp = "await_amount"%string)
                && negb (bool_decide (c = ""%string)));
        [|destruct w as [[]]; reflexivity].
      destruct (JsNumber.isFinite (JsNumber.Number txt));
        destruct w as [[]]; reflexivity.
  - rewrite bool_decide_eq_false_2 by discriminate.
    destruct w as [[]]; reflexivity.
Qed.

Lemma handleTelegramUpdate_db env now update w :
  db (exec (handleTelegramUpdate env now update) w)
  = match accepted env update with
    | None => db w
    | Some (userId, chatId, txt) =>
        if JsString.startsWith "/" txt
        then db (exec (dispatchCommand now chatId userId txt)
                      (exec (clearUserState userId) w))
        else db (exec (converse now chatId userId txt) w)
    end.
Proof.
  unfold handleTelegramUpdate.
  destruct (accepted env update) as [[[userId chatId] txt]|]; [|reflexivity].
  destruct (JsString.startsWith "/" txt); reflexivity.
Qed.

Lemma row_invariant_choose_category :
  row_invariant {| step := "choose_category"; pending_category := None |}.
Proof.
  unfold row_invariant. cbn. split; [intros [x Hx]; discriminate | discriminate].
Qed.

Lemma row_invariant_await_amount cat :
  row_invariant {| step := "await_amount"; pending_category := Some cat |}.
Proof. unfold row_invariant. cbn. split; [reflexivity | eauto]. Qed.

Lemma db_invariant_insert d userId row ex :
  db_invariant d -> row_invariant row ->
  db_invariant {| expenses := ex;
                  user_state := <[userId := row]> (user_state d) |}.
Proof.
  intros Hd Hr u r. cbn [user_state]. rewrite lookup_insert.
  case_decide; [intros [= <-]; exact Hr | apply Hd].
Qed.

Lemma db_invariant_delete d userId ex :
  db_invariant d ->
  db_invariant {| expenses := ex; user_state := delete userId (user_state d) |}.
Proof.
  intros Hd u r. cbn [user_state]. rewrite lookup_delete.
  case_decide; [discriminate | apply Hd].
Qed.

(** Each operation that writes a state row keeps the invariant: the start
    of [/add], the selection of a category, the reset by a command and the
    reset after a record. *)
Lemma handleTelegramUpdate_preserves_invariant env now update w :
  db_invariant (db w) ->
  db_invariant (db (exec (handleTelegramUpdate env now update) w)).
Proof.
  intros Hinv. rewrite handleTelegramUpdate_db.
  destruct (accepted env update) as [[[userId chatId] txt]|]; [|exact Hinv].
  destruct (JsString.startsWith "/" txt).
  - rewrite dispatchCommand_db.
    assert (Hc : db_invariant (db (exec (clearUserState userId) w)))
      by (apply db_invariant_delete, Hinv).
    destruct (bool_decide _); [|exact Hc].
    apply db_invariant_insert; [exact Hc | apply row_invariant_choose_category].
  - rewrite converse_db.
    destruct (conversation_state _) as [| |cat]; [exact Hinv | |].
    + destruct (JsObject.has_property CATEGORIES txt); [|exact Hinv].
      apply db_invariant_insert; [exact Hinv | apply row_invariant_await_amount].
    + destruct (JsNumber.isFinite (JsNumber.Number txt)); [|exact Hinv].
      apply db_invariant_delete, Hinv.
Qed.

(** C5.  In every reachable row of the conversation state,
    [pendingCategory] is present (not null) if and only if the step is
    awaiting the amount; the operations that write a state row keep it so
    ([handleTelegramUpdate_preserves_invariant]). *)
Theorem pending_category_iff_awaiting_amount w userId row :
  reachable w ->
  user_state (db w) !! userId = Some row ->
  (is_Some (pending_category row) <-> step row = "await_amount"%string).
Proof.
  intros Hr. revert userId row.
  change (db_invariant (db w)).
  induction Hr as [|env now update w _ IH|now dateStr w _ IH|now yr mo w _ IH].
  - intros u r. cbn. rewrite lookup_empty. discriminate.
  - apply handleTelegramUpdate_preserves_invariant, IH.
  - rewrite read_only_apiDailySummary. exact IH.
  - rewrite read_only_apiMonthlySummary. exact IH.
Qed.

Lemma pending_category_iff_awaiting_amount_witness :
  let env := {| ALLOWED_USER_IDS := "7, 8" |} in
  let now := {| tsUtc := "2025-03-15T04:00:00.000Z"; tsSgDate := "2025-03-15";
                tsSgMonth := "2025-03"; year := 2025; month := 3 |} in
  let said t := {| message := Some {| from_id := Some 7; chat_id := Some 70;
                                      text := Some t |};
                   edited_message := None |} in
  let w := exec (handleTelegramUpdate env now (said "Meals"))
             (exec (handleTelegramUpdate env now (said "/add"))
                {| db := empty_db; calls := []; outbox := [] |}) in
  let row := {| step := "await_amount"; pending_category := Some "Meals"%string |} in
  reachable w
  /\ user_state (db w) !! 7 = Some row
  /\ (is_Some (pending_category row) <-> step row = "await_amount"%string).
Proof.
  intros env now said w row.
  assert (H1 : reachable w) by (repeat apply reachable_update; apply reachable_initial).
  assert (H2 : user_state (db w) !! 7 = Some row) by (vm_compute; reflexivity).
  split; [exact H1|]. split; [exact H2|].
  exact (pending_category_iff_awaiting_amount w 7 row H1 H2).
Defined.

Lemma clearUserState_with_user_state userId row w :
  exec (clearUserState userId) (with_user_state userId row w)
  = exec (clearUserState userId) w.
Proof.
  unfold exec, clearUserState, storage, with_user_state. cbn.
  rewrite delete_insert_eq. reflexivity.
Qed.

(** C9.  For every handled message whose text is a slash-command and every
    prior conversation state of the user, the state is reset to idle
    before the command is dispatched, so that what the command does and
    answers does not depend on an entry in progress: it is the same
    whatever row the user had. *)
Theorem command_resets_state_first env now update userId chatId txt w :
  accepted env update = Some (userId, chatId, txt) ->
  JsString.startsWith "/" txt = true ->
  handleTelegramUpdate env now update w
  = dispatchCommand now chatId userId txt (exec (clearUserState userId) w)
  /\ calls (exec (clearUserState userId) w) = calls w ++ [DeleteUserState userId]
  /\ conversation_state
       (user_state (db (exec (clearUserState userId) w)) !! userId) = Idle
  /\ forall row,
       handleTelegramUpdate env now update (with_user_state userId row w)
       = handleTelegramUpdate env now update w.
Proof.
  intros Ha Hs.
  assert (E : forall w', handleTelegramUpdate env now update w'
                         = dispatchCommand now chatId userId txt
                             (exec (clearUserState userId) w')).
  { intros w'. unfold handleTelegramUpdate. rewrite Ha, Hs. reflexivity. }
  split; [apply E|]. split; [reflexivity|]. split.
  - unfold exec, clearUserState, storage. cbn. rewrite lookup_delete_eq. reflexivity.
  - intros row. rewrite !E, clearUserState_with_user_state. reflexivity.
Qed.

Lemma command_resets_state_first_witness :
  let env := {| ALLOWED_USER_IDS := "7, 8" |} in
  let now := {| tsUtc := "2025-03-15T04:00:00.000Z"; tsSgDate := "2025-03-15";
                tsSgMonth := "2025-03"; year := 2025; month := 3 |} in
  let update := {| message := Some {| from_id := Some 7; chat_id := Some 70;
                                      text := Some " /today"%string |};
                   edited_message := None |} in
  let w := with_user_state 7 {| step := "await_amount";
                                pending_category := Some "Meals"%string |}
             {| db := empty_db; calls := []; outbox := [] |} in
  accepted env update = Some (7, 70, "/today"%string)
  /\ JsString.startsWith "/" "/today" = true
  /\ conversation_state
       (user_state (db (exec (clearUserState 7) w)) !! 7) = Idle.
Proof.
  intros env now update w.
  assert (H1 : accepted env update = Some (7, 70, "/today"%string))
    by (vm_compute; reflexivity).
  assert (H2 : JsString.startsWith "/" "/today" = true) by reflexivity.
  split; [exact H1|]. split; [exact H2|].
  apply (command_resets_state_first env now update 7 70 "/today" w H1 H2).
Defined.

(** The property names that [CATEGORIES] has of its own. *)
Lemma hasOwn_CATEGORIES txt :
  JsObject.hasOwn CATEGORIES txt = true
  <-> txt ∈ ["Meals"; "Drinks"; "Groceries"; "Utilities"; "Transport";
             "Declan"; "Myat"; "Other"]%string.
Proof.
  unfold JsObject.hasOwn.
  change CATEGORIES with
    [("Meals", daily); ("Drinks", daily); ("Groceries", monthly);
     ("Utilities", monthly); ("Transport", monthly); ("Declan", monthly);
     ("Myat", monthly); ("Other", other)]%string.
  cbn [JsObject.get].
  repeat (rewrite elem_of_cons).
  repeat match goal with
         | |- context [String.eqb ?a txt] =>
             destruct (String.eqb_spec a txt) as [<- | ?]
         end;
    split; intros H; try reflexivity; try discriminate; try tauto.
  repeat (destruct H as [H | H]; [congruence|]).
  apply elem_of_nil in H. contradiction.
Qed.

(** While the user is choosing a category: a text that is the name of a
    configured category, exactly, moves to awaiting the amount with that
    category pending; a text that is neither such a name nor the name of
    a property that plain objects inherit changes nothing. *)
Lemma category_selection env now update userId chatId txt w :
  accepted env update = Some (userId, chatId, txt) ->
  JsString.startsWith "/" txt = false ->
  conversation_state (user_state (db w) !! userId) = ChoosingCategory ->
  let w' := exec (handleTelegramUpdate env now update) w in
  (JsObject.hasOwn CATEGORIES txt = true ->
     conversation_state (user_state (db w') !! userId) = AwaitingAmount txt
     /\ expenses (db w') = expenses (db w))
  /\ (JsObject.hasOwn CATEGORIES txt = false ->
      txt ∉ JsObject.prototype_names ->
      db w' = db w).
Proof.
  intros Ha Hs Hc w'. subst w'.
  rewrite handleTelegramUpdate_db, Ha, Hs, converse_db, Hc.
  unfold JsObject.has_property. split.
  - intros Hown. rewrite Hown. cbn [orb db user_state expenses].
    rewrite lookup_insert_eq. split; [|reflexivity].
    assert (Hne : txt <> ""%string).
    { intros ->. apply hasOwn_CATEGORIES in Hown.
      repeat (apply elem_of_cons in Hown as [Hown | Hown]; [discriminate|]).
      apply elem_of_nil in Hown. contradiction. }
    cbn [conversation_state].
    rewrite bool_decide_eq_false_2 by discriminate.
    rewrite bool_decide_eq_true_2 by reflexivity.
    rewrite (bool_decide_eq_false_2 _ Hne). reflexivity.
  - intros Hown Hproto. rewrite Hown.
    rewrite (bool_decide_eq_false_2 _ Hproto). reflexivity.
Qed.

(** C1, at the text [constructor]: the user is choosing a category, the
    text is not the name of a configured category, and yet the state moves
    to awaiting the amount with that text as the pending category.  The
    test [text in CATEGORIES] also finds what the object inherits. *)
Theorem inherited_property_name_selects_category :
  let env := {| ALLOWED_USER_IDS := "7, 8" |} in
  let now := {| tsUtc := "2025-03-15T04:00:00.000Z"; tsSgDate := "2025-03-15";
                tsSgMonth := "2025-03"; year := 2025; month := 3 |} in
  let said t := {| message := Some {| from_id := Some 7; chat_id := Some 70;
                                      text := Some t |};
                   edited_message := None |} in
  let w := exec (handleTelegramUpdate env now (said "/add"))
             {| db := empty_db; calls := []; outbox := [] |} in
  let w' := exec (handleTelegramUpdate env now (said "constructor")) w in
  JsObject.hasOwn CATEGORIES "constructor" = false
  /\ conversation_state (user_state (db w) !! 7) = ChoosingCategory
  /\ conversation_state (user_state (db w') !! 7) = AwaitingAmount "constructor"
  /\ outbox w' = outbox w ++ [mkSentMessage 70 (YouChose "constructor") None].
Proof. vm_compute. repeat split; reflexivity. Qed.

(** While the bot awaits the amount: a text that [Number] converts to a
    finite number records one expense of that amount in the pending
    category and resets the state; any other text changes nothing. *)
Lemma amount_entry env now update userId chatId txt cat w :
  accepted env update = Some (userId, chatId, txt) ->
  JsString.startsWith "/" txt = false ->
  conversation_state (user_state (db w) !! userId) = AwaitingAmount cat ->
  let w' := exec (handleTelegramUpdate env now update) w in
  if JsNumber.isFinite (JsNumber.Number txt)
  then expenses (db w')
       = expenses (db w) ++ [expense_row now userId cat (JsNumber.Number txt)]
       /\ conversation_state (user_state (db w') !! userId) = Idle
  else db w' = db w.
Proof.
  intros Ha Hs Hc w'. subst w'.
  rewrite handleTelegramUpdate_db, Ha, Hs, converse_db, Hc.
  destruct (JsNumber.isFinite (JsNumber.Number txt)); [|reflexivity].
  cbn [db expenses user_state]. rewrite lookup_delete_eq. split; reflexivity.
Qed.

(** The examples of the specification. *)
Example amount_entry_abc_and_12_50 :
  let env := {| ALLOWED_USER_IDS := "7, 8" |} in
  let now := {| tsUtc := "2025-03-15T04:00:00.000Z"; tsSgDate := "2025-03-15";
                tsSgMonth := "2025-03"; year := 2025; month := 3 |} in
  let said t := {| message := Some {| from_id := Some 7; chat_id := Some 70;
                                      text := Some t |};
                   edited_message := None |} in
  let w0 := {| db := empty_db; calls := []; outbox := [] |} in
  let w1 := exec (handleTelegramUpdate env now (said "/add")) w0 in
  let w2 := exec (handleTelegramUpdate env now (said "meals")) w1 in
  let w3 := exec (handleTelegramUpdate env now (said "Meals")) w2 in
  let w4 := exec (handleTelegramUpdate env now (said "abc")) w3 in
  let w5 := exec (handleTelegramUpdate env now (said "12.50")) w4 in
  conversation_state (user_state (db w1) !! 7) = ChoosingCategory
  /\ db w2 = db w1
  /\ conversation_state (user_state (db w3) !! 7) = AwaitingAmount "Meals"
  /\ db w4 = db w3
  /\ map (fun e => (category e, amount e)) (expenses (db w5))
     = [("Meals"%string, JsNumber.Number "12.50")]
  /\ JsNumber.to_Q (JsNumber.Number "12.50") = Some (25 # 2)%Q
  /\ conversation_state (user_state (db w5) !! 7) = Idle.
Proof.
  vm_compute. repeat split; reflexivity.
Qed.

(** C3, at a message without text (a photo, a sticker): the bot awaits an
    amount, the input is not a number, and yet an expense of amount 0 is
    written in the pending category and the state is reset.  [Number]
    converts the empty text to 0. *)
Theorem message_without_text_is_recorded :
  let env := {| ALLOWED_USER_IDS := "7, 8" |} in
  let now := {| tsUtc := "2025-03-15T04:00:00.000Z"; tsSgDate := "2025-03-15";
                tsSgMonth := "2025-03"; year := 2025; month := 3 |} in
  let sent t := {| message := Some {| from_id := Some 7; chat_id := Some 70;
                                      text := t |};
                   edited_message := None |} in
  let w0 := {| db := empty_db; calls := []; outbox := [] |} in
  let w1 := exec (handleTelegramUpdate env now (sent (Some "/add"%string))) w0 in
  let w2 := exec (handleTelegramUpdate env now (sent (Some "Meals"%string))) w1 in
  let w3 := exec (handleTelegramUpdate env now (sent None)) w2 in
  conversation_state (user_state (db w2) !! 7) = AwaitingAmount "Meals"
  /\ expenses (db w2) = []
  /\ map (fun e => (category e, amount e)) (expenses (db w3))
     = [("Meals"%string, JsNumber.zero)]
  /\ conversation_state (user_state (db w3) !! 7) = Idle
  /\ outbox w3
     = outbox w2 ++ [mkSentMessage 70 (Recorded JsNumber.zero "Meals") None].
Proof. vm_compute. repeat split; reflexivity. Qed.

End Conversation.

(** ** Explicit dates *)

Section ExplicitDates.
Import CalendarSpec.

(** The pattern test accepts the strings of the strict form, and no
    others. *)
Lemma matches_date_pattern_spec s :
  matches_date_pattern s = true <-> date_shaped s.
Proof.
  unfold matches_date_pattern, date_shaped. split.
  - intros H.
    destruct (list_ascii_of_string s)
      as [|y1 [|y2 [|y3 [|y4 [|h1 [|m1 [|m2 [|h2 [|d1 [|d2 [|x l]]]]]]]]]]] eqn:E;
      try discriminate.
    apply andb_true_iff in H as [H H2]. apply andb_true_iff in H as [H H1].
    apply Ascii.eqb_eq in H1, H2. subst h1 h2.
    exists y1, y2, y3, y4, m1, m2, d1, d2. split; [exact H|].
    rewrite <- E. symmetry. apply string_of_list_ascii_of_string.
  - intros (y1 & y2 & y3 & y4 & m1 & m2 & d1 & d2 & H & ->).
    rewrite list_ascii_of_string_of_list_ascii.
    rewrite H. reflexivity.
Qed.

(** C2, as the worker has it.  For every non-empty explicit date string
    (an empty one counts as absent), the daily summary is refused, with
    status 400 and the invalid-date message and without any call on the
    storage, exactly when the string is not of the form of four digits, a
    hyphen, two digits, a hyphen and two digits; a string of that form is
    accepted as it is and the storage is queried for it. *)
Theorem explicit_date_refused_iff_not_date_shaped now s w :
  s <> ""%string ->
  (~ date_shaped s ->
     apiDailySummary now (Some s) w
     = (jsonResponse (ErrorBody "Invalid date format, use YYYY-MM-DD") 400, w)
     /\ getDailySummaryData now (Some s) w
        = (inl "Invalid date format, use YYYY-MM-DD"%string, w))
  /\ (date_shaped s ->
      exists d,
        ds_date d = s
        /\ apiDailySummary now (Some s) w
           = (jsonResponse (DailyBody d) 200,
              logged (SelectSumByDate s DAILY_CATEGORIES) w)
        /\ getDailySummaryData now (Some s) w
           = (inr d, logged (SelectSumByDate s DAILY_CATEGORIES) w)).
Proof.
  intros Hne.
  unfold apiDailySummary, getDailySummaryData, resolve_date.
  rewrite (bool_decide_eq_false_2 _ Hne). unfold normalizeSgDateString.
  split.
  - intros Hnot.
    destruct (matches_date_pattern s) eqn:E.
    + exfalso. apply Hnot, matches_date_pattern_spec, E.
    + split; reflexivity.
  - intros Hshape. apply matches_date_pattern_spec in Hshape.
    rewrite Hshape. cbn [negb].
    unfold mbind, M_bind. rewrite dailySummaryFor_run. cbn [mret M_ret].
    eexists. split; [|split; reflexivity]. reflexivity.
Qed.

Lemma explicit_date_refused_iff_not_date_shaped_witness :
  let now := {| tsUtc := "2025-03-15T04:00:00.000Z"; tsSgDate := "2025-03-15";
                tsSgMonth := "2025-03"; year := 2025; month := 3 |} in
  let w := {| db := empty_db; calls := []; outbox := [] |} in
  "15/03/2025"%string <> ""%string
  /\ (~ date_shaped "15/03/2025" ->
      apiDailySummary now (Some "15/03/2025"%string) w
      = (jsonResponse (ErrorBody "Invalid date format, use YYYY-MM-DD") 400, w)
      /\ getDailySummaryData now (Some "15/03/2025"%string) w
         = (inl "Invalid date format, use YYYY-MM-DD"%string, w)).
Proof.
  intros now w.
  assert (H : "15/03/2025"%string <> ""%string) by discriminate.
  split; [exact H|].
  apply (explicit_date_refused_iff_not_date_shaped now "15/03/2025" w H).
Defined.

(** C2, as stated, fails at [2025-02-30]: the string does not denote a
    calendar date (February has 28 days in 2025), and the daily summary
    accepts it and queries the storage for it. *)
Lemma date_2025_02_30_is_accepted :
  let now := {| tsUtc := "2025-03-15T04:00:00.000Z"; tsSgDate := "2025-03-15";
                tsSgMonth := "2025-03"; year := 2025; month := 3 |} in
  let w := {| db := empty_db; calls := []; outbox := [] |} in
  denotes_calendar_date "2025-02-30" = false
  /\ ~ valid_date 2025 2 30
  /\ status (eval (apiDailySummary now (Some "2025-02-30"%string)) w) = 200
  /\ calls (exec (apiDailySummary now (Some "2025-02-30"%string)) w)
     = [SelectSumByDate "2025-02-30" DAILY_CATEGORIES]
  /\ (exists d, eval (getDailySummaryData now (Some "2025-02-30"%string)) w = inr d
                /\ ds_date d = "2025-02-30"%string).
Proof.
  intros now w. split; [reflexivity|]. split.
  - unfold valid_date. change (days_in_month 2025 2) with 28. lia.
  - split; [reflexivity|]. split; [reflexivity|].
    eexists. split; reflexivity.
Qed.

(** A date string that denotes a calendar date is of the strict form. *)
Lemma denotes_calendar_date_shaped s :
  denotes_calendar_date s = true -> date_shaped s.
Proof.
  intros H. apply matches_date_pattern_spec.
  unfold denotes_calendar_date, matches_date_pattern in *.
  destruct (list_ascii_of_string s)
    as [|y1 [|y2 [|y3 [|y4 [|h1 [|m1 [|m2 [|h2 [|d1 [|d2 [|x l]]]]]]]]]]];
    try discriminate.
  do 4 (apply andb_true_iff in H as [H _]).
  exact H.
Qed.

(** C7, at [0001-01-07]: the date is a Sunday, and the daily budget is the
    week-day budget.  [Date.UTC] reads the years 0 to 99 as 1900 to 1999,
    and 1901-01-07 was a Monday. *)
Theorem dailyBudget_of_0001_01_07 :
  valid_date 1 1 7
  /\ day_of_week 1 1 7 = 0
  /\ is_weekend 1 1 7 = true
  /\ dailyBudgetForSgDateString "0001-01-07" = WEEKDAY_DAILY_BUDGET
  /\ JsDate.UTC 1 0 7 = JsDate.UTC 1901 0 7
  /\ budget_daily (eval (dailySummaryFor "0001-01-07")
                        {| db := empty_db; calls := []; outbox := [] |})
     = JsNumber.of_Z 50.
Proof.
  split; [unfold valid_date; change (days_in_month 1 1) with 31; lia|].
  repeat split; vm_compute; reflexivity.
Qed.

(** The examples of the specification: 2025-03-15 is a Saturday and has the
    weekend budget, 80; 2024-02-29 is a Thursday and has the week-day
    budget, 50. *)
Example dailyBudget_2025_03_15 :
  day_of_week 2025 3 15 = 6
  /\ dailyBudgetForSgDateString "2025-03-15" = WEEKEND_DAILY_BUDGET
  /\ JsNumber.to_Q WEEKEND_DAILY_BUDGET = Some (80 # 1)%Q
  /\ budget_daily (eval (dailySummaryFor "2025-03-15")
                        {| db := empty_db; calls := []; outbox := [] |})
     = JsNumber.of_Z 80.
Proof. repeat split; vm_compute; reflexivity. Qed.

Example dailyBudget_2024_02_29 :
  day_of_week 2024 2 29 = 4
  /\ dailyBudgetForSgDateString "2024-02-29" = WEEKDAY_DAILY_BUDGET.
Proof. repeat split; vm_compute; reflexivity. Qed.

End ExplicitDates.

(** ** Date strings from the year 100 on *)

Section DateStrings.
Import CalendarSpec.

Lemma digit_char_not_hyphen n : Ascii.eqb (digit_char n) "-" = false.
Proof.
  unfold digit_char.
  assert (H : 0 <= n mod 10 < 10) by (apply Z.mod_pos_bound; lia).
  set (k := n mod 10) in *.
  assert (k = 0 \/ k = 1 \/ k = 2 \/ k = 3 \/ k = 4 \/ k = 5 \/ k = 6
          \/ k = 7 \/ k = 8 \/ k = 9) as Hc by lia.
  clearbody k. repeat (destruct Hc as [Hc | Hc]); subst k; reflexivity.
Qed.

Lemma split_format_date y m d :
  JsString.split_on "-" (format_date y m d)
  = [four_digits y; two_digits m; two_digits d].
Proof.
  unfold format_date, four_digits, two_digits.
  cbn [string_of_list_ascii JsString.split_on].
  rewrite !digit_char_not_hyphen. reflexivity.
Qed.

Lemma digit_char_decimal n :
  JsNumber.decimal_digit (digit_char n) = Some (n mod 10).
Proof.
  unfold digit_char.
  assert (H : 0 <= n mod 10 < 10) by (apply Z.mod_pos_bound; lia).
  set (k := n mod 10) in *.
  assert (k = 0 \/ k = 1 \/ k = 2 \/ k = 3 \/ k = 4 \/ k = 5 \/ k = 6
          \/ k = 7 \/ k = 8 \/ k = 9) as Hc by lia.
  clearbody k. repeat (destruct Hc as [Hc | Hc]); subst k; reflexivity.
Qed.

(** A decimal digit is none of the other characters the parser looks for. *)
Lemma decimal_digit_other c d other :
  JsNumber.decimal_digit c = Some d ->
  JsNumber.decimal_digit other = None ->
  Ascii.eqb c other = false.
Proof.
  intros H Ho. destruct (Ascii.eqb_spec c other) as [-> | ?]; [congruence | reflexivity].
Qed.

Lemma decimal_digit_not_whitespace c d :
  JsNumber.decimal_digit c = Some d -> JsString.is_whitespace c = false.
Proof.
  unfold JsNumber.decimal_digit, JsString.is_whitespace.
  generalize (N_of_ascii c). intros n H.
  destruct (N.leb_spec 48 n); [|discriminate].
  destruct (N.leb_spec n 57); [|discriminate].
  repeat (apply orb_false_iff; split); apply N.eqb_neq; lia.
Qed.

(** [StringToNumber] on a text that begins with a decimal digit and has no
    white space around it. *)
Lemma of_chars_head c l d :
  JsNumber.decimal_digit c = Some d ->
  JsString.trim_chars (c :: l) = c :: l ->
  JsNumber.of_chars (c :: l)
  = match JsNumber.parse_non_decimal (c :: l) with
    | Some n => JsNumber.of_decimal false n 0
    | None => JsNumber.parse_signed false (c :: l)
    end.
Proof.
  intros H Ht. unfold JsNumber.of_chars. rewrite Ht.
  destruct c as [[] [] [] [] [] [] [] []]; try reflexivity; discriminate H.
Qed.

Lemma parse_non_decimal_digits c1 c2 l d1 d2 :
  JsNumber.decimal_digit c1 = Some d1 ->
  JsNumber.decimal_digit c2 = Some d2 ->
  JsNumber.parse_non_decimal (c1 :: c2 :: l) = None.
Proof.
  intros H1 H2. unfold JsNumber.parse_non_decimal.
  rewrite !(decimal_digit_other c2 d2) by (exact H2 || reflexivity).
  destruct c1 as [[] [] [] [] [] [] [] []]; reflexivity.
Qed.

Lemma parse_signed_digits neg c l d :
  JsNumber.decimal_digit c = Some d ->
  JsNumber.parse_signed neg (c :: l)
  = match JsNumber.parse_unsigned_decimal (c :: l) with
    | Some (m, e) => JsNumber.of_decimal neg m e
    | None => JsNumber.NaN
    end.
Proof.
  intros H. unfold JsNumber.parse_signed.
  rewrite bool_decide_eq_false_2; [reflexivity|].
  intros E. injection E as -> _. discriminate H.
Qed.

(** [Number] on a text of decimal digits only, two or four of them. *)
Lemma of_chars_four_digits c1 c2 c3 c4 d1 d2 d3 d4 :
  JsNumber.decimal_digit c1 = Some d1 -> JsNumber.decimal_digit c2 = Some d2 ->
  JsNumber.decimal_digit c3 = Some d3 -> JsNumber.decimal_digit c4 = Some d4 ->
  JsNumber.of_chars [c1; c2; c3; c4]
  = JsNumber.of_decimal false (JsNumber.digits_value 10 [d1; d2; d3; d4]) 0.
Proof.
  intros H1 H2 H3 H4.
  rewrite (of_chars_head _ _ _ H1).
  - rewrite (parse_non_decimal_digits _ _ _ _ _ H1 H2).
    rewrite (parse_signed_digits _ _ _ _ H1).
    unfold JsNumber.parse_unsigned_decimal. cbn [JsNumber.read_digits].
    rewrite H1, H2, H3, H4. reflexivity.
  - unfold JsString.trim_chars. cbn [JsString.drop_whitespace].
    rewrite (decimal_digit_not_whitespace _ _ H1).
    cbn [rev app JsString.drop_whitespace].
    rewrite (decimal_digit_not_whitespace _ _ H4). reflexivity.
Qed.

Lemma of_chars_two_digits c1 c2 d1 d2 :
  JsNumber.decimal_digit c1 = Some d1 -> JsNumber.decimal_digit c2 = Some d2 ->
  JsNumber.of_chars [c1; c2]
  = JsNumber.of_decimal false (JsNumber.digits_value 10 [d1; d2]) 0.
Proof.
  intros H1 H2.
  rewrite (of_chars_head _ _ _ H1).
  - rewrite (parse_non_decimal_digits _ _ _ _ _ H1 H2).
    rewrite (parse_signed_digits _ _ _ _ H1).
    unfold JsNumber.parse_unsigned_decimal. cbn [JsNumber.read_digits].
    rewrite H1, H2. reflexivity.
  - unfold JsString.trim_chars. cbn [JsString.drop_whitespace].
    rewrite (decimal_digit_not_whitespace _ _ H1).
    cbn [rev app JsString.drop_whitespace].
    rewrite (decimal_digit_not_whitespace _ _ H2). reflexivity.
Qed.

Lemma Number_four_digits y :
  0 <= y <= 9999 ->
  JsNumber.Number (four_digits y) = JsNumber.of_Z y.
Proof.
  intros Hy. unfold JsNumber.Number, four_digits.
  rewrite list_ascii_of_string_of_list_ascii.
  rewrite (of_chars_four_digits _ _ _ _ _ _ _ _
             (digit_char_decimal _) (digit_char_decimal _)
             (digit_char_decimal _) (digit_char_decimal _)).
  assert (E : JsNumber.digits_value 10
                [(y / 1000) mod 10; (y / 100) mod 10; (y / 10) mod 10; y mod 10]
              = y).
  { unfold JsNumber.digits_value. cbn [fold_left].
    Z.div_mod_to_equations. lia. }
  rewrite E. apply NumberFacts.of_decimal_integer. lia.
Qed.

Lemma Number_two_digits n :
  0 <= n <= 99 ->
  JsNumber.Number (two_digits n) = JsNumber.of_Z n.
Proof.
  intros Hn. unfold JsNumber.Number, two_digits.
  rewrite list_ascii_of_string_of_list_ascii.
  rewrite (of_chars_two_digits _ _ _ _
             (digit_char_decimal _) (digit_char_decimal _)).
  assert (E : JsNumber.digits_value 10 [(n / 10) mod 10; n mod 10] = n).
  { unfold JsNumber.digits_value. cbn [fold_left].
    Z.div_mod_to_equations. lia. }
  rewrite E. apply NumberFacts.of_decimal_integer. lia.
Qed.

(** [month - 1] for the twelve months. *)
Lemma month_minus_one m :
  1 <= m <= 12 ->
  JsNumber.to_integer (JsNumber.sub (JsNumber.of_Z m) (JsNumber.of_Z 1))
  = Some (m - 1).
Proof.
  intros Hm.
  assert (m = 1 \/ m = 2 \/ m = 3 \/ m = 4 \/ m = 5 \/ m = 6 \/ m = 7
          \/ m = 8 \/ m = 9 \/ m = 10 \/ m = 11 \/ m = 12) as Hc by lia.
  clear Hm. repeat (destruct Hc as [Hc | Hc]); subst m; reflexivity.
Qed.

Lemma days_in_month_le_31 y m : days_in_month y m <= 31.
Proof.
  unfold days_in_month.
  repeat match goal with
         | |- context [match ?x with _ => _ end] => destruct x
         end; lia.
Qed.

(** From the year 100 on, the daily budget of the date string of a calendar
    date is the weekend budget when the date is a Saturday or a Sunday, and
    the week-day budget otherwise. *)
Lemma dailyBudget_from_year_100 y m d :
  100 <= y <= 9999 -> valid_date y m d ->
  dailyBudgetForSgDateString (format_date y m d)
  = if is_weekend y m d then WEEKEND_DAILY_BUDGET else WEEKDAY_DAILY_BUDGET.
Proof.
  intros Hy [Hm Hd]. pose proof (days_in_month_le_31 y m) as H31.
  unfold dailyBudgetForSgDateString. rewrite split_format_date.
  cbn [map nth].
  rewrite Number_four_digits by lia.
  rewrite !Number_two_digits by lia.
  rewrite month_minus_one by lia.
  rewrite !NumberFacts.to_integer_of_Z by lia.
  fold (weekend_day y m d).
  rewrite weekend_day_is_weekend by lia. reflexivity.
Qed.

End DateStrings.

(** * Further properties *)

(** ** What a Telegram update does to the world *)

Section UpdateEffects.

Lemma accepted_spec env update :
  match accepted env update with
  | None => dropped env update
  | Some (userId, chatId, txt) =>
      exists m, effective_message update = Some m
        /\ from_id m = Some userId /\ chat_id m = Some chatId
        /\ userId <> 0 /\ chatId <> 0
        /\ allowed_has (parseAllowedUserIds env) userId = true
        /\ txt = JsString.trim (default ""%string (text m))
  end.
Proof.
  unfold accepted, dropped, effective_message.
  destruct (match message update with Some m => Some m | None => edited_message update end)
    as [m|]; [|exact I].
  destruct (from_id m) as [u|] eqn:Hu; [|left; reflexivity].
  destruct (chat_id m) as [c|] eqn:Hc; [|right; right; left; reflexivity].
  destruct (Z.eqb_spec u 0) as [-> | Hu0]; [right; left; reflexivity|].
  destruct (Z.eqb_spec c 0) as [-> | Hc0]; [right; right; right; left; reflexivity|].
  cbn [orb].
  destruct (allowed_has (parseAllowedUserIds env) u) eqn:Ha; cbn [negb].
  - exists m. repeat split; assumption.
  - right; right; right; right. exists u. split; [reflexivity | exact Ha].
Qed.

Lemma dropped_not_accepted env update :
  dropped env update -> accepted env update = None.
Proof.
  intros Hd. pose proof (accepted_spec env update) as Hs.
  destruct (accepted env update) as [[[u c] txt]|]; [|reflexivity].
  destruct Hs as (m & Hm & Hu & Hc & Hu0 & Hc0 & Ha & _).
  unfold dropped in Hd. rewrite Hm in Hd.
  destruct Hd as [H | [H | [H | [H | (u' & H & Ha')]]]]; congruence.
Qed.

Lemma handled_accepted env update m userId chatId :
  effective_message update = Some m ->
  from_id m = Some userId -> chat_id m = Some chatId ->
  userId <> 0 -> chatId <> 0 ->
  allowed_has (parseAllowedUserIds env) userId = true ->
  accepted env update
  = Some (userId, chatId, JsString.trim (default ""%string (text m))).
Proof.
  intros Hm Hu Hc Hu0 Hc0 Ha.
  unfold accepted. unfold effective_message in Hm. rewrite Hm, Hu, Hc.
  rewrite (proj2 (Z.eqb_neq _ _) Hu0), (proj2 (Z.eqb_neq _ _) Hc0), Ha.
  reflexivity.
Qed.

(** An update without a message, without the identifier of the sender or of
    the chat, or from a sender who is not on the allow-list, is ignored
    silently: no call on the storage, no message, no change at all. *)
Theorem dropped_update_changes_nothing env now update w :
  dropped env update ->
  handleTelegramUpdate env now update w = (tt, w).
Proof.
  intros Hd. unfold handleTelegramUpdate.
  rewrite (dropped_not_accepted _ _ Hd). reflexivity.
Qed.

Lemma dropped_update_changes_nothing_witness :
  let env := {| ALLOWED_USER_IDS := "7, 8" |} in
  let now := {| tsUtc := "2025-03-15T04:00:00.000Z"; tsSgDate := "2025-03-15";
                tsSgMonth := "2025-03"; year := 2025; month := 3 |} in
  let update := {| message := Some {| from_id := Some 9; chat_id := Some 90;
                                      text := Some "/add"%string |};
                   edited_message := None |} in
  let w := {| db := empty_db; calls := []; outbox := [] |} in
  dropped env update /\ handleTelegramUpdate env now update w = (tt, w).
Proof.
  intros env now update w.
  assert (H : dropped env update).
  { unfold dropped. cbn. do 4 right. exists 9. split; [reflexivity|].
    vm_compute. reflexivity. }
  split; [exact H|].
  exact (dropped_update_changes_nothing env now update w H).
Defined.

Lemma silent_ret {A} (x : A) : silent (mret x).
Proof. intros w. reflexivity. Qed.

Lemma silent_storage {A} c (run : DB -> A * DB) : silent (storage c run).
Proof. intros w. unfold exec, storage. destruct (run (db w)). reflexivity. Qed.

Lemma silent_bind {A B} (m : M A) (f : A -> M B) :
  silent m -> (forall a, silent (f a)) -> silent (m ≫= f).
Proof.
  intros Hm Hf w. pose proof (Hm w) as H1.
  unfold exec in H1 |- *. unfold mbind, M_bind.
  destruct (m w) as [a w1]. cbn [snd] in H1. rewrite <- H1.
  apply (Hf a w1).
Qed.

Lemma sends_one_bind {A B} chatId (m : M A) (f : A -> M B) :
  silent m -> (forall a, sends_one chatId (f a)) -> sends_one chatId (m ≫= f).
Proof.
  intros Hm Hf w. pose proof (Hm w) as H1.
  unfold exec in H1 |- *. unfold mbind, M_bind.
  destruct (m w) as [a w1]. cbn [snd] in H1. rewrite <- H1.
  apply (Hf a w1).
Qed.

Lemma sends_one_sendMessage chatId reply markup :
  sends_one chatId (sendMessage chatId reply markup).
Proof. intros w. exists reply, markup. reflexivity. Qed.

Lemma silent_sumForDate sgDate categories : silent (sumForDate sgDate categories).
Proof. intros w. destruct categories; reflexivity. Qed.

Lemma silent_sumForMonth sgMonth categories :
  silent (sumForMonth sgMonth categories).
Proof. intros w. destruct categories; reflexivity. Qed.

Lemma silent_monthlySummaryFor y m : silent (monthlySummaryFor y m).
Proof.
  unfold monthlySummaryFor.
  apply silent_bind; [apply silent_sumForMonth | intros [a1 b1]].
  apply silent_bind; [apply silent_sumForMonth | intros [a2 b2]].
  apply silent_bind; [apply silent_sumForMonth | intros [a3 b3]].
  destruct (countWeekdaysWeekends y m). apply silent_ret.
Qed.

Lemma silent_dailySummaryFor sgDate : silent (dailySummaryFor sgDate).
Proof.
  unfold dailySummaryFor.
  apply silent_bind; [apply silent_sumForDate | intros [a b]].
  apply silent_ret.
Qed.

Lemma sends_one_dispatchCommand now chatId userId txt :
  sends_one chatId (dispatchCommand now chatId userId txt).
Proof.
  unfold dispatchCommand.
  destruct (bool_decide _); [apply sends_one_sendMessage|].
  destruct (bool_decide _).
  { unfold handleAdd. apply sends_one_bind; [apply silent_storage|].
    intros _. apply sends_one_sendMessage. }
  destruct (bool_decide _).
  { unfold handleToday. apply sends_one_bind; [apply silent_sumForDate|].
    intros [a b]. apply sends_one_sendMessage. }
  destruct (bool_decide _).
  { unfold handleMonth, sendMonthSummary.
    apply sends_one_bind; [apply silent_monthlySummaryFor|].
    intros s. apply sends_one_sendMessage. }
  apply sends_one_sendMessage.
Qed.

Lemma sends_one_converse now chatId userId txt :
  sends_one chatId (converse now chatId userId txt).
Proof.
  unfold converse. apply sends_one_bind; [apply silent_storage|].
  intros state.
  destruct (bool_decide _).
  { destruct (JsObject.has_property CATEGORIES txt).
    - apply sends_one_bind; [apply silent_storage|].
      intros _. apply sends_one_sendMessage.
    - apply sends_one_sendMessage. }
  destruct state as [[stp [cat|]]|]; try apply sends_one_sendMessage.
  destruct (_ && _); [|apply sends_one_sendMessage].
  destruct (negb (JsNumber.isFinite (JsNumber.Number txt)));
    [apply sends_one_sendMessage|].
  apply sends_one_bind; [apply silent_storage|]. intros _.
  apply sends_one_bind; [apply silent_storage|]. intros _.
  apply sends_one_sendMessage.
Qed.

(** Every update that passes the guards is answered with exactly one
    message, sent to the chat the update came from; this holds for every
    command, known or not, and for every free text in every state. *)
Theorem handled_update_gets_one_reply env now update m userId chatId w :
  effective_message update = Some m ->
  from_id m = Some userId -> chat_id m = Some chatId ->
  userId <> 0 -> chatId <> 0 ->
  allowed_has (parseAllowedUserIds env) userId = true ->
  exists reply markup,
    outbox (exec (handleTelegramUpdate env now update) w)
    = outbox w ++ [mkSentMessage chatId reply markup].
Proof.
  intros Hm Hu Hc Hu0 Hc0 Ha.
  unfold handleTelegramUpdate.
  rewrite (handled_accepted env update m userId chatId Hm Hu Hc Hu0 Hc0 Ha).
  destruct (JsString.startsWith "/" _).
  - apply (sends_one_bind chatId (clearUserState userId)
             (fun _ => dispatchCommand now chatId userId _)).
    + apply silent_storage.
    + intros _. apply sends_one_dispatchCommand.
  - apply sends_one_converse.
Qed.

Lemma handled_update_gets_one_reply_witness :
  let env := {| ALLOWED_USER_IDS := "7, 8" |} in
  let now := {| tsUtc := "2025-03-15T04:00:00.000Z"; tsSgDate := "2025-03-15";
                tsSgMonth := "2025-03"; year := 2025; month := 3 |} in
  let m := {| from_id := Some 7; chat_id := Some 70; text := Some "/nonsense"%string |} in
  let update := {| message := None; edited_message := Some m |} in
  let w := {| db := empty_db; calls := []; outbox := [] |} in
  effective_message update = Some m
  /\ from_id m = Some 7 /\ chat_id m = Some 70 /\ 7 <> 0 /\ 70 <> 0
  /\ allowed_has (parseAllowedUserIds env) 7 = true
  /\ exists reply markup,
       outbox (exec (handleTelegramUpdate env now update) w)
       = outbox w ++ [mkSentMessage 70 reply markup].
Proof.
  intros env now m update w.
  assert (H1 : effective_message update = Some m) by reflexivity.
  assert (H2 : from_id m = Some 7) by reflexivity.
  assert (H3 : chat_id m = Some 70) by reflexivity.
  assert (H4 : 7 <> 0) by lia.
  assert (H5 : 70 <> 0) by lia.
  assert (H6 : allowed_has (parseAllowedUserIds env) 7 = true)
    by (vm_compute; reflexivity).
  repeat (split; [assumption|]).
  exact (handled_update_gets_one_reply env now update m 7 70 w H1 H2 H3 H4 H5 H6).
Defined.

(** Handling an update leaves the state rows of every user but the sender
    as they are, and the expense table either as it is or with one more
    row at its end, a row of the sender stamped with the clock's date and
    month: no row is ever removed or rewritten. *)
Theorem update_touches_only_the_sender env now update w :
  let w' := exec (handleTelegramUpdate env now update) w in
  (forall other,
     (forall m, effective_message update = Some m -> from_id m <> Some other) ->
     user_state (db w') !! other = user_state (db w) !! other)
  /\ (expenses (db w') = expenses (db w)
      \/ exists m userId cat amt,
           effective_message update = Some m /\ from_id m = Some userId
           /\ expenses (db w') = expenses (db w) ++ [expense_row now userId cat amt]).
Proof.
  intros w'. subst w'. rewrite handleTelegramUpdate_db.
  pose proof (accepted_spec env update) as Hs.
  destruct (accepted env update) as [[[u c] txt]|];
    [|split; [reflexivity | left; reflexivity]].
  destruct Hs as (m & Hm & Hu & _).
  destruct (JsString.startsWith "/" txt).
  - rewrite dispatchCommand_db. split.
    + intros other Ho. specialize (Ho m Hm). rewrite Hu in Ho.
      assert (u <> other) by congruence.
      destruct (bool_decide _); cbn [db user_state exec clearUserState storage snd].
      * rewrite lookup_insert_ne, lookup_delete_ne by assumption. reflexivity.
      * rewrite lookup_delete_ne by assumption. reflexivity.
    + left. destruct (bool_decide _); reflexivity.
  - rewrite converse_db. split.
    + intros other Ho. specialize (Ho m Hm). rewrite Hu in Ho.
      assert (u <> other) by congruence.
      destruct (conversation_state _) as [| |cat]; [reflexivity | |].
      * destruct (JsObject.has_property CATEGORIES txt); [|reflexivity].
        cbn [user_state]. rewrite lookup_insert_ne by assumption. reflexivity.
      * destruct (JsNumber.isFinite (JsNumber.Number txt)); [|reflexivity].
        cbn [user_state]. rewrite lookup_delete_ne by assumption. reflexivity.
    + destruct (conversation_state _) as [| |cat]; [left; reflexivity | |].
      * left. destruct (JsObject.has_property CATEGORIES txt); reflexivity.
      * destruct (JsNumber.isFinite (JsNumber.Number txt));
          [|left; reflexivity].
        right. exists m, u, cat, (JsNumber.Number txt).
        repeat split; assumption || reflexivity.
Qed.

Lemma row_in_progress_state row :
  row_in_progress row ->
  conversation_state (Some row) = ChoosingCategory
  \/ exists c, row = {| step := "await_amount"; pending_category := Some c |}
              /\ JsObject.has_property CATEGORIES c = true
              /\ conversation_state (Some row) = AwaitingAmount c.
Proof.
  intros [-> | (c & -> & Hc)]; [left; reflexivity|].
  right. exists c. split; [reflexivity|]. split; [exact Hc|].
  assert (Hne : c <> ""%string) by (intros ->; discriminate Hc).
  cbn [conversation_state].
  rewrite bool_decide_eq_false_2 by discriminate.
  rewrite bool_decide_eq_true_2 by reflexivity.
  rewrite (bool_decide_eq_false_2 _ Hne). reflexivity.
Qed.

Lemma handleTelegramUpdate_preserves_wellformed env now update w :
  db_wellformed (db w) ->
  db_wellformed (db (exec (handleTelegramUpdate env now update) w)).
Proof.
  intros [Hrows Hexp]. rewrite handleTelegramUpdate_db.
  pose proof (accepted_spec env update) as Hs.
  destruct (accepted env update) as [[[u c] txt]|]; [|split; assumption].
  destruct Hs as (m & _ & _ & _ & Hu0 & _).
  destruct (JsString.startsWith "/" txt).
  - rewrite dispatchCommand_db.
    assert (Hdel : forall userId row,
               delete u (user_state (db w)) !! userId = Some row ->
               row_in_progress row).
    { intros userId row. rewrite lookup_delete. case_decide; [discriminate|].
      apply Hrows. }
    destruct (bool_decide _); (split; [|exact Hexp]); cbn [user_state db exec clearUserState storage snd].
    + intros userId row. rewrite lookup_insert.
      case_decide; [intros [= <-]; left; reflexivity | apply Hdel].
    + exact Hdel.
  - rewrite converse_db.
    destruct (user_state (db w) !! u) as [row|] eqn:Hrow;
      [|split; assumption].
    destruct (row_in_progress_state row (Hrows u row Hrow))
      as [-> | (cat & -> & Hcat & ->)].
    + destruct (JsObject.has_property CATEGORIES txt) eqn:Ht; [|split; assumption].
      split; [|exact Hexp]. cbn [user_state].
      intros userId r. rewrite lookup_insert.
      case_decide; [|apply Hrows].
      intros [= <-]. right. exists txt. split; [reflexivity | exact Ht].
    + destruct (JsNumber.isFinite (JsNumber.Number txt)) eqn:Hfin;
        [|split; assumption].
      split; cbn [user_state expenses].
      * intros userId r. rewrite lookup_delete. case_decide; [discriminate|].
        apply Hrows.
      * apply Forall_app. split; [exact Hexp|].
        constructor; [|constructor].
        split; [exact Hcat|]. split; [exact Hu0 | exact Hfin].
Qed.

(** In every world that the worker can reach, a state row is either
    [choose_category] without a category or [await_amount] with a category
    that passed the test [text in CATEGORIES] (a stored row is never idle:
    idle is the absence of a row), and every expense row has such a
    category, a sender identifier other than 0 and a finite amount:
    neither [NaN] nor an infinity is ever stored. *)
Theorem reachable_tables_wellformed w :
  reachable w -> db_wellformed (db w).
Proof.
  induction 1 as [|env now update w _ IH|now dateStr w _ IH|now yr mo w _ IH].
  - split; [|constructor]. intros u r. cbn. rewrite lookup_empty. discriminate.
  - apply handleTelegramUpdate_preserves_wellformed, IH.
  - rewrite read_only_apiDailySummary. exact IH.
  - rewrite read_only_apiMonthlySummary. exact IH.
Qed.

Lemma reachable_tables_wellformed_witness :
  let env := {| ALLOWED_USER_IDS := "7, 8" |} in
  let now := {| tsUtc := "2025-03-15T04:00:00.000Z"; tsSgDate := "2025-03-15";
                tsSgMonth := "2025-03"; year := 2025; month := 3 |} in
  let said t := {| message := Some {| from_id := Some 7; chat_id := Some 70;
                                      text := Some t |};
                   edited_message := None |} in
  let w := exec (handleTelegramUpdate env now (said "3.20"))
             (exec (handleTelegramUpdate env now (said "Drinks"))
                (exec (handleTelegramUpdate env now (said "/add"))
                   {| db := empty_db; calls := []; outbox := [] |})) in
  reachable w /\ db_wellformed (db w).
Proof.
  intros env now said w.
  assert (H : reachable w)
    by (repeat apply reachable_update; apply reachable_initial).
  split; [exact H | exact (reachable_tables_wellformed w H)].
Defined.

End UpdateEffects.

(** ** Commands and the whole dialogue *)

Section Dialogue.

Lemma first_word_slash txt w' :
  JsString.first_word txt = String "/" w' -> JsString.startsWith "/" txt = true.
Proof.
  destruct txt as [|c s]; [discriminate|].
  cbn. destruct (JsString.is_whitespace c); [discriminate|].
  intros [= -> _]. reflexivity.
Qed.

(** After a command the sender is choosing a category when the first word
    of the text is exactly [/add], and is idle after every other command,
    known or unknown, whatever the state was before; no command writes an
    expense. *)
Theorem state_after_command env now update userId chatId txt w :
  accepted env update = Some (userId, chatId, txt) ->
  JsString.startsWith "/" txt = true ->
  let w' := exec (handleTelegramUpdate env now update) w in
  conversation_state (user_state (db w') !! userId)
  = (if bool_decide (JsString.first_word txt = "/add"%string)
     then ChoosingCategory else Idle)
  /\ expenses (db w') = expenses (db w).
Proof.
  intros Ha Hs w'. subst w'.
  rewrite handleTelegramUpdate_db, Ha, Hs, dispatchCommand_db.
  destruct (bool_decide _); cbn [db user_state expenses exec clearUserState storage snd].
  - rewrite lookup_insert_eq. split; reflexivity.
  - rewrite lookup_delete_eq. split; reflexivity.
Qed.

Lemma state_after_command_witness :
  let env := {| ALLOWED_USER_IDS := "7, 8" |} in
  let now := {| tsUtc := "2025-03-15T04:00:00.000Z"; tsSgDate := "2025-03-15";
                tsSgMonth := "2025-03"; year := 2025; month := 3 |} in
  let update := {| message := Some {| from_id := Some 7; chat_id := Some 70;
                                      text := Some "/add lunch"%string |};
                   edited_message := None |} in
  let w := with_user_state 7 {| step := "await_amount";
                                pending_category := Some "Meals"%string |}
             {| db := empty_db; calls := []; outbox := [] |} in
  accepted env update = Some (7, 70, "/add lunch"%string)
  /\ JsString.startsWith "/" "/add lunch" = true
  /\ conversation_state
       (user_state (db (exec (handleTelegramUpdate env now update) w)) !! 7)
     = ChoosingCategory.
Proof.
  intros env now update w.
  assert (H1 : accepted env update = Some (7, 70, "/add lunch"%string))
    by (vm_compute; reflexivity).
  assert (H2 : JsString.startsWith "/" "/add lunch" = true) by reflexivity.
  split; [exact H1|]. split; [exact H2|].
  exact (proj1 (state_after_command env now update 7 70 "/add lunch" w H1 H2)).
Defined.

Lemma configured_name_is_no_command cat :
  JsObject.hasOwn CATEGORIES cat = true -> JsString.startsWith "/" cat = false.
Proof.
  intros H. apply hasOwn_CATEGORIES in H.
  repeat (apply elem_of_cons in H as [-> | H]; [reflexivity|]).
  apply elem_of_nil in H. contradiction.
Qed.

(** The whole dialogue: [/add], then the name of a configured category, then
    a text that [Number] converts to a finite amount, sent by one user in
    this order, add exactly one expense row, of that user, category and
    amount (the double that [Number] gives), stamped with the clock of the
    last message, and leave the user idle; the state the user was in
    before [/add] does not matter. *)
Theorem dialogue_records_one_expense
  env1 env2 env3 now1 now2 now3 up1 up2 up3 userId c1 c2 c3 t1 cat t3 w :
  accepted env1 up1 = Some (userId, c1, t1) ->
  JsString.first_word t1 = "/add"%string ->
  accepted env2 up2 = Some (userId, c2, cat) ->
  JsObject.hasOwn CATEGORIES cat = true ->
  accepted env3 up3 = Some (userId, c3, t3) ->
  JsString.startsWith "/" t3 = false ->
  JsNumber.isFinite (JsNumber.Number t3) = true ->
  let w3 := exec (handleTelegramUpdate env3 now3 up3)
              (exec (handleTelegramUpdate env2 now2 up2)
                 (exec (handleTelegramUpdate env1 now1 up1) w)) in
  expenses (db w3)
  = expenses (db w) ++ [expense_row now3 userId cat (JsNumber.Number t3)]
  /\ user_state (db w3) !! userId = None.
Proof.
  intros Ha1 Hw1 Ha2 Hcat Ha3 Hs3 Hn w3. subst w3.
  pose proof (first_word_slash _ _ Hw1) as Hs1.
  pose proof (configured_name_is_no_command _ Hcat) as Hs2.
  set (w1 := exec (handleTelegramUpdate env1 now1 up1) w).
  set (w2 := exec (handleTelegramUpdate env2 now2 up2) w1).
  assert (E1 : db w1 = {| expenses := expenses (db w);
                          user_state :=
                            <[userId := {| step := "choose_category";
                                           pending_category := None |}]>
                              (delete userId (user_state (db w))) |}).
  { subst w1. rewrite handleTelegramUpdate_db, Ha1, Hs1, dispatchCommand_db.
    rewrite bool_decide_eq_true_2 by exact Hw1. reflexivity. }
  assert (E2 : db w2 = {| expenses := expenses (db w);
                          user_state :=
                            <[userId := {| step := "await_amount";
                                           pending_category := Some cat |}]>
                              (user_state (db w1)) |}).
  { subst w2. rewrite handleTelegramUpdate_db, Ha2, Hs2, converse_db.
    rewrite E1. cbn [user_state expenses]. rewrite lookup_insert_eq.
    cbn [conversation_state]. rewrite bool_decide_eq_true_2 by reflexivity.
    unfold JsObject.has_property. rewrite Hcat. reflexivity. }
  rewrite handleTelegramUpdate_db, Ha3, Hs3, converse_db.
  rewrite E2. cbn [user_state expenses]. rewrite lookup_insert_eq.
  assert (Hne : cat <> ""%string) by (intros ->; discriminate Hcat).
  cbn [conversation_state].
  rewrite bool_decide_eq_false_2 by discriminate.
  rewrite bool_decide_eq_true_2 by reflexivity.
  rewrite (bool_decide_eq_false_2 _ Hne). cbn [andb negb]. rewrite Hn.
  cbn [expenses user_state].
  rewrite lookup_delete_eq. split; reflexivity.
Qed.

Lemma dialogue_records_one_expense_witness :
  let env := {| ALLOWED_USER_IDS := "7, 8" |} in
  let now := {| tsUtc := "2025-03-15T04:00:00.000Z"; tsSgDate := "2025-03-15";
                tsSgMonth := "2025-03"; year := 2025; month := 3 |} in
  let said t := {| message := Some {| from_id := Some 7; chat_id := Some 70;
                                      text := Some t |};
                   edited_message := None |} in
  let w := {| db := empty_db; calls := []; outbox := [] |} in
  let w3 := exec (handleTelegramUpdate env now (said "-5"))
              (exec (handleTelegramUpdate env now (said "Transport"))
                 (exec (handleTelegramUpdate env now (said "/add")) w)) in
  accepted env (said "/add") = Some (7, 70, "/add"%string)
  /\ JsString.first_word "/add" = "/add"%string
  /\ accepted env (said "Transport") = Some (7, 70, "Transport"%string)
  /\ JsObject.hasOwn CATEGORIES "Transport" = true
  /\ accepted env (said "-5") = Some (7, 70, "-5"%string)
  /\ JsString.startsWith "/" "-5" = false
  /\ JsNumber.isFinite (JsNumber.Number "-5") = true
  /\ expenses (db w3)
     = expenses (db w) ++ [expense_row now 7 "Transport" (JsNumber.Number "-5")]
  /\ user_state (db w3) !! 7 = None.
Proof.
  intros env now said w w3.
  assert (H1 : accepted env (said "/add") = Some (7, 70, "/add"%string))
    by (vm_compute; reflexivity).
  assert (H2 : JsString.first_word "/add" = "/add"%string) by reflexivity.
  assert (H3 : accepted env (said "Transport") = Some (7, 70, "Transport"%string))
    by (vm_compute; reflexivity).
  assert (H4 : JsObject.hasOwn CATEGORIES "Transport" = true) by reflexivity.
  assert (H5 : accepted env (said "-5") = Some (7, 70, "-5"%string))
    by (vm_compute; reflexivity).
  assert (H6 : JsString.startsWith "/" "-5" = false) by reflexivity.
  assert (H7 : JsNumber.isFinite (JsNumber.Number "-5") = true) by reflexivity.
  repeat (split; [assumption|]).
  exact (dialogue_records_one_expense env env env now now now
           (said "/add") (said "Transport") (said "-5")
           7 70 70 70 "/add" "Transport" "-5" w
           H1 H2 H3 H4 H5 H6 H7).
Defined.

End Dialogue.

(** ** The HTTP endpoints and the router *)

Section Endpoints.









Lemma silent_apiDailySummary now dateStr : silent (apiDailySummary now dateStr).
Proof.
  unfold apiDailySummary. destruct (resolve_date now dateStr).
  - apply silent_ret.
  - apply silent_bind; [apply silent_dailySummaryFor | intros d; apply silent_ret].
Qed.

Lemma silent_apiMonthlySummary now yr mo : silent (apiMonthlySummary now yr mo).
Proof.
  unfold apiMonthlySummary. destruct (invalid_month _).
  - apply silent_ret.
  - apply silent_bind; [apply silent_monthlySummaryFor | intros d; apply silent_ret].
Qed.



(** A request changes the tables or sends a Telegram message only if it is
    a POST to the webhook path with the configured path secret and carries
    the configured header token: every other request leaves the tables and
    the outbox as they are, and a webhook call with a wrong or missing
    header token is answered 401 before anything is read. *)
Theorem only_the_webhook_writes env secrets now request w :
  ~ (req_method request = "POST"%string
     /\ req_pathname request
        = "/telegram-webhook/" +:+ TELEGRAM_WEBHOOK_SECRET secrets
     /\ req_secret_token request = Some (TELEGRAM_HEADER_SECRET secrets)) ->
  db (exec (fetch env secrets now request) w) = db w
  /\ outbox (exec (fetch env secrets now request) w) = outbox w
  /\ (req_method request = "POST"%string ->
      req_pathname request
      = "/telegram-webhook/" +:+ TELEGRAM_WEBHOOK_SECRET secrets ->
      fetch env secrets now request w = (ServedText "Unauthorized" 401, w)).
Proof.
  intros Hnot. unfold fetch.
  destruct (bool_decide (req_method request = "POST"%string)
            && bool_decide (req_pathname request
                            = "/telegram-webhook/" +:+ TELEGRAM_WEBHOOK_SECRET secrets))
    eqn:E.
  - apply andb_true_iff in E as [Em Ep].
    apply bool_decide_eq_true_1 in Em, Ep.
    rewrite bool_decide_eq_false_2 by (intros Hh; apply Hnot; auto).
    cbn [negb]. repeat split; reflexivity.
  - assert (Hrest : forall m : M Served,
               read_only m -> silent m ->
               db (exec m w) = db w /\ outbox (exec m w) = outbox w
               /\ (req_method request = "POST"%string ->
                   req_pathname request
                   = "/telegram-webhook/" +:+ TELEGRAM_WEBHOOK_SECRET secrets ->
                   m w = (ServedText "Unauthorized" 401, w))).
    { intros m Hr Hsil. split; [apply Hr|]. split; [apply Hsil|].
      intros Hm Hp. exfalso.
      rewrite (bool_decide_eq_true_2 _ Hm), (bool_decide_eq_true_2 _ Hp) in E.
      discriminate E. }
    apply Hrest; repeat (destruct (_ && _)).
    all: first [ apply read_only_ret | apply silent_ret
               | apply read_only_bind;
                 [first [apply read_only_apiDailySummary
                        | apply read_only_apiMonthlySummary]
                 | intros r; apply read_only_ret]
               | apply silent_bind;
                 [first [apply silent_apiDailySummary
                        | apply silent_apiMonthlySummary]
                 | intros r; apply silent_ret] ].
Qed.

Lemma only_the_webhook_writes_witness :
  let env := {| ALLOWED_USER_IDS := "7, 8" |} in
  let secrets := {| TELEGRAM_WEBHOOK_SECRET := "path-secret";
                    TELEGRAM_HEADER_SECRET := "header-secret" |} in
  let now := {| tsUtc := "2025-03-15T04:00:00.000Z"; tsSgDate := "2025-03-15";
                tsSgMonth := "2025-03"; year := 2025; month := 3 |} in
  let request :=
    {| req_method := "POST"; req_pathname := "/telegram-webhook/path-secret";
       req_secret_token := None;
       req_json := {| message := Some {| from_id := Some 7; chat_id := Some 70;
                                         text := Some "/add"%string |};
                      edited_message := None |};
       req_date := None; req_year := None; req_month := None |} in
  let w := {| db := empty_db; calls := []; outbox := [] |} in
  ~ (req_method request = "POST"%string
     /\ req_pathname request
        = "/telegram-webhook/" +:+ TELEGRAM_WEBHOOK_SECRET secrets
     /\ req_secret_token request = Some (TELEGRAM_HEADER_SECRET secrets))
  /\ fetch env secrets now request w = (ServedText "Unauthorized" 401, w).
Proof.
  intros env secrets now request w.
  assert (H : ~ (req_method request = "POST"%string
                 /\ req_pathname request
                    = "/telegram-webhook/" +:+ TELEGRAM_WEBHOOK_SECRET secrets
                 /\ req_secret_token request = Some (TELEGRAM_HEADER_SECRET secrets)))
    by (intros (_ & _ & Hh); discriminate Hh).
  split; [exact H|].
  apply (only_the_webhook_writes env secrets now request w H); reflexivity.
Defined.

End Endpoints.

(** ** Calendar, budgets and the per-category map *)

Section FurtherCalendar.
Import JsDate CalendarSpec DateFacts JsObject ObjectFacts AggregationFacts.

Lemma daysInMonth_MakeFullYear y m :
  -271820 <= y <= 275759 -> 1 <= m <= 12 ->
  daysInMonth y m = Some (days_in_month (MakeFullYear y) m).
Proof.
  intros Hy Hm. unfold daysInMonth.
  rewrite UTC_in_range by lia. cbn [getDate fmap option_fmap option_map].
  rewrite DateFromTime_last_day by lia. reflexivity.
Qed.

Lemma days_in_month_bound y m : 0 <= days_in_month y m <= 31.
Proof.
  unfold days_in_month.
  repeat match goal with
         | |- context [match ?x with _ => _ end] => destruct x
         end; lia.
Qed.

Lemma filter_length_bound {A} (f : A -> bool) (l : list A) :
  (length (List.filter f l) <= length l)%nat.
Proof.
  induction l as [|a l IH]; [reflexivity|].
  cbn. destruct (f a); cbn; lia.
Qed.

(** Inside the range of [Date] the two counts are between 0 and 31. *)
Lemma countWeekdaysWeekends_bounds y m :
  -271820 <= y <= 275759 -> 1 <= m <= 12 ->
  0 <= fst (countWeekdaysWeekends y m) <= 31
  /\ 0 <= snd (countWeekdaysWeekends y m) <= 31.
Proof.
  intros Hy Hm. unfold countWeekdaysWeekends.
  rewrite daysInMonth_MakeFullYear by assumption.
  pose proof (days_in_month_bound (MakeFullYear y) m) as Hb.
  rewrite countWeekdaysWeekends_loop_counts. cbn [fst snd].
  rewrite Z2Nat.id by lia.
  set (n := days_in_month (MakeFullYear y) m) in *.
  pose proof (filter_length_bound (fun d => negb (weekend_day y m d)) (seqZ 1 n)) as H1.
  pose proof (filter_length_bound (weekend_day y m) (seqZ 1 n)) as H2.
  rewrite length_seqZ in H1, H2. lia.
Qed.

(** Outside the years 0 to 99 and inside the range of [Date], the two
    counts of [countWeekdaysWeekends] are the numbers of the days of the
    month that are, in the calendar, Mondays to Fridays and Saturdays or
    Sundays. *)
Theorem countWeekdaysWeekends_calendar y m :
  -271820 <= y <= 275759 -> ~ 0 <= y <= 99 -> 1 <= m <= 12 ->
  fst (countWeekdaysWeekends y m)
  = Z.of_nat (length (List.filter (fun d => negb (is_weekend y m d))
                                  (seqZ 1 (days_in_month y m))))
  /\ snd (countWeekdaysWeekends y m)
     = Z.of_nat (length (List.filter (is_weekend y m)
                                     (seqZ 1 (days_in_month y m)))).
Proof.
  intros Hy Hy' Hm.
  destruct (countWeekdaysWeekends_sum y m Hy Hm ltac:(lia)) as (_ & H1 & H2 & _).
  pose proof (days_in_month_bound y m) as Hb.
  assert (E : forall d, In d (seqZ 1 (days_in_month y m)) ->
                        weekend_day y m d = is_weekend y m d).
  { intros d Hd. apply list_elem_of_In, elem_of_seqZ in Hd.
    apply weekend_day_is_weekend; lia. }
  rewrite H1, H2. split; do 2 f_equal; apply List.filter_ext_in.
  - intros d Hd. rewrite (E d Hd). reflexivity.
  - exact E.
Qed.

Lemma countWeekdaysWeekends_calendar_witness :
  -271820 <= 2025 <= 275759 /\ ~ 0 <= 2025 <= 99 /\ 1 <= 3 <= 12
  /\ snd (countWeekdaysWeekends 2025 3)
     = Z.of_nat (length (List.filter (is_weekend 2025 3)
                                     (seqZ 1 (days_in_month 2025 3)))).
Proof.
  assert (H1 : -271820 <= 2025 <= 275759) by lia.
  assert (H2 : ~ 0 <= 2025 <= 99) by lia.
  assert (H3 : 1 <= 3 <= 12) by lia.
  repeat (split; [assumption|]).
  exact (proj2 (countWeekdaysWeekends_calendar 2025 3 H1 H2 H3)).
Defined.

(** The bucket budget for every pair of counts up to 31 is computed
    without rounding. *)
Lemma bucket_budget_table :
  forallb
    (fun weekdays =>
       forallb
         (fun weekends =>
            match JsNumber.to_Q
                    (JsNumber.add
                       (JsNumber.mul (JsNumber.of_Z weekdays) WEEKDAY_DAILY_BUDGET)
                       (JsNumber.mul (JsNumber.of_Z weekends) WEEKEND_DAILY_BUDGET))
            with
            | Some q =>
                (Qnum q =? weekdays * 50 + weekends * 80)
                && (Qden q =? 1)%positive
            | None => false
            end)
         (seqZ 0 32))
    (seqZ 0 32)
  = true.
Proof. vm_compute. reflexivity. Qed.

(** Inside the range of [Date], the monthly budget of the daily bucket is
    exactly 50 for each counted week day plus 80 for each counted weekend
    day: no product and no sum is rounded. *)
Theorem monthlyDailyBucketBudget_exact y m :
  -271820 <= y <= 275759 -> 1 <= m <= 12 ->
  JsNumber.to_Q (monthlyDailyBucketBudget y m)
  = Some (inject_Z (fst (countWeekdaysWeekends y m) * 50
                    + snd (countWeekdaysWeekends y m) * 80)).
Proof.
  intros Hy Hm. rewrite monthlyDailyBucketBudget_eq.
  destruct (countWeekdaysWeekends_bounds y m Hy Hm) as [Hwd Hwe].
  set (wd := fst (countWeekdaysWeekends y m)) in *.
  set (we := snd (countWeekdaysWeekends y m)) in *.
  pose proof bucket_budget_table as Ht.
  rewrite forallb_forall in Ht.
  specialize (Ht wd ltac:(apply list_elem_of_In, elem_of_seqZ; lia)).
  rewrite forallb_forall in Ht.
  specialize (Ht we ltac:(apply list_elem_of_In, elem_of_seqZ; lia)).
  cbv beta in Ht.
  destruct (JsNumber.to_Q _) as [[n d]|]; [|discriminate].
  apply andb_true_iff in Ht as [Hn Hd]. cbn [Qnum Qden] in Hn, Hd.
  apply Z.eqb_eq in Hn. apply Pos.eqb_eq in Hd. subst n d. reflexivity.
Qed.

Lemma monthlyDailyBucketBudget_exact_witness :
  -271820 <= 2025 <= 275759 /\ 1 <= 3 <= 12
  /\ JsNumber.to_Q (monthlyDailyBucketBudget 2025 3)
     = Some (inject_Z (fst (countWeekdaysWeekends 2025 3) * 50
                       + snd (countWeekdaysWeekends 2025 3) * 80)).
Proof.
  assert (H1 : -271820 <= 2025 <= 275759) by lia.
  assert (H2 : 1 <= 3 <= 12) by lia.
  repeat (split; [assumption|]).
  exact (monthlyDailyBucketBudget_exact 2025 3 H1 H2).
Defined.





End FurtherCalendar.

(** ** The keyboard, the date parameter and the allow-list *)

Section FurtherHandlers.

Lemma keyboard_rows_spec names : forall row,
  (length row < 3)%nat ->
  concat (keyboard_rows names row) = row ++ names
  /\ Forall (fun r => (1 <= length r <= 3)%nat) (keyboard_rows names row).
Proof.
  induction names as [|name names IH]; intros row Hrow.
  - cbn. destruct row as [|x row]; cbn.
    + split; [reflexivity | constructor].
    + rewrite !app_nil_r. split; [reflexivity|].
      constructor; [cbn in *; lia | constructor].
  - cbn [keyboard_rows].
    destruct (Nat.eqb_spec (length (row ++ [name])) 3) as [E | E].
    + destruct (IH [] ltac:(cbn; lia)) as [Hc Hf].
      cbn [concat]. rewrite Hc. cbn [app]. rewrite <- app_assoc.
      split; [reflexivity|]. constructor; [lia | exact Hf].
    + rewrite length_app in E. cbn in E.
      destruct (IH (row ++ [name])) as [Hc Hf].
      * rewrite length_app. cbn. lia.
      * rewrite Hc, <- app_assoc. split; [reflexivity | exact Hf].
Qed.

(** The names of a keyboard are laid out in their order, in rows of one to
    three names; read row by row they are the names given: none is lost,
    repeated or moved. *)
Theorem keyboard_rows_layout names :
  concat (keyboard_rows names []) = names
  /\ Forall (fun r => (1 <= length r <= 3)%nat) (keyboard_rows names [])
  /\ concat buildCategoryKeyboard = JsObject.keys CATEGORIES.
Proof.
  destruct (keyboard_rows_spec names [] ltac:(cbn; lia)) as [Hc Hf].
  split; [exact Hc|]. split; [exact Hf|].
  apply (keyboard_rows_spec (JsObject.keys CATEGORIES) []). cbn. lia.
Qed.

(** An absent date parameter and an empty one both stand for the date of
    the clock, which is used as it is: the daily summary is then that of
    the clock's date and is answered with status 200 after one query. *)
Theorem absent_date_is_today now w :
  apiDailySummary now None w = apiDailySummary now (Some ""%string) w
  /\ getDailySummaryData now None w = getDailySummaryData now (Some ""%string) w
  /\ apiDailySummary now None w
     = (jsonResponse (DailyBody (eval (dailySummaryFor (tsSgDate now)) w)) 200,
        logged (SelectSumByDate (tsSgDate now) DAILY_CATEGORIES) w)
  /\ ds_date (eval (dailySummaryFor (tsSgDate now)) w) = tsSgDate now.
Proof.
  split; [reflexivity|]. split; [reflexivity|].
  unfold apiDailySummary, resolve_date, eval, mbind, M_bind.
  rewrite dailySummaryFor_run. split; reflexivity.
Qed.

(** A month outside 1 to 12 is refused by the monthly summary, with status
    400 and without any call on the storage, whatever the year. *)
Theorem invalid_month_is_refused now yr mo w :
  ~ 1 <= default (month now) mo <= 12 ->
  apiMonthlySummary now yr mo w
  = (jsonResponse (ErrorBody "Invalid year or month") 400, w)
  /\ getMonthlySummaryData now yr mo w = (inl "Invalid year or month"%string, w).
Proof.
  intros Hm. unfold apiMonthlySummary, getMonthlySummaryData.
  assert (E : invalid_month (default (month now) mo) = true).
  { unfold invalid_month. rewrite Z.gtb_ltb. apply orb_true_iff.
    destruct (Z.ltb_spec (default (month now) mo) 1); [left; reflexivity|].
    right. apply Z.ltb_lt. lia. }
  rewrite E. split; reflexivity.
Qed.

Lemma invalid_month_is_refused_witness :
  let now := {| tsUtc := "2025-03-15T04:00:00.000Z"; tsSgDate := "2025-03-15";
                tsSgMonth := "2025-03"; year := 2025; month := 3 |} in
  let w := {| db := empty_db; calls := []; outbox := [] |} in
  ~ 1 <= default (month now) (Some 13) <= 12
  /\ apiMonthlySummary now None (Some 13) w
     = (jsonResponse (ErrorBody "Invalid year or month") 400, w).
Proof.
  intros now w.
  assert (H : ~ 1 <= default (month now) (Some 13) <= 12) by (cbn; lia).
  split; [exact H|].
  exact (proj1 (invalid_month_is_refused now None (Some 13) w H)).
Defined.

(** With an empty allow-list every update is ignored: nobody can use the
    bot. *)
Theorem empty_allow_list_admits_nobody now update w :
  handleTelegramUpdate {| ALLOWED_USER_IDS := "" |} now update w = (tt, w).
Proof.
  unfold handleTelegramUpdate, accepted.
  destruct (match message update with Some m => Some m | None => edited_message update end)
    as [m|]; [|reflexivity].
  destruct (from_id m) as [u|]; [|reflexivity].
  destruct (chat_id m) as [c|]; [|reflexivity].
  destruct ((u =? 0) || (c =? 0)); reflexivity.
Qed.

Lemma category_selection_witness :
  let env := {| ALLOWED_USER_IDS := "7, 8" |} in
  let now := {| tsUtc := "2025-03-15T04:00:00.000Z"; tsSgDate := "2025-03-15";
                tsSgMonth := "2025-03"; year := 2025; month := 3 |} in
  let update := {| message := Some {| from_id := Some 7; chat_id := Some 70;
                                      text := Some "Drinks"%string |};
                   edited_message := None |} in
  let w := with_user_state 7 {| step := "choose_category";
                                pending_category := None |}
             {| db := empty_db; calls := []; outbox := [] |} in
  accepted env update = Some (7, 70, "Drinks"%string)
  /\ JsString.startsWith "/" "Drinks" = false
  /\ conversation_state (user_state (db w) !! 7) = ChoosingCategory
  /\ (JsObject.hasOwn CATEGORIES "Drinks" = true ->
      conversation_state
        (user_state (db (exec (handleTelegramUpdate env now update) w)) !! 7)
      = AwaitingAmount "Drinks"
      /\ expenses (db (exec (handleTelegramUpdate env now update) w))
         = expenses (db w)).
Proof.
  intros env now update w.
  assert (H1 : accepted env update = Some (7, 70, "Drinks"%string))
    by (vm_compute; reflexivity).
  assert (H2 : JsString.startsWith "/" "Drinks" = false) by reflexivity.
  assert (H3 : conversation_state (user_state (db w) !! 7) = ChoosingCategory)
    by (vm_compute; reflexivity).
  repeat (split; [assumption|]).
  exact (proj1 (category_selection env now update 7 70 "Drinks" w H1 H2 H3)).
Defined.

Lemma amount_entry_witness :
  let env := {| ALLOWED_USER_IDS := "7, 8" |} in
  let now := {| tsUtc := "2025-03-15T04:00:00.000Z"; tsSgDate := "2025-03-15";
                tsSgMonth := "2025-03"; year := 2025; month := 3 |} in
  let update := {| message := Some {| from_id := Some 7; chat_id := Some 70;
                                      text := Some "1e999"%string |};
                   edited_message := None |} in
  let w := with_user_state 7 {| step := "await_amount";
                                pending_category := Some "Drinks"%string |}
             {| db := empty_db; calls := []; outbox := [] |} in
  accepted env update = Some (7, 70, "1e999"%string)
  /\ JsString.startsWith "/" "1e999" = false
  /\ conversation_state (user_state (db w) !! 7) = AwaitingAmount "Drinks"
  /\ JsNumber.isFinite (JsNumber.Number "1e999") = false
  /\ db (exec (handleTelegramUpdate env now update) w) = db w.
Proof.
  intros env now update w.
  assert (H1 : accepted env update = Some (7, 70, "1e999"%string))
    by (vm_compute; reflexivity).
  assert (H2 : JsString.startsWith "/" "1e999" = false) by reflexivity.
  assert (H3 : conversation_state (user_state (db w) !! 7) = AwaitingAmount "Drinks")
    by (vm_compute; reflexivity).
  assert (H4 : JsNumber.isFinite (JsNumber.Number "1e999") = false)
    by (vm_compute; reflexivity).
  repeat (split; [assumption|]).
  pose proof (amount_entry env now update 7 70 "1e999" "Drinks" w H1 H2 H3) as H.
  cbv zeta in H. rewrite H4 in H. exact H.
Defined.

Lemma first_expense_of_the_date_witness :
  let now := {| tsUtc := "2025-03-15T04:00:00.000Z"; tsSgDate := "2025-03-15";
                tsSgMonth := "2025-03"; year := 2025; month := 3 |} in
  let w := {| db := empty_db; calls := []; outbox := [] |} in
  "Meals"%string ∈ DAILY_CATEGORIES
  /\ on_date (tsSgDate now) DAILY_CATEGORIES (db w) = []
  /\ JsNumber.Number "12.50" = S754_finite false 7036874417766400 (-49)
  /\ spent_daily (eval (dailySummaryFor (tsSgDate now))
                       (exec (insertExpense now 7 "Meals"
                                (S754_finite false 7036874417766400 (-49))) w))
     = S754_finite false 7036874417766400 (-49).
Proof.
  intros now w.
  assert (H1 : "Meals"%string ∈ DAILY_CATEGORIES)
    by (rewrite DAILY_CATEGORIES_eq; left).
  assert (H2 : on_date (tsSgDate now) DAILY_CATEGORIES (db w) = [])
    by reflexivity.
  split; [exact H1|]. split; [exact H2|]. split; [reflexivity|].
  exact (proj2 (first_expense_of_the_date now 7 "Meals" false
                  7036874417766400 (-49) w H1 H2)).
Defined.

Lemma dailyBudget_from_year_100_witness :
  100 <= 2025 <= 9999 /\ CalendarSpec.valid_date 2025 3 15
  /\ dailyBudgetForSgDateString (format_date 2025 3 15)
     = (if CalendarSpec.is_weekend 2025 3 15
        then WEEKEND_DAILY_BUDGET else WEEKDAY_DAILY_BUDGET).
Proof.
  assert (H1 : 100 <= 2025 <= 9999) by lia.
  assert (H2 : CalendarSpec.valid_date 2025 3 15).
  { unfold CalendarSpec.valid_date.
    change (CalendarSpec.days_in_month 2025 3) with 31. lia. }
  repeat (split; [assumption|]).
  exact (dailyBudget_from_year_100 2025 3 15 H1 H2).
Defined.

End FurtherHandlers.

(** ** An insert seen by the monthly summary *)

Section FurtherMonthly.
Import JsObject ObjectFacts AggregationFacts.






End FurtherMonthly.
